(** * mcp-bitbucket: the aggregation layer of the tool handlers

    A shallow embedding of the tool handlers of [src/index.ts] (and of the
    comment listing of the earlier revision that still carries it), with the
    remote service left abstract: a handler is a finite tree of requests,
    run against any state machine that answers them. *)

From Stdlib Require Import ZArith NArith List String Ascii Bool Lia.
From Stdlib Require DecimalString.
Import ListNotations.

Set Warnings "-register-all".

Local Open Scope string_scope.
Local Open Scope Z_scope.

(** ** JavaScript values *)

Module Js.

(** Truthiness of a string that may be [undefined]: absent and empty are
    both falsy. *)
Definition truthy_str (o : option string) : bool :=
  match o with
  | Some s => negb (s =? "")%string
  | None => false
  end.

(** Truthiness of a number that may be [undefined]: absent and zero are
    both falsy.  Tool arguments and remote identifiers are modelled by the
    integers; zod's [z.number()] admits no NaN. *)
Definition truthy_num (o : option Z) : bool :=
  match o with
  | Some n => negb (n =? 0)
  | None => false
  end.

(** [a || b] on numbers. *)
Definition num_or (o : option Z) (d : Z) : Z :=
  match o with
  | Some n => if n =? 0 then d else n
  | None => d
  end.

(** [a || null] on strings. *)
Definition str_or_null (o : option string) : option string :=
  if truthy_str o then o else None.

(** A string inside a template literal. *)
Definition template (o : option string) : string :=
  match o with
  | Some s => s
  | None => "undefined"
  end.

Definition string_of_N (n : N) : string :=
  DecimalString.NilEmpty.string_of_uint (N.to_uint n).

(** The decimal numeral of an integer. *)
Definition decimal_of_Z (z : Z) : string :=
  if z <? 0 then "-" ++ string_of_N (Z.abs_N z) else string_of_N (Z.to_N z).

(** What [parseInt] can return on a run of digits: a finite integer-valued
    double, or [Infinity] when the numeral exceeds the range of doubles. *)
Inductive Num : Type :=
  | Finite (z : Z)
  | Infinity.

(** The Number value of a non-negative integer: the nearest double,
    ties to even; exact below 2^53. *)
Definition number_of_Z (n : Z) : Num :=
  if n <? 2 ^ 53 then Finite n
  else
    let e := Z.log2 n - 52 in
    let q := n / 2 ^ e in
    let r := n mod 2 ^ e in
    let half := 2 ^ (e - 1) in
    let q' :=
      if r <? half then q
      else if half <? r then q + 1
      else if Z.even q then q else q + 1 in
    let v := q' * 2 ^ e in
    if v <? 2 ^ 1024 then Finite v else Infinity.

(** The integer [v] reads as the number [x]. *)
Definition reads_as (x v : Z) : bool :=
  match number_of_Z v with
  | Finite y => y =? x
  | Infinity => false
  end.

(** Number::toString, the choice of the digits: the integer
    [s * 10^(n-k)] with [k] significant digits that reads as [x], the one
    closest to [x] when two do, the one with [s] even when both are as
    close; [n] is the number of digits of [x]. *)
Definition numeral_of_length (x n k : Z) : option Z :=
  if n <=? k then Some x
  else
    let p := 10 ^ (n - k) in
    let lo := x / p * p in
    let hi := lo + p in
    match reads_as x lo, reads_as x hi with
    | true, true =>
        Some (if x - lo <? hi - x then lo
              else if hi - x <? x - lo then hi
              else if Z.even (x / p) then lo else hi)
    | true, false => Some lo
    | false, true => Some hi
    | false, false => None
    end.

(** The numeral with the fewest significant digits, from [k] digits on. *)
Fixpoint shortest_from (fuel : nat) (x n k : Z) : Z :=
  match fuel with
  | O => x
  | S f =>
      match numeral_of_length x n k with
      | Some v => v
      | None => shortest_from f x n (k + 1)
      end
  end.

(** Seventeen significant digits tell any two doubles apart. *)
Definition shortest_numeral (x : Z) : Z :=
  shortest_from 17 x (Z.of_nat (String.length (string_of_N (Z.to_N x)))) 1.

Fixpoint rev_onto (s acc : string) : string :=
  match s with
  | EmptyString => acc
  | String c r => rev_onto r (String c acc)
  end.

Fixpoint drop_zeros (s : string) : string :=
  match s with
  | String "0" r => drop_zeros r
  | _ => s
  end.

(** The significant digits of a numeral: without its trailing zeros. *)
Definition significant (digits : string) : string :=
  rev_onto (drop_zeros (rev_onto digits "")) "".

(** Number::toString of a positive integer from 10^21 on:
    [d.ddde+N], the point left out after a single digit. *)
Definition exponent_form (v : Z) : string :=
  let digits := string_of_N (Z.to_N v) in
  match significant digits with
  | EmptyString => digits
  | String d rest =>
      String d (if (rest =? "")%string then "" else "." ++ rest)
      ++ "e+" ++ string_of_N (N.of_nat (String.length digits - 1))
  end.

(** A number inside a template literal (Number::toString).  An integer
    [z] stands for the number nearest to it, which is what [JSON.parse]
    makes of the numeral: below 10^21 its shortest numeral is printed in
    full, from there on in exponent form. *)
Definition string_of_Z (z : Z) : string :=
  match number_of_Z (Z.abs z) with
  | Infinity => if z <? 0 then "-Infinity" else "Infinity"
  | Finite x =>
      if x =? 0 then "0"
      else
        let v := shortest_numeral x in
        (if z <? 0 then "-" else "")
        ++ (if v <? 10 ^ 21 then string_of_N (Z.to_N v) else exponent_form v)
  end.

Definition is_digit (c : ascii) : bool :=
  ((48 <=? nat_of_ascii c) && (nat_of_ascii c <=? 57))%nat.

Definition digit_value (c : ascii) : Z :=
  Z.of_nat (nat_of_ascii c) - 48.

Definition starts_with_digit (s : string) : bool :=
  match s with
  | String c _ => is_digit c
  | EmptyString => false
  end.

(** The longest prefix matched by [\d+] (greedy). *)
Fixpoint take_digits (s : string) : string :=
  match s with
  | String c r => if is_digit c then String c (take_digits r) else ""
  | EmptyString => ""
  end.

(** [s.match(/#(\d+)/)]: [None] is the [null] of a failed match, [Some ds]
    is capture group 1 of the leftmost match. *)
Fixpoint match_hash_digits (s : string) : option string :=
  match s with
  | EmptyString => None
  | String c r =>
      if (c =? "#")%char && starts_with_digit r then Some (take_digits r)
      else match_hash_digits r
  end.

Fixpoint decimal_acc (acc : Z) (s : string) : Z :=
  match s with
  | EmptyString => acc
  | String c r => decimal_acc (acc * 10 + digit_value c) r
  end.

(** The integer a decimal numeral denotes. *)
Definition decimal_value (s : string) : Z := decimal_acc 0 s.

(** [parseInt] on the capture of [\d+]: the argument is a non-empty run of
    ASCII digits, so neither white space, sign nor radix prefix occurs and
    the result is the Number value of the numeral. *)
Definition parseInt (ds : string) : Num :=
  number_of_Z (decimal_value (take_digits ds)).

Fixpoint all_digits (s : string) : bool :=
  match s with
  | EmptyString => true
  | String c r => is_digit c && all_digits r
  end.

End Js.

(** ** Errors *)

(** The outcome of an expression that may throw; an exception is
    represented by its [message]. *)
Inductive Result (A : Type) : Type :=
  | Ok (a : A)
  | Throw (message : string).
Arguments Ok {A} a.
Arguments Throw {A} message.

(** ** The derived pull-request id ([src/index.ts], lines 516-518) *)

(** [const prIdMatch = commitMessage?.match(/#(\d+)/);
     const pr_id = prIdMatch ? parseInt(prIdMatch[1]) : null;] *)
Definition derive_pr_id (commitMessage : option string) : option Js.Num :=
  match commitMessage with
  | None => None
  | Some m =>
      match Js.match_hash_digits m with
      | Some ds => Some (Js.parseInt ds)
      | None => None
      end
  end.

(** ** Data of the remote service *)

(** A value the handlers only pass through ([any] in the source). *)
Inductive Value : Type :=
  | VUndefined
  | VNull
  | VBool (b : bool)
  | VNum (n : Z)
  | VStr (s : string)
  | VArr (items : list Value)
  | VObj (fields : list (string * Value)).

(** A paged collection as the remote service returns it. *)
Record Page (T : Type) : Type := mkPage {
  values : list T;
  size : Value;
  next : option string;
  previous : option string
}.
Arguments mkPage {T}.
Arguments values {T}.
Arguments size {T}.
Arguments next {T}.
Arguments previous {T}.

Record RawReviewer : Type := mkRawReviewer {
  rv_display_name : Value;
  rv_approved : Value
}.

(** A pull request of the remote service.  What a handler dereferences
    without a guard is a field; what it guards with [?.] or [||] is an
    option. *)
Record RawPR : Type := mkRawPR {
  pr_id : Z;
  pr_title : Value;
  pr_description : Value;
  pr_state : Value;
  pr_author_display_name : Value;
  pr_created_on : Value;
  pr_updated_on : Value;
  pr_source_branch_name : Value;
  pr_destination_branch_name : Value;
  pr_links_html_href : Value;
  pr_reviewers : option (list RawReviewer)
}.

Record RawCommit : Type := mkRawCommit {
  rc_hash : string;
  rc_message : Value;
  rc_author_user_display_name : option string;
  rc_author_raw : option string;
  rc_date : Value
}.

(** [target.commit] of a pipeline. *)
Record TargetCommit : Type := mkTargetCommit {
  tc_hash : option string;
  tc_message : option string;
  tc_other : Value
}.

Record Target : Type := mkTarget {
  tg_commit : option TargetCommit;
  tg_other : Value
}.

Record RawPipeline : Type := mkRawPipeline {
  rp_state : Value;
  rp_created_on : Value;
  rp_completed_on : Value;
  rp_run_number : Value;
  rp_duration_in_seconds : Value;
  rp_target : option Target;
  rp_uuid : Value;
  rp_build_number : Value;
  rp_trigger : Value;
  rp_links : Value
}.

(** The body of [GET commit/{hash}]; only [message] is read. *)
Record CommitDetail : Type := mkCommitDetail {
  cd_message : option string
}.

Record Inline : Type := mkInline {
  from : option Z;
  to : option Z;
  path : string
}.

Record RawComment : Type := mkRawComment {
  cm_id : Value;
  cm_content_raw : string;
  cm_user_display_name : Value;
  cm_created_on : Value;
  cm_updated_on : Value;
  cm_type : Value;
  cm_inline : option Inline;
  cm_links_html_href : Value
}.

(** The JSON body of a comment creation: [{content: {raw}}], with an
    [inline] block for an inline comment. *)
Record CommentPayload : Type := mkCommentPayload {
  cp_raw : string;
  cp_inline : option Inline
}.

Inductive PRState : Type := OPEN | MERGED | DECLINED.

Inductive PipelineState : Type :=
  | IN_PROGRESS | SUCCESSFUL | FAILED | STOPPED | SKIPPED | PENDING | ERROR.

(** ** Requests and responses *)

(** The requests the handlers issue, by endpoint and parameters (the
    authorization header is the same on all of them). *)
Inductive Request : Type :=
  | ListPullRequests (state : PRState) (pagelen page : Z)
      (destination : option string)
  | GetPullRequest (id : Z)
  | SearchPullRequests (source_branch : string)
  | GetPullRequestCommits (id : Z)
  | GetPullRequestDiff (id : Z)
  | GetCommitDiff (hash : string)
  | GetCommit (hash : string)
  | ListPipelines (pagelen page : Z) (state : option PipelineState)
      (ref_name : option string)
  | ListComments (id : Z) (pagelen : Z) (page : option Z)
  | PostComment (id : Z) (body : CommentPayload).

(** The schema of the JSON body of each endpoint. *)
Definition payload (r : Request) : Type :=
  match r with
  | ListPullRequests _ _ _ _ => Page RawPR
  | GetPullRequest _ => RawPR
  | SearchPullRequests _ => Page RawPR
  | GetPullRequestCommits _ => Page RawCommit
  | GetPullRequestDiff _ => unit
  | GetCommitDiff _ => unit
  | GetCommit _ => CommitDetail
  | ListPipelines _ _ _ _ => Page RawPipeline
  | ListComments _ _ _ => Page RawComment
  | PostComment _ _ => RawComment
  end.

(** A response: [text] is what [response.text()] resolves to, [json] what
    [response.json()] resolves to; either rejects with a message when the
    body cannot be read that way. *)
Record Response (T : Type) : Type := mkResponse {
  status : N;
  statusText : string;
  text : Result string;
  json : Result T
}.
Arguments mkResponse {T}.
Arguments status {T}.
Arguments statusText {T}.
Arguments text {T}.
Arguments json {T}.

(** [response.ok]: the status is in the range 200-299. *)
Definition ok {T} (r : Response T) : bool :=
  ((200 <=? status r) && (status r <=? 299))%N.

(** What awaiting [fetch] gives: a rejection (network failure) or a
    response. *)
Inductive FetchResult (T : Type) : Type :=
  | NetworkError (message : string)
  | Responded (resp : Response T).
Arguments NetworkError {T} message.
Arguments Responded {T} resp.

(** ** Handlers as request trees *)

(** A computation that issues requests and continues with the answers. *)
Inductive Prog (A : Type) : Type :=
  | Ret (a : A)
  | Vis (r : Request) (k : FetchResult (payload r) -> Prog A).
Arguments Ret {A} a.
Arguments Vis {A} r k.

Fixpoint bind {A B} (p : Prog A) (f : A -> Prog B) : Prog B :=
  match p with
  | Ret a => f a
  | Vis r k => Vis r (fun x => bind (k x) f)
  end.

(** A computation that may also throw. *)
Definition Exc (A : Type) : Type := Prog (Result A).

Definition ret {A} (a : A) : Exc A := Ret (Ok a).

Definition throw {A} (message : string) : Exc A := Ret (Throw message).

Definition bindE {A B} (p : Exc A) (f : A -> Exc B) : Exc B :=
  bind p (fun r =>
    match r with
    | Ok a => f a
    | Throw m => Ret (Throw m)
    end).

(** [await fetch(...)]: a rejection is thrown. *)
Definition fetch (r : Request) : Exc (Response (payload r)) :=
  Vis r (fun x =>
    match x with
    | NetworkError m => Ret (Throw m)
    | Responded resp => Ret (Ok resp)
    end).

(** [await response.json()], [await response.text()]. *)
Definition await {A} (r : Result A) : Exc A := Ret r.

(** [try { p } catch (error) { h (error.message) }] inside a function
    body. *)
Definition try_catch {A} (p : Exc A) (h : string -> Exc A) : Exc A :=
  bind p (fun r =>
    match r with
    | Ok a => Ret (Ok a)
    | Throw m => h m
    end).

(** A function body [try { return p } catch (error) { return h (...) }]:
    nothing escapes. *)
Definition try_return {A} (p : Exc A) (h : string -> A) : Prog A :=
  bind p (fun r =>
    match r with
    | Ok a => Ret a
    | Throw m => Ret (h m)
    end).

Declare Scope prog_scope.
Delimit Scope prog_scope with prog.
Notation "x <- p ;; q" := (bindE p (fun x => q))
  (at level 61, p at next level, right associativity) : prog_scope.

(** Running a computation against a remote service: a state machine that
    answers each request and moves on.  The result comes with the final
    state and the requests issued, in order. *)
Section Run.

Context {W : Type}.
Variable respond : forall r : Request, W -> FetchResult (payload r) * W.

Fixpoint run {A} (p : Prog A) (s : W) : A * W * list Request :=
  match p with
  | Ret a => (a, s, [])
  | Vis r k =>
      let '(x, s1) := respond r s in
      let '(a, s2, tr) := run (k x) s1 in
      (a, s2, r :: tr)
  end.

End Run.

(** The first request of a computation, if it issues any. *)
Definition first_request {A} (p : Prog A) : option Request :=
  match p with
  | Ret _ => None
  | Vis r _ => Some r
  end.

(** ** Tool results *)

Inductive Content (P : Type) : Type :=
  | PlainText (s : string)
  | Stringified (p : P).
Arguments PlainText {P} s.
Arguments Stringified {P} p.

(** [{content: [{type: "text", text}], isError}]; [Stringified p] is the
    text [JSON.stringify(p, null, 2)], [isError = false] an absent flag. *)
Record ToolResult (P : Type) : Type := mkToolResult {
  content : Content P;
  isError : bool
}.
Arguments mkToolResult {P}.
Arguments content {P}.
Arguments isError {P}.

Definition error_result {P} (msg : string) : ToolResult P :=
  mkToolResult (PlainText msg) true.

Definition api_error {T} (r : Response T) : string :=
  "Bitbucket API error: " ++ Js.string_of_N (status r) ++ " " ++ statusText r.

Local Open Scope prog_scope.

(** ** [get_pr_details] ([src/index.ts], lines 143-338) *)

Record Reviewer : Type := mkReviewer {
  display_name : Value;
  approved : Value
}.

(** A commit of the result; [c_diff = None] is a record without the key
    [diff], [Some None] the key with [null]. *)
Record CommitData : Type := mkCommitData {
  c_hash : string;
  c_message : Value;
  c_author : option string;
  c_date : Value;
  c_diff : option (option string)
}.

(** An element of [commits: any[]]: a commit record, or the string that
    stands in for the whole list. *)
Inductive CommitEntry : Type :=
  | CommitInfo (c : CommitData)
  | CommitsError (s : string).

Record PullRequestDetails : Type := mkPullRequestDetails {
  d_id : Z;
  d_title : Value;
  d_state : Value;
  d_author : Value;
  d_created_on : Value;
  d_updated_on : Value;
  d_source_branch : Value;
  d_destination_branch : Value;
  d_links_html : Value;
  d_reviewers : list Reviewer;
  d_commits : list CommitEntry
}.

Record DetailsPayload : Type := mkDetailsPayload {
  search_method : string;
  pull_request : PullRequestDetails
}.

Record DetailsArgs : Type := mkDetailsArgs {
  source_branch : option string;
  pr_id_arg : option Z;
  include_diff : option bool
}.

(** The validation failure of lines 159-169. *)
Definition selector_required {P} : ToolResult P :=
  mkToolResult (PlainText "Either source_branch or pr_id must be provided") true.

(** The early return of lines 216-225: a plain text, no error flag. *)
Definition not_found {P} (source_branch : option string) : ToolResult P :=
  mkToolResult
    (PlainText ("No pull request found for source branch: "
                ++ Js.template source_branch))
    false.

(** Lines 179-228, the same in [get_pr_with_diff]: the pull request, or
    the result to return at once. *)
Definition resolve_pull_request {P} (source_branch : option string)
    (pr_id : option Z) : Exc (RawPR + ToolResult P) :=
  if Js.truthy_num pr_id then
    prResponse <- fetch (GetPullRequest (Js.num_or pr_id 0)) ;;
    if negb (ok prResponse) then throw (api_error prResponse)
    else
      pr <- await (json prResponse) ;;
      ret (inl pr)
  else
    searchResponse <- fetch (SearchPullRequests (Js.template source_branch)) ;;
    if negb (ok searchResponse) then throw (api_error searchResponse)
    else
      searchData <- await (json searchResponse) ;;
      match values searchData with
      | [] => ret (inr (not_found source_branch))
      | pr :: _ => ret (inl pr)
      end.

(** Lines 246-267: the diff of one commit, [null] when not requested. *)
Definition commit_diff (shouldIncludeDiff : bool) (commit : RawCommit)
    : Exc (option string) :=
  if shouldIncludeDiff then
    try_catch
      (commitDiffResponse <- fetch (GetCommitDiff (rc_hash commit)) ;;
       if ok commitDiffResponse then
         t <- await (text commitDiffResponse) ;;
         ret (Some t)
       else
         ret (Some ("Error fetching diff: "
                    ++ Js.string_of_N (status commitDiffResponse) ++ " "
                    ++ statusText commitDiffResponse)))
      (fun m => ret (Some ("Error fetching diff: " ++ m)))
  else ret None.

(** Lines 269-278: the record of one commit. *)
Definition commit_data (shouldIncludeDiff : bool) (commit : RawCommit)
    (diff : option string) : CommitData :=
  {| c_hash := rc_hash commit;
     c_message := rc_message commit;
     c_author :=
       if Js.truthy_str (rc_author_user_display_name commit)
       then rc_author_user_display_name commit
       else rc_author_raw commit;
     c_date := rc_date commit;
     c_diff := if shouldIncludeDiff then Some diff else None |}.

(** Lines 245-281: the loop over [commitsData.values]. *)
Fixpoint commit_loop (shouldIncludeDiff : bool) (commits : list RawCommit)
    : Exc (list CommitEntry) :=
  match commits with
  | [] => ret []
  | commit :: rest =>
      diff <- commit_diff shouldIncludeDiff commit ;;
      pushed <- commit_loop shouldIncludeDiff rest ;;
      ret (CommitInfo (commit_data shouldIncludeDiff commit diff) :: pushed)
  end.

(** [pr.reviewers?.map(...) || []]. *)
Definition reviewers_of (pr : RawPR) : list Reviewer :=
  match pr_reviewers pr with
  | Some rs =>
      map (fun r => mkReviewer (rv_display_name r) (rv_approved r)) rs
  | None => []
  end.

(** Lines 288-307. *)
Definition pr_details (pr : RawPR) (commits : list CommitEntry)
    : PullRequestDetails :=
  {| d_id := pr_id pr;
     d_title := pr_title pr;
     d_state := pr_state pr;
     d_author := pr_author_display_name pr;
     d_created_on := pr_created_on pr;
     d_updated_on := pr_updated_on pr;
     d_source_branch := pr_source_branch_name pr;
     d_destination_branch := pr_destination_branch_name pr;
     d_links_html := pr_links_html_href pr;
     d_reviewers := reviewers_of pr;
     d_commits := commits |}.

(** Lines 315-317. *)
Definition search_method_of (source_branch : option string)
    (pr_id : option Z) : string :=
  if Js.truthy_num pr_id then "pr_id: " ++ Js.string_of_Z (Js.num_or pr_id 0)
  else "source_branch: " ++ Js.template source_branch.

(** Lines 230-325: what follows the resolution of the pull request. *)
Definition details_of (args : DetailsArgs) (pr : RawPR)
    : Exc (ToolResult DetailsPayload) :=
  let shouldIncludeDiff :=
    match include_diff args with
    | Some true => true
    | _ => false
    end in
  commitsResponse <- fetch (GetPullRequestCommits (pr_id pr)) ;;
  commits <-
    (if ok commitsResponse then
       commitsData <- await (json commitsResponse) ;;
       commit_loop shouldIncludeDiff (values commitsData)
     else
       ret [CommitsError
              ("Error fetching commits: "
               ++ Js.string_of_N (status commitsResponse) ++ " "
               ++ statusText commitsResponse)]) ;;
  ret (mkToolResult
         (Stringified
            {| search_method :=
                 search_method_of (source_branch args) (pr_id_arg args);
               pull_request := pr_details pr commits |})
         false).

Definition get_pr_details (args : DetailsArgs)
    : Prog (ToolResult DetailsPayload) :=
  if negb (Js.truthy_str (source_branch args))
     && negb (Js.truthy_num (pr_id_arg args))
  then Ret selector_required
  else
    try_return
      (resolved <- resolve_pull_request (source_branch args) (pr_id_arg args) ;;
       match resolved with
       | inr early => ret early
       | inl pr => details_of args pr
       end)
      (fun m => error_result ("Error fetching PR with diff: " ++ m)).

(** ** [get_pr_with_diff] (earlier revision, lines 208-365) *)

Record PullRequestWithDiff : Type := mkPullRequestWithDiff {
  w_id : Z;
  w_title : Value;
  w_description : Value;
  w_state : Value;
  w_author : Value;
  w_created_on : Value;
  w_updated_on : Value;
  w_source_branch : Value;
  w_destination_branch : Value;
  w_links_html : Value;
  w_reviewers : list Reviewer;
  w_diff : option string
}.

Record WithDiffPayload : Type := mkWithDiffPayload {
  w_search_method : string;
  w_pull_request : PullRequestWithDiff
}.

(** Lines 295-352. *)
Definition with_diff_of (args : DetailsArgs) (pr : RawPR)
    : Exc (ToolResult WithDiffPayload) :=
  let includeDiff :=
    match include_diff args with
    | Some false => false
    | _ => true
    end in
  diffContent <-
    (if includeDiff then
       diffResponse <- fetch (GetPullRequestDiff (pr_id pr)) ;;
       if ok diffResponse then
         t <- await (text diffResponse) ;;
         ret (Some t)
       else
         ret (Some ("Error fetching diff: "
                    ++ Js.string_of_N (status diffResponse) ++ " "
                    ++ statusText diffResponse))
     else ret None) ;;
  ret (mkToolResult
         (Stringified
            {| w_search_method :=
                 search_method_of (source_branch args) (pr_id_arg args);
               w_pull_request :=
                 {| w_id := pr_id pr;
                    w_title := pr_title pr;
                    w_description := pr_description pr;
                    w_state := pr_state pr;
                    w_author := pr_author_display_name pr;
                    w_created_on := pr_created_on pr;
                    w_updated_on := pr_updated_on pr;
                    w_source_branch := pr_source_branch_name pr;
                    w_destination_branch := pr_destination_branch_name pr;
                    w_links_html := pr_links_html_href pr;
                    w_reviewers := reviewers_of pr;
                    w_diff := diffContent |} |})
         false).

Definition get_pr_with_diff (args : DetailsArgs)
    : Prog (ToolResult WithDiffPayload) :=
  if negb (Js.truthy_str (source_branch args))
     && negb (Js.truthy_num (pr_id_arg args))
  then Ret selector_required
  else
    try_return
      (resolved <- resolve_pull_request (source_branch args) (pr_id_arg args) ;;
       match resolved with
       | inr early => ret early
       | inl pr => with_diff_of args pr
       end)
      (fun m => error_result ("Error fetching PR with diff: " ++ m)).

(** ** [list_pull_requests] ([src/index.ts], lines 40-140) *)

Record ListArgs (S : Type) : Type := mkListArgs {
  state_arg : option S;
  limit : option Z;
  page_arg : option Z;
  target_branch : option string
}.
Arguments mkListArgs {S}.
Arguments state_arg {S}.
Arguments limit {S}.
Arguments page_arg {S}.
Arguments target_branch {S}.

(** [z.number().min(lo).optional()], [z.number().min(lo).max(hi).optional()]:
    an absent argument passes, a present one must lie within the bounds,
    both inclusive. *)
Definition optional_min (lo : Z) (o : option Z) : bool :=
  match o with
  | Some n => lo <=? n
  | None => true
  end.

Definition optional_min_max (lo hi : Z) (o : option Z) : bool :=
  match o with
  | Some n => (lo <=? n) && (n <=? hi)
  | None => true
  end.

(** The parameter schema of lines 44-63 (the same on [list_pipelines],
    lines 426-453). *)
Definition list_schema {S} (args : ListArgs S) : bool :=
  optional_min_max 1 100 (limit args) && optional_min 1 (page_arg args).

(** The outcome of a [tools/call]: the server validates the arguments
    against the schema the tool was registered with and calls the handler
    only when they pass; otherwise the call is refused for its parameters
    and the handler does not run. *)
Inductive CallOutcome (R : Type) : Type :=
  | InvalidParams
  | Handled (result : R).
Arguments InvalidParams {R}.
Arguments Handled {R} result.

Definition call_tool {A R} (schema : A -> bool) (handler : A -> Prog R)
    (args : A) : Prog (CallOutcome R) :=
  if schema args then bind (handler args) (fun r => Ret (Handled r))
  else Ret InvalidParams.

Record PullRequestSummary : Type := mkPullRequestSummary {
  s_id : Z;
  s_title : Value;
  s_description : Value;
  s_state : Value;
  s_author : Value;
  s_created_on : Value;
  s_updated_on : Value;
  s_source_branch : Value;
  s_destination_branch : Value;
  s_links_html : Value
}.

Record ListPayload (T : Type) : Type := mkListPayload {
  total_count : Value;
  page : Z;
  page_length : Z;
  l_next : option string;
  l_previous : option string;
  items : list T
}.
Arguments mkListPayload {T}.
Arguments total_count {T}.
Arguments page {T}.
Arguments page_length {T}.
Arguments l_next {T}.
Arguments l_previous {T}.
Arguments items {T}.

Definition pr_summary (pr : RawPR) : PullRequestSummary :=
  {| s_id := pr_id pr;
     s_title := pr_title pr;
     s_description := pr_description pr;
     s_state := pr_state pr;
     s_author := pr_author_display_name pr;
     s_created_on := pr_created_on pr;
     s_updated_on := pr_updated_on pr;
     s_source_branch := pr_source_branch_name pr;
     s_destination_branch := pr_destination_branch_name pr;
     s_links_html := pr_links_html_href pr |}.

Definition list_pull_requests (args : ListArgs PRState)
    : Prog (ToolResult (ListPayload PullRequestSummary)) :=
  let prState :=
    match state_arg args with
    | Some s => s
    | None => OPEN
    end in
  let prLimit := Js.num_or (limit args) 50 in
  let pageNum := Js.num_or (page_arg args) 1 in
  try_return
    (response <-
       fetch (ListPullRequests prState prLimit pageNum
                (Js.str_or_null (target_branch args))) ;;
     if negb (ok response) then throw (api_error response)
     else
       data <- await (json response) ;;
       ret (mkToolResult
              (Stringified
                 {| total_count := size data;
                    page := pageNum;
                    page_length := prLimit;
                    l_next := Js.str_or_null (next data);
                    l_previous := Js.str_or_null (previous data);
                    items := map pr_summary (values data) |})
              false))
    (fun m => error_result ("Error fetching pull requests: " ++ m)).

(** ** [list_pipelines] ([src/index.ts], lines 422-567) *)

Record Pipeline : Type := mkPipeline {
  p_pr_id : option Js.Num;
  p_state : Value;
  p_created_on : Value;
  p_completed_on : Value;
  p_run_number : Value;
  p_duration_in_seconds : Value;
  p_target : option Target
}.

(** [target?.commit?.message] and [target?.commit?.hash]. *)
Definition message_of (target : option Target) : option string :=
  match target with
  | Some t =>
      match tg_commit t with
      | Some c => tc_message c
      | None => None
      end
  | None => None
  end.

Definition hash_of (target : option Target) : option string :=
  match target with
  | Some t =>
      match tg_commit t with
      | Some c => tc_hash c
      | None => None
      end
  | None => None
  end.

(** Lines 507-509: the assignment to [pipeline.target.commit.message],
    guarded by the presence of the two objects. *)
Definition set_message (target : option Target) (m : option string)
    : option Target :=
  match target with
  | Some t =>
      match tg_commit t with
      | Some c =>
          Some {| tg_commit :=
                    Some {| tc_hash := tc_hash c;
                            tc_message := m;
                            tc_other := tc_other c |};
                  tg_other := tg_other t |}
      | None => Some t
      end
  | None => None
  end.

(** Lines 490-514: [commitMessage] and [pipeline.target] after the
    optional lookup of the commit. *)
Definition resolve_message (pipeline : RawPipeline)
    : Prog (option string * option Target) :=
  let commitMessage := message_of (rp_target pipeline) in
  if negb (Js.truthy_str commitMessage)
     && Js.truthy_str (hash_of (rp_target pipeline))
  then
    try_return
      (commitResponse <-
         fetch (GetCommit (Js.template (hash_of (rp_target pipeline)))) ;;
       if ok commitResponse then
         commitData <- await (json commitResponse) ;;
         ret (cd_message commitData,
              set_message (rp_target pipeline) (cd_message commitData))
       else ret (commitMessage, rp_target pipeline))
      (fun _ => (commitMessage, rp_target pipeline))
  else Ret (commitMessage, rp_target pipeline).

(** Lines 489-533: the callback applied to one pipeline. *)
Definition pipeline_view (pipeline : RawPipeline) : Prog Pipeline :=
  bind (resolve_message pipeline) (fun '(commitMessage, target) =>
    Ret {| p_pr_id := derive_pr_id commitMessage;
           p_state := rp_state pipeline;
           p_created_on := rp_created_on pipeline;
           p_completed_on := rp_completed_on pipeline;
           p_run_number := rp_run_number pipeline;
           p_duration_in_seconds := rp_duration_in_seconds pipeline;
           p_target := target |}).

(** [Promise.all(data.values.map(async ...))].  Each callback issues at
    most one request, as its first step, touches no object but its own
    pipeline and cannot reject; so the requests leave in the order of the
    pipelines and the results, which [Promise.all] returns in that order,
    are those of running the callbacks one after the other. *)
Fixpoint pipeline_views (pipelines : list RawPipeline)
    : Prog (list Pipeline) :=
  match pipelines with
  | [] => Ret []
  | pipeline :: rest =>
      bind (pipeline_view pipeline) (fun v =>
      bind (pipeline_views rest) (fun vs => Ret (v :: vs)))
  end.

Definition list_pipelines (args : ListArgs PipelineState)
    : Prog (ToolResult (ListPayload Pipeline)) :=
  let pipelineLimit := Js.num_or (limit args) 10 in
  let pageNum := Js.num_or (page_arg args) 1 in
  try_return
    (response <-
       fetch (ListPipelines pipelineLimit pageNum (state_arg args)
                (Js.str_or_null (target_branch args))) ;;
     if negb (ok response) then throw (api_error response)
     else
       data <- await (json response) ;;
       bind (pipeline_views (values data)) (fun pipelines =>
       ret (mkToolResult
              (Stringified
                 {| total_count := size data;
                    page := pageNum;
                    page_length := pipelineLimit;
                    l_next := Js.str_or_null (next data);
                    l_previous := Js.str_or_null (previous data);
                    items := pipelines |})
              false)))
    (fun m => error_result ("Error fetching pipelines: " ++ m)).

(** ** Comments *)

(** A comment as the listing returns it; [k_inline = None] is [null]. *)
Record Comment : Type := mkComment {
  k_id : Value;
  k_content : string;
  k_author : Value;
  k_created_on : Value;
  k_updated_on : Value;
  k_type : Value;
  k_inline : option Inline;
  k_links_html : Value
}.

(** Earlier revision, lines 158-175: the callback of [data.values.map]. *)
Definition comment_view (comment : RawComment) : Comment :=
  {| k_id := cm_id comment;
     k_content := cm_content_raw comment;
     k_author := cm_user_display_name comment;
     k_created_on := cm_created_on comment;
     k_updated_on := cm_updated_on comment;
     k_type := cm_type comment;
     k_inline :=
       match cm_inline comment with
       | Some i => Some {| from := from i; to := to i; path := path i |}
       | None => None
       end;
     k_links_html := cm_links_html_href comment |}.

Record CommentsPayload : Type := mkCommentsPayload {
  cs_pull_request_id : Z;
  cs_total_count : Value;
  cs_comments : list Comment
}.

(** [get_pr_comments] (earlier revision, lines 123-205). *)
Definition get_pr_comments (pr_id : Z) (limit : option Z)
    : Prog (ToolResult CommentsPayload) :=
  let commentLimit := Js.num_or limit 50 in
  try_return
    (response <- fetch (ListComments pr_id commentLimit None) ;;
     if negb (ok response) then throw (api_error response)
     else
       data <- await (json response) ;;
       ret (mkToolResult
              (Stringified
                 {| cs_pull_request_id := pr_id;
                    cs_total_count := size data;
                    cs_comments := map comment_view (values data) |})
              false))
    (fun m => error_result ("Error fetching PR comments: " ++ m)).

Record CommentDetails : Type := mkCommentDetails {
  a_id : Value;
  a_content : string;
  a_author : Value;
  a_created_on : Value;
  a_type : Value;
  a_links_html : Value
}.

Record AddedPayload : Type := mkAddedPayload {
  a_pull_request_id : Z;
  a_message : string;
  a_comment : CommentDetails
}.

(** [add_pr_comment] ([src/index.ts], lines 341-419). *)
Definition add_pr_comment (pr_id : Z) (content : string)
    : Prog (ToolResult AddedPayload) :=
  try_return
    (let commentData := {| cp_raw := content; cp_inline := None |} in
     response <- fetch (PostComment pr_id commentData) ;;
     if negb (ok response) then
       errorText <- await (text response) ;;
       throw (api_error response ++ " - " ++ errorText)
     else
       responseData <- await (json response) ;;
       ret (mkToolResult
              (Stringified
                 {| a_pull_request_id := pr_id;
                    a_message := "Comment added successfully to pull request";
                    a_comment :=
                      {| a_id := cm_id responseData;
                         a_content := cm_content_raw responseData;
                         a_author := cm_user_display_name responseData;
                         a_created_on := cm_created_on responseData;
                         a_type := cm_type responseData;
                         a_links_html := cm_links_html_href responseData |} |})
              false))
    (fun m => error_result ("Error adding PR comment: " ++ m)).

(** Modelled from the spec: the handler of [add_pr_inline_comment], which
    is not among the sources.  It "constructs the minimal payload the
    remote service requires (raw text, plus file/line anchor for inline)
    and returns the freshly created Comment as reported by the remote
    service"; "a non-2xx response on add is surfaced as UpstreamError
    including the remote error body verbatim".  The line is sent as the
    [to] end of the anchor. *)
Definition add_pr_inline_comment (pr_id : Z) (content file_path : string)
    (line : Z) : Prog (ToolResult Comment) :=
  try_return
    (let commentData :=
       {| cp_raw := content;
          cp_inline :=
            Some {| from := None; to := Some line; path := file_path |} |} in
     response <- fetch (PostComment pr_id commentData) ;;
     if negb (ok response) then
       errorText <- await (text response) ;;
       throw (api_error response ++ " - " ++ errorText)
     else
       responseData <- await (json response) ;;
       ret (mkToolResult (Stringified (comment_view responseData)) false))
    (fun m => error_result ("Error adding PR comment: " ++ m)).

(** Modelled from the spec: the arguments of [view_pr_comments],
    "view_pr_comments(source_branch? | pr_id, limit?, page?)". *)
Record ViewArgs : Type := mkViewArgs {
  v_source_branch : option string;
  v_pr_id : option Z;
  v_limit : option Z;
  v_page : option Z
}.

(** Modelled from the spec: the handler of [view_pr_comments], which is
    not among the sources.  The selector follows the Resolver: "if
    neither is present the operation fails with an InvalidArgument error
    before any network call", an identifier is used as it is, and "if
    only byBranch is present" the pull requests of that source branch are
    queried, an empty result is "an explicit not found result (not an
    error) naming the queried branch" and "the first result" is taken.
    The listing "normalizes both general and inline comment shapes",
    which is [comment_view]; the page size defaults to 50 and the page
    to 1. *)
Definition view_pr_comments (args : ViewArgs)
    : Prog (ToolResult (ListPayload Comment)) :=
  match v_pr_id args, v_source_branch args with
  | None, None => Ret selector_required
  | _, _ =>
      let commentLimit := Js.num_or (v_limit args) 50 in
      let pageNum := Js.num_or (v_page args) 1 in
      try_return
        (resolved <-
           match v_pr_id args with
           | Some id => ret (inl id)
           | None =>
               searchResponse <-
                 fetch (SearchPullRequests
                          (Js.template (v_source_branch args))) ;;
               if negb (ok searchResponse)
               then throw (api_error searchResponse)
               else
                 searchData <- await (json searchResponse) ;;
                 match values searchData with
                 | [] => ret (inr (not_found (v_source_branch args)))
                 | pr :: _ => ret (inl (pr_id pr))
                 end
           end ;;
         match resolved with
         | inr early => ret early
         | inl id =>
             response <- fetch (ListComments id commentLimit (Some pageNum)) ;;
             if negb (ok response) then throw (api_error response)
             else
               data <- await (json response) ;;
               ret (mkToolResult
                      (Stringified
                         {| total_count := size data;
                            page := pageNum;
                            page_length := commentLimit;
                            l_next := Js.str_or_null (next data);
                            l_previous := Js.str_or_null (previous data);
                            items := map comment_view (values data) |})
                      false)
         end)
        (fun m => error_result ("Error fetching PR comments: " ++ m))
  end.

(** ** A remote service that keeps comments

    The round trip of a comment presupposes a remote service that stores
    what is posted and lists it back, a page at a time and in the order
    of creation.  [Store] is that service, reduced to its comments. *)
Record Store : Type := mkStore {
  st_next_id : Z;
  st_comments : list (Z * RawComment)
}.

Definition comments_on (id : Z) (s : Store) : list RawComment :=
  map snd (filter (fun e => fst e =? id) (st_comments s)).

(** Page [page] (from 1) of a listing cut into pages of [pagelen]. *)
Definition page_slice {T} (pagelen page : Z) (l : list T) : list T :=
  firstn (Z.to_nat pagelen) (skipn (Z.to_nat ((page - 1) * pagelen)) l).

Definition stored_comment (s : Store) (body : CommentPayload) : RawComment :=
  {| cm_id := VNum (st_next_id s);
     cm_content_raw := cp_raw body;
     cm_user_display_name := VStr "author";
     cm_created_on := VNull;
     cm_updated_on := VNull;
     cm_type := VStr "pullrequest_comment";
     cm_inline := cp_inline body;
     cm_links_html_href := VUndefined |}.

Definition serve (r : Request) (s : Store) : FetchResult (payload r) * Store :=
  match r as r0 return FetchResult (payload r0) * Store with
  | PostComment id body =>
      let c := stored_comment s body in
      (Responded (mkResponse 201%N "Created" (Ok "") (Ok c)),
       {| st_next_id := st_next_id s + 1;
          st_comments := st_comments s ++ [(id, c)] |})
  | ListComments id pagelen page =>
      let all := comments_on id s in
      (Responded
         (mkResponse 200%N "OK" (Ok "")
            (Ok {| values := page_slice pagelen (Js.num_or page 1) all;
                   size := VNum (Z.of_nat (List.length all));
                   next := None;
                   previous := None |})),
       s)
  | _ => (NetworkError "fetch failed", s)
  end.

(** ** The derived id in the words of the specification *)

(** No [#] of the string is immediately followed by a decimal digit. *)
Definition token_free (s : string) : Prop :=
  forall pre c suf, s = pre ++ "#" ++ String c suf -> Js.is_digit c = false.

(** [ds] is the digits of the first [#<digits>] token of [msg]: a
    non-empty run of digits right after a [#], as long as it can be, with
    no token starting before it. *)
Definition first_token (msg ds : string) : Prop :=
  exists pre suf,
    msg = pre ++ "#" ++ ds ++ suf
    /\ token_free pre
    /\ ds <> ""
    /\ Js.all_digits ds = true
    /\ Js.starts_with_digit suf = false.

(** ** Vocabulary of the properties *)

(** The answers of a remote service to the diff requests of a list of
    commits, one after the other. *)
Fixpoint diff_answers {W : Type}
    (respond : forall r : Request, W -> FetchResult (payload r) * W)
    (hashes : list string) (s : W) : list (FetchResult unit) * W :=
  match hashes with
  | [] => ([], s)
  | h :: rest =>
      let '(a, s1) := respond (GetCommitDiff h) s in
      let '(l, s2) := diff_answers respond rest s1 in
      (a :: l, s2)
  end.

(** A request failed: [fetch] rejected, or the status is not 2xx. *)
Definition fetch_failed {T} (a : FetchResult T) : Prop :=
  match a with
  | NetworkError _ => True
  | Responded r => ok r = false
  end.

(** A request brought the text [t]. *)
Definition fetched_text {T} (a : FetchResult T) (t : string) : Prop :=
  match a with
  | NetworkError _ => False
  | Responded r => ok r = true /\ text r = Ok t
  end.

(** Exactly one of the two selectors of [get_pr_details] is among the
    arguments. *)
Definition exactly_one_supplied (args : DetailsArgs) : Prop :=
  (source_branch args <> None /\ pr_id_arg args = None)
  \/ (source_branch args = None /\ pr_id_arg args <> None).

(** The request that resolves the pull request of [args]. *)
Definition resolution_request (args : DetailsArgs) : Request :=
  match pr_id_arg args with
  | Some id => GetPullRequest id
  | None => SearchPullRequests (Js.template (source_branch args))
  end.

Definition is_search (r : Request) : bool :=
  match r with
  | SearchPullRequests _ => true
  | _ => false
  end.

(** The handler goes on to resolve the pull request. *)
Definition resolution_proceeds (args : DetailsArgs) : Prop :=
  first_request (get_pr_details args) = Some (resolution_request args).

(** A request of the resolution of a pull request (lines 179-228). *)
Definition is_resolution (r : Request) : bool :=
  match r with
  | GetPullRequest _ | SearchPullRequests _ => true
  | _ => false
  end.

(** What the loop writes into [diff] on an answer to the diff request
    (lines 251-266). *)
Definition diff_of_answer (a : FetchResult unit) : string :=
  match a with
  | NetworkError m => "Error fetching diff: " ++ m
  | Responded r =>
      if ok r then
        match text r with
        | Ok t => t
        | Throw m => "Error fetching diff: " ++ m
        end
      else
        "Error fetching diff: " ++ Js.string_of_N (status r) ++ " "
        ++ statusText r
  end.

(** A request for a page of pull requests whose page size is within the
    bounds of the remote service. *)
Definition bounded_listing (r : Request) : Prop :=
  match r with
  | ListPullRequests _ pagelen _ _ => 1 <= pagelen <= 100
  | _ => False
  end.

(** The lookup of a commit failed: [fetch] rejected, the status is not
    2xx, or the body could not be read. *)
Definition lookup_failed (a : FetchResult CommitDetail) : Prop :=
  match a with
  | NetworkError _ => True
  | Responded r => ok r = false \/ exists m, json r = Throw m
  end.

(** ** A sample remote service

    A repository with two pull requests from the branch "feature/login"
    (7 and 8), two commits on the first, of which one has a readable
    diff, no commit listing for the second, and three pipelines, of which
    the second and the third come without commit message. *)
Module Sample.

Definition respond_ok {T} (t : string) (j : T) : FetchResult T :=
  Responded (mkResponse 200%N "OK" (Ok t) (Ok j)).

Definition respond_status {T} (st : N) (reason : string) : FetchResult T :=
  Responded (mkResponse st reason (Ok reason) (Throw "Unexpected token")).

Definition open_pr (id : Z) (title : string) : RawPR :=
  {| pr_id := id;
     pr_title := VStr title;
     pr_description := VStr "";
     pr_state := VStr "OPEN";
     pr_author_display_name := VStr "Ada";
     pr_created_on := VStr "2025-01-10T09:00:00Z";
     pr_updated_on := VStr "2025-01-11T09:00:00Z";
     pr_source_branch_name := VStr "feature/login";
     pr_destination_branch_name := VStr "main";
     pr_links_html_href := VStr "https://bitbucket.org/acme/app/pull-requests";
     pr_reviewers := None |}.

Definition pr7 : RawPR := open_pr 7 "Fix login bug".

Definition pr8 : RawPR := open_pr 8 "Rework login form".

Definition commit (h m : string) : RawCommit :=
  {| rc_hash := h;
     rc_message := VStr m;
     rc_author_user_display_name := None;
     rc_author_raw := Some "Ada <ada@example.org>";
     rc_date := VStr "2025-01-10T10:00:00Z" |}.

Definition commits : list RawCommit :=
  [commit "a1" "Fix login bug #7"; commit "b2" "Add test"].

Definition pipeline (message hash : option string) : RawPipeline :=
  {| rp_state := VObj [("name", VStr "COMPLETED")];
     rp_created_on := VStr "2025-01-10T11:00:00Z";
     rp_completed_on := VStr "2025-01-10T11:05:00Z";
     rp_run_number := VNum 3;
     rp_duration_in_seconds := VNum 300;
     rp_target :=
       Some {| tg_commit :=
                 Some {| tc_hash := hash;
                         tc_message := message;
                         tc_other := VNull |};
               tg_other := VObj [("ref_name", VStr "main")] |};
     rp_uuid := VStr "{1}";
     rp_build_number := VNum 3;
     rp_trigger := VNull;
     rp_links := VNull |}.

Definition pipeline1 : RawPipeline :=
  pipeline (Some "Fix login bug #42") (Some "a1").

Definition pipeline2 : RawPipeline := pipeline None (Some "deadbeef").

Definition pipeline3 : RawPipeline := pipeline None (Some "c0ffee").

Definition page_of {T} (l : list T) : Page T :=
  {| values := l;
     size := VNum (Z.of_nat (List.length l));
     next := None;
     previous := None |}.

Definition remote (r : Request) (s : unit) : FetchResult (payload r) * unit :=
  (match r as r0 return FetchResult (payload r0) with
   | ListPullRequests _ _ _ _ => respond_ok "" (page_of [pr7; pr8])
   | GetPullRequest id =>
       if id =? 7 then respond_ok "" pr7
       else if id =? 8 then respond_ok "" pr8
       else respond_status 404%N "Not Found"
   | SearchPullRequests b =>
       if (b =? "feature/login")%string then respond_ok "" (page_of [pr7; pr8])
       else respond_ok "" (page_of [])
   | GetPullRequestCommits id =>
       if id =? 7 then respond_ok "" (page_of commits)
       else respond_status 500%N "Internal Server Error"
   | GetCommitDiff h =>
       if (h =? "a1")%string then respond_ok "diff --git a/login.ts b/login.ts" tt
       else respond_status 404%N "Not Found"
   | GetCommit h =>
       if (h =? "c0ffee")%string
       then respond_ok "" {| cd_message := Some "#7 and #12 both referenced" |}
       else NetworkError "fetch failed"
   | ListPipelines _ _ _ _ =>
       respond_ok "" (page_of [pipeline1; pipeline2; pipeline3])
   | _ => NetworkError "fetch failed"
   end, s).

Definition store : Store :=
  {| st_next_id := 100;
     st_comments :=
       [(7, stored_comment (mkStore 98 []) (mkCommentPayload "first" None));
        (8, stored_comment (mkStore 99 []) (mkCommentPayload "other" None))] |}.

End Sample.

(** ** Start-up ([src/index.ts], lines 7-27) *)




(** ** Vocabulary of the further properties *)

(** The one request that changes the remote service. *)
Definition is_write (r : Request) : bool :=
  match r with
  | PostComment _ _ => true
  | _ => false
  end.

Definition is_diff_request (r : Request) : bool :=
  match r with
  | GetCommitDiff _ | GetPullRequestDiff _ => true
  | _ => false
  end.

(** The message of the exception that the sequence [await fetch],
    [if (!response.ok) throw], [await response.json()] ends with on an
    answer, if it does (lines 80-93, 183-196, 201-214, 474-487). *)
Definition upstream_failure {T} (a : FetchResult T) : option string :=
  match a with
  | NetworkError m => Some m
  | Responded r =>
      if ok r then
        match json r with
        | Ok _ => None
        | Throw m => Some m
        end
      else Some (api_error r)
  end.

(** The answer is a 2xx response whose body reads as [d]. *)
Definition answered {T} (a : FetchResult T) (d : T) : Prop :=
  match a with
  | NetworkError _ => False
  | Responded r => ok r = true /\ json r = Ok d
  end.

(** The test of line 493: no usable message, a usable hash. *)
Definition needs_lookup (pipeline : RawPipeline) : bool :=
  negb (Js.truthy_str (message_of (rp_target pipeline)))
  && Js.truthy_str (hash_of (rp_target pipeline)).

(** The commit lookups of a page of pipelines, in the order of the page. *)
Definition lookup_requests (pipelines : list RawPipeline) : list Request :=
  map (fun p => GetCommit (Js.template (hash_of (rp_target p))))
    (filter needs_lookup pipelines).

(** Two targets that differ at most in the message of their commit: both
    are absent, or both are there with the same other content, and their
    commits are both absent, or both there with the same hash and the
    same other content. *)
Definition same_but_message (t u : option Target) : Prop :=
  match t, u with
  | None, None => True
  | Some a, Some b =>
      tg_other a = tg_other b
      /\ match tg_commit a, tg_commit b with
         | None, None => True
         | Some c, Some d => tc_hash c = tc_hash d /\ tc_other c = tc_other d
         | _, _ => False
         end
  | _, _ => False
  end.

(** What a view keeps of its pipeline whatever the lookup brings: the
    fields passed through, the hash, everything of the target but the
    message of its commit, and the whole target when the pipeline came
    with its message. *)
Definition view_of (pipeline : RawPipeline) (v : Pipeline) : Prop :=
  p_state v = rp_state pipeline
  /\ p_created_on v = rp_created_on pipeline
  /\ p_completed_on v = rp_completed_on pipeline
  /\ p_run_number v = rp_run_number pipeline
  /\ p_duration_in_seconds v = rp_duration_in_seconds pipeline
  /\ hash_of (p_target v) = hash_of (rp_target pipeline)
  /\ same_but_message (rp_target pipeline) (p_target v)
  /\ (needs_lookup pipeline = false -> p_target v = rp_target pipeline)
  /\ p_pr_id v = derive_pr_id (message_of (p_target v)).

(** The answers of a remote service to the commit lookups of a page of
    pipelines, one after the other: for each pipeline the answer to its
    lookup, if the pipeline needs one. *)
Fixpoint lookup_answers {W : Type}
    (respond : forall r : Request, W -> FetchResult (payload r) * W)
    (pipelines : list RawPipeline) (s : W)
    : list (option (FetchResult CommitDetail)) * W :=
  match pipelines with
  | [] => ([], s)
  | pipeline :: rest =>
      if needs_lookup pipeline then
        let '(a, s1) :=
          respond (GetCommit (Js.template (hash_of (rp_target pipeline)))) s in
        let '(l, s2) := lookup_answers respond rest s1 in
        (Some a :: l, s2)
      else
        let '(l, s2) := lookup_answers respond rest s in
        (None :: l, s2)
  end.

(** The message of a pipeline once its lookup, if any, is over: the
    message of the looked-up commit when the lookup brought a 2xx answer
    with a readable body, and the message the pipeline came with in any
    other case. *)
Definition message_after (pipeline : RawPipeline)
    (lookup : option (FetchResult CommitDetail)) : option string :=
  match lookup with
  | Some (Responded r) =>
      if ok r then
        match json r with
        | Ok commitData => cd_message commitData
        | Throw _ => message_of (rp_target pipeline)
        end
      else message_of (rp_target pipeline)
  | Some (NetworkError _) => message_of (rp_target pipeline)
  | None => message_of (rp_target pipeline)
  end.

(** The details [d] are those of the pull request [pr], field by field;
    the reviewers are those of the pull request in their order, none when
    it has no list of reviewers. *)
Definition describes (pr : RawPR) (d : PullRequestDetails) : Prop :=
  d_id d = pr_id pr
  /\ d_title d = pr_title pr
  /\ d_state d = pr_state pr
  /\ d_author d = pr_author_display_name pr
  /\ d_created_on d = pr_created_on pr
  /\ d_updated_on d = pr_updated_on pr
  /\ d_source_branch d = pr_source_branch_name pr
  /\ d_destination_branch d = pr_destination_branch_name pr
  /\ d_links_html d = pr_links_html_href pr
  /\ match pr_reviewers pr with
     | Some rs =>
         map display_name (d_reviewers d) = map rv_display_name rs
         /\ map approved (d_reviewers d) = map rv_approved rs
     | None => d_reviewers d = []
     end.

(** The record [d] is that of the commit [c]: its hash, message and date,
    and as author the display name of the user when there is a non-empty
    one, the raw author if not. *)
Definition records (c : RawCommit) (d : CommitData) : Prop :=
  c_hash d = rc_hash c
  /\ c_message d = rc_message c
  /\ c_date d = rc_date c
  /\ c_author d
     = match rc_author_user_display_name c with
       | Some name => if (name =? "")%string then rc_author_raw c else Some name
       | None => rc_author_raw c
       end.

(** The search method a result reports for the arguments of a call: the
    id when it is there and not zero, the branch if not. *)
Definition names_selector (args : DetailsArgs) (method : string) : Prop :=
  match pr_id_arg args with
  | Some id =>
      if id =? 0
      then method = "source_branch: " ++ Js.template (source_branch args)
      else method = "pr_id: " ++ Js.string_of_Z id
  | None => method = "source_branch: " ++ Js.template (source_branch args)
  end.


(** ** A second sample remote service

    Pull request 7 can be read and has a consolidated diff, but the
    listing of its commits is out of reach. *)
Module Fixture.

Definition remote (r : Request) (s : unit) : FetchResult (payload r) * unit :=
  (match r as r0 return FetchResult (payload r0) with
   | GetPullRequest id =>
       if id =? 7 then Sample.respond_ok "" Sample.pr7
       else Sample.respond_status 404%N "Not Found"
   | GetPullRequestDiff id =>
       if id =? 7
       then Sample.respond_ok "diff --git a/login.ts b/login.ts" tt
       else Sample.respond_status 404%N "Not Found"
   | _ => NetworkError "socket hang up"
   end, s).

End Fixture.

(** * Properties *)

(** ** Strings and numbers *)

Module JsFacts.
Import Js.

Lemma take_digits_app (ds suf : string) :
  all_digits ds = true -> starts_with_digit suf = false ->
  take_digits (ds ++ suf) = ds.
Proof.
  intros Hds Hsuf. induction ds as [|c ds IH]; simpl in *.
  - destruct suf as [|d suf]; simpl in *; [reflexivity|].
    now rewrite Hsuf.
  - apply andb_true_iff in Hds as [Hc Hds].
    rewrite Hc. f_equal. now apply IH.
Qed.

Lemma take_digits_all (ds : string) :
  all_digits ds = true -> take_digits ds = ds.
Proof.
  induction ds as [|c ds IH]; simpl; intros H; [reflexivity|].
  apply andb_true_iff in H as [Hc Hds]. rewrite Hc. f_equal. now apply IH.
Qed.

Lemma string_app_assoc (a b c : string) : (a ++ b) ++ c = a ++ b ++ c.
Proof. induction a; simpl; congruence. Qed.

Lemma token_free_tail (c : ascii) (s : string) :
  token_free (String c s) -> token_free s.
Proof.
  intros H pre d suf E. apply (H (String c pre) d suf). simpl. now rewrite E.
Qed.

Lemma match_none_token_free (s : string) :
  match_hash_digits s = None <-> token_free s.
Proof.
  split.
  - induction s as [|c s IH]; intros H pre d suf E.
    + destruct pre; discriminate.
    + simpl in H.
      destruct ((c =? "#")%char && starts_with_digit s) eqn:Hc; [discriminate|].
      destruct pre as [|p pre]; simpl in E; injection E as Ec Es.
      * subst. rewrite Ascii.eqb_refl in Hc. simpl in Hc. exact Hc.
      * exact (IH H pre d suf Es).
  - induction s as [|c s IH]; intros H; simpl; [reflexivity|].
    destruct ((c =? "#")%char && starts_with_digit s) eqn:Hc.
    + apply andb_true_iff in Hc as [Hc Hd]. apply Ascii.eqb_eq in Hc. subst c.
      destruct s as [|d s]; [discriminate|]. simpl in Hd.
      rewrite (H "" d s eq_refl) in Hd. discriminate.
    + apply IH. eapply token_free_tail; eauto.
Qed.

Lemma match_first_token (msg ds : string) :
  first_token msg ds -> match_hash_digits msg = Some ds.
Proof.
  intros (pre & suf & -> & Hpre & Hne & Hds & Hsuf).
  induction pre as [|c pre IH]; simpl.
  - destruct ds as [|d ds]; [congruence|]. simpl in *.
    apply andb_true_iff in Hds as [Hd Hds]. rewrite Hd. simpl.
    f_equal. f_equal. now apply take_digits_app.
  - simpl in IH.
    match goal with |- (if ?b then _ else _) = _ => destruct b eqn:Hc end.
    + apply andb_true_iff in Hc as [Hc Hd]. apply Ascii.eqb_eq in Hc. subst c.
      destruct pre as [|p pre]; simpl in Hd; [discriminate|].
      rewrite (Hpre "" p pre eq_refl) in Hd. discriminate.
    + apply IH. eapply token_free_tail; eauto.
Qed.

Lemma digit_value_range (c : ascii) :
  is_digit c = true -> 0 <= digit_value c <= 9.
Proof.
  unfold is_digit, digit_value. intros H.
  apply andb_true_iff in H as [H1 H2].
  apply Nat.leb_le in H1, H2. lia.
Qed.

Lemma decimal_acc_bound (s : string) : forall acc,
  all_digits s = true -> 0 <= acc ->
  0 <= decimal_acc acc s < (acc + 1) * 10 ^ Z.of_nat (String.length s).
Proof.
  induction s as [|c s IH]; intros acc Hs Hacc.
  - simpl. lia.
  - simpl in Hs. apply andb_true_iff in Hs as [Hc Hs].
    pose proof (digit_value_range c Hc) as Hd.
    specialize (IH (acc * 10 + digit_value c) Hs ltac:(lia)).
    cbn [decimal_acc String.length].
    rewrite Nat2Z.inj_succ, Z.pow_succ_r by lia.
    assert (0 < 10 ^ Z.of_nat (String.length s)) by (apply Z.pow_pos_nonneg; lia).
    nia.
Qed.

Lemma parseInt_exact (ds : string) :
  all_digits ds = true -> (String.length ds <= 15)%nat ->
  parseInt ds = Finite (decimal_value ds).
Proof.
  intros Hds Hlen. unfold parseInt. rewrite (take_digits_all ds Hds).
  unfold number_of_Z, decimal_value.
  pose proof (decimal_acc_bound ds 0 Hds ltac:(lia)) as [_ Hb].
  assert (10 ^ Z.of_nat (String.length ds) <= 10 ^ 15)
    by (apply Z.pow_le_mono_r; lia).
  destruct (decimal_acc 0 ds <? 2 ^ 53) eqn:E; [reflexivity|].
  apply Z.ltb_ge in E. change (2 ^ 53) with 9007199254740992 in E.
  change (10 ^ 15) with 1000000000000000 in H. lia.
Qed.

(** ** Numbers and their numerals *)

Lemma number_of_Z_small (n : Z) :
  n < 2 ^ 53 -> Js.number_of_Z n = Js.Finite n.
Proof.
  intros Hn. unfold Js.number_of_Z.
  destruct (Z.ltb_spec n (2 ^ 53)) as [_|Hge]; [reflexivity|lia].
Qed.

(** From 2^53 on the value of a numeral is itself at least 2^53. *)
Lemma number_of_Z_large (n v : Z) :
  2 ^ 53 <= n -> Js.number_of_Z n = Js.Finite v -> 2 ^ 53 <= v.
Proof.
  intros Hn. unfold Js.number_of_Z.
  destruct (Z.ltb_spec n (2 ^ 53)) as [Hlt|_]; [lia|].
  assert (Hlog : 53 <= Z.log2 n).
  { change 53 with (Z.log2 (2 ^ 53)). apply Z.log2_le_mono. exact Hn. }
  assert (Hpos : 0 < n) by lia.
  pose proof (Z.log2_spec n Hpos) as [Hlo _].
  set (e := Z.log2 n - 52) in *.
  assert (He : 1 <= e) by (unfold e; lia).
  assert (Hp : 2 <= 2 ^ e).
  { change 2 with (2 ^ 1) at 1. apply Z.pow_le_mono_r; lia. }
  assert (Hsplit : 2 ^ Z.log2 n = 2 ^ 52 * 2 ^ e).
  { replace (Z.log2 n) with (52 + e) by (unfold e; lia).
    apply Z.pow_add_r; lia. }
  assert (Hq : 2 ^ 52 <= n / 2 ^ e).
  { apply Z.div_le_lower_bound; [lia|]. rewrite Z.mul_comm. lia. }
  cbv zeta.
  set (q := n / 2 ^ e) in *. set (r := n mod 2 ^ e).
  set (q' := if r <? 2 ^ (e - 1) then q
             else if 2 ^ (e - 1) <? r then q + 1
             else if Z.even q then q else q + 1).
  assert (Hq' : q <= q').
  { unfold q'. destruct (r <? 2 ^ (e - 1)); [lia|].
    destruct (2 ^ (e - 1) <? r); [lia|]. destruct (Z.even q); lia. }
  destruct (q' * 2 ^ e <? 2 ^ 1024); [|discriminate].
  intros [= <-].
  assert (H52 : 2 ^ 52 * 2 <= q' * 2 ^ e) by nia.
  change (2 ^ 53) with (2 ^ 52 * 2). exact H52.
Qed.

(** Below 2^53 a number is read from one numeral only: its own. *)
Lemma reads_as_safe (x v : Z) :
  x < 2 ^ 53 -> Js.reads_as x v = true -> v = x.
Proof.
  intros Hx. unfold Js.reads_as.
  destruct (Z.lt_ge_cases v (2 ^ 53)) as [Hv|Hv].
  - rewrite (number_of_Z_small v Hv). intros H. now apply Z.eqb_eq in H.
  - destruct (Js.number_of_Z v) as [y|] eqn:E; [|discriminate].
    pose proof (number_of_Z_large v y Hv E) as Hy. intros H.
    apply Z.eqb_eq in H. lia.
Qed.

Lemma numeral_of_length_reads (x n k v : Z) :
  Js.numeral_of_length x n k = Some v -> v = x \/ Js.reads_as x v = true.
Proof.
  unfold Js.numeral_of_length. destruct (n <=? k); [intros [= <-]; now left|].
  cbv zeta.
  destruct (Js.reads_as x (x / 10 ^ (n - k) * 10 ^ (n - k))) eqn:Elo;
    destruct (Js.reads_as x (x / 10 ^ (n - k) * 10 ^ (n - k) + 10 ^ (n - k)))
      eqn:Ehi; try discriminate.
  - intros [= <-]. right.
    repeat match goal with
           | |- context [if ?b then _ else _] => destruct b
           end; assumption.
  - intros [= <-]. now right.
  - intros [= <-]. now right.
Qed.

Lemma shortest_from_reads (fuel : nat) (x n : Z) : forall k,
  Js.shortest_from fuel x n k = x
  \/ Js.reads_as x (Js.shortest_from fuel x n k) = true.
Proof.
  induction fuel as [|f IH]; intros k; [now left|]. simpl.
  destruct (Js.numeral_of_length x n k) as [v|] eqn:E; [|apply IH].
  exact (numeral_of_length_reads x n k v E).
Qed.

Lemma shortest_numeral_safe (x : Z) :
  x < 2 ^ 53 -> Js.shortest_numeral x = x.
Proof.
  intros Hx. unfold Js.shortest_numeral.
  destruct (shortest_from_reads 17 x
              (Z.of_nat (String.length (Js.string_of_N (Z.to_N x)))) 1)
    as [H|H]; [exact H|exact (reads_as_safe x _ Hx H)].
Qed.

(** From 2^53 on the value of a numeral is the multiple of the spacing
    [2^(log2 n - 52)] that is nearest to it, the even multiple when two
    are as near. *)
Lemma number_of_Z_nearest (n v : Z) :
  2 ^ 53 <= n ->
  Js.number_of_Z n = Js.Finite v ->
  let u := 2 ^ (Z.log2 n - 52) in
  v mod u = 0
  /\ 2 * Z.abs (v - n) <= u
  /\ (2 * Z.abs (v - n) = u -> Z.even (v / u) = true).
Proof.
  intros Hn. unfold Js.number_of_Z.
  destruct (Z.ltb_spec n (2 ^ 53)) as [Hlt|_]; [lia|].
  assert (Hlog : 53 <= Z.log2 n).
  { change 53 with (Z.log2 (2 ^ 53)). apply Z.log2_le_mono. exact Hn. }
  set (e := Z.log2 n - 52) in *.
  assert (He : 1 <= e) by (unfold e; lia).
  assert (Hu : 2 ^ e = 2 * 2 ^ (e - 1)).
  { replace e with (1 + (e - 1)) at 1 by lia. rewrite Z.pow_add_r by lia.
    reflexivity. }
  assert (Hh : 0 < 2 ^ (e - 1)) by (apply Z.pow_pos_nonneg; lia).
  cbv zeta.
  pose proof (Z.div_mod n (2 ^ e) ltac:(lia)) as Hdm.
  pose proof (Z.mod_pos_bound n (2 ^ e) ltac:(lia)) as Hr.
  set (q := n / 2 ^ e) in *. set (r := n mod 2 ^ e) in *.
  set (h := 2 ^ (e - 1)) in *. set (u := 2 ^ e) in *.
  assert (Hmul : forall k, (k * u) mod u = 0 /\ (k * u) / u = k).
  { intros k. split; [apply Z.mod_mul|apply Z.div_mul]; lia. }
  destruct (Z.ltb_spec r h) as [Hrh|Hrh].
  - destruct (q * u <? 2 ^ 1024); [|discriminate]. intros [= <-].
    destruct (Hmul q) as [Hm _]. split; [exact Hm|]. split; lia.
  - destruct (Z.ltb_spec h r) as [Hhr|Hhr].
    + destruct ((q + 1) * u <? 2 ^ 1024); [|discriminate]. intros [= <-].
      destruct (Hmul (q + 1)) as [Hm _]. split; [exact Hm|]. split; lia.
    + assert (r = h) by lia.
      destruct (Z.even q) eqn:Ev.
      * destruct (q * u <? 2 ^ 1024); [|discriminate]. intros [= <-].
        destruct (Hmul q) as [Hm Hd]. split; [exact Hm|].
        split; [lia|]. intros _. now rewrite Hd.
      * destruct ((q + 1) * u <? 2 ^ 1024); [|discriminate]. intros [= <-].
        destruct (Hmul (q + 1)) as [Hm Hd]. split; [exact Hm|].
        split; [lia|]. intros _. rewrite Hd.
        rewrite Z.add_1_r, Z.even_succ, <- Z.negb_even, Ev. reflexivity.
Qed.

(** An integer below 2^53 in magnitude prints as its decimal numeral. *)
Lemma string_of_Z_safe (z : Z) :
  Z.abs z < 2 ^ 53 -> Js.string_of_Z z = Js.decimal_of_Z z.
Proof.
  intros Hz. unfold Js.string_of_Z, Js.decimal_of_Z.
  rewrite (number_of_Z_small _ Hz).
  destruct (Z.eqb_spec (Z.abs z) 0) as [H0|H0].
  - assert (z = 0) as -> by lia. reflexivity.
  - rewrite (shortest_numeral_safe _ Hz).
    destruct (Z.ltb_spec (Z.abs z) (10 ^ 21)) as [_|Hbig]; [|lia].
    destruct (Z.ltb_spec z 0) as [Hneg|Hpos].
    + now rewrite Zabs2N.abs_N_spec.
    + simpl. now rewrite Z.abs_eq.
Qed.

(** From 10^21 on a number prints in exponent form, and beyond 2^53 with
    the digits of the nearest number, not with those of the integer. *)
Lemma string_of_Z_beyond :
  Js.string_of_Z (10 ^ 21) = "1e+21"
  /\ Js.string_of_Z (2 ^ 64) = "18446744073709552000"
  /\ Js.string_of_Z 9007199254740993 = "9007199254740992"
  /\ Js.string_of_Z (- (2 ^ 70)) = "-1.1805916207174113e+21"
  /\ Js.string_of_Z (2 ^ 1024) = "Infinity".
Proof.
  repeat split; vm_compute; reflexivity.
Qed.

End JsFacts.

(** ** Running computations *)

(** Case analysis on [response.ok] and on the outcome of reading a body,
    wherever the goal tests them. *)
Ltac case_ok :=
  match goal with
  | |- context [@ok ?T ?x] => destruct (@ok T x) eqn:?Hok
  end.

Ltac case_text :=
  match goal with
  | |- context [@text ?T ?x] => destruct (@text T x) eqn:?Htext
  end.

Ltac case_json :=
  match goal with
  | |- context [@json ?T ?x] => destruct (@json T x) eqn:?Hjson
  end.

(** Rewriting with a hypothesis on [ok], [json] or [text] of a response,
    at whichever spelling of the payload type the goal carries. *)
Ltac use_ok H :=
  match type of H with
  | @ok _ ?x = ?v =>
      match goal with
      | |- context [@ok ?T x] =>
          replace (@ok T x) with v by (symmetry; exact H)
      end
  end.

Ltac use_json H :=
  match type of H with
  | @json _ ?x = ?v =>
      match goal with
      | |- context [@json ?T x] =>
          replace (@json T x) with v by (symmetry; exact H)
      end
  end.

Section RunFacts.

Context {W : Type}.
Variable respond : forall r : Request, W -> FetchResult (payload r) * W.

Lemma run_bind {A B} (p : Prog A) (f : A -> Prog B) (s : W) :
  run respond (bind p f) s =
  let '(a, s1, t1) := run respond p s in
  let '(b, s2, t2) := run respond (f a) s1 in
  (b, s2, (t1 ++ t2)%list).
Proof.
  revert s. induction p as [a|r k IH]; intros s; simpl.
  - destruct (run respond (f a) s) as [[b s2] t2]. reflexivity.
  - destruct (respond r s) as [x s1]. rewrite IH.
    destruct (run respond (k x) s1) as [[a s2] t1].
    destruct (run respond (f a) s2) as [[b s3] t2]. reflexivity.
Qed.

Lemma run_first_request {A} (p : Prog A) (s : W) :
  first_request p = None -> exists a, p = Ret a /\ run respond p s = (a, s, []).
Proof.
  destruct p as [a|r k]; simpl; [|discriminate]. intros _. now exists a.
Qed.

Lemma run_first_request_some {A} (p : Prog A) (s : W) (r : Request) :
  first_request p = Some r ->
  exists tr, snd (run respond p s) = r :: tr.
Proof.
  destruct p as [a|r' k]; simpl; [discriminate|]. intros [= ->].
  destruct (respond r s) as [x s1].
  destruct (run respond (k x) s1) as [[a s2] tr]. now exists tr.
Qed.

End RunFacts.

(** ** The commit loop of [get_pr_details] *)

Section Details.

Context {W : Type}.
Variable respond : forall r : Request, W -> FetchResult (payload r) * W.

Lemma run_commit_diff (c : RawCommit) (s : W) :
  run respond (commit_diff true c) s =
  let '(a, s1) := respond (GetCommitDiff (rc_hash c)) s in
  (Ok (Some (diff_of_answer a)), s1, [GetCommitDiff (rc_hash c)]).
Proof.
  unfold commit_diff. simpl.
  destruct (respond (GetCommitDiff (rc_hash c)) s) as [a s1].
  destruct a as [m|r]; simpl; [reflexivity|].
  case_ok; simpl; [|reflexivity].
  case_text; reflexivity.
Qed.

Lemma run_commit_loop_diff (cs : list RawCommit) : forall s,
  run respond (commit_loop true cs) s =
  let '(ans, s1) := diff_answers respond (map rc_hash cs) s in
  (Ok (map (fun ca => CommitInfo
              (commit_data true (fst ca) (Some (diff_of_answer (snd ca)))))
         (combine cs ans)),
   s1, map GetCommitDiff (map rc_hash cs)).
Proof.
  induction cs as [|c cs IH]; intros s; [reflexivity|].
  cbn [commit_loop map diff_answers]. unfold bindE at 1.
  rewrite run_bind, run_commit_diff.
  destruct (respond (GetCommitDiff (rc_hash c)) s) as [a s1].
  unfold bindE. rewrite run_bind, IH.
  destruct (diff_answers respond (map rc_hash cs) s1) as [ans s2].
  simpl. now rewrite app_nil_r.
Qed.

Lemma run_commit_loop_plain (cs : list RawCommit) (s : W) :
  run respond (commit_loop false cs) s =
  (Ok (map (fun c => CommitInfo (commit_data false c None)) cs), s, []).
Proof.
  induction cs as [|c cs IH]; [reflexivity|].
  cbn [commit_loop map]. unfold bindE at 1. rewrite run_bind. simpl.
  unfold bindE. rewrite run_bind, IH. reflexivity.
Qed.

Lemma diff_answers_length (hs : list string) : forall s,
  List.length (fst (diff_answers respond hs s)) = List.length hs.
Proof.
  induction hs as [|h hs IH]; intros s; simpl; [reflexivity|].
  destruct (respond (GetCommitDiff h) s) as [a s1].
  specialize (IH s1).
  destruct (diff_answers respond hs s1) as [l s2]. simpl in *. congruence.
Qed.

Lemma commit_loop_trace (b : bool) (cs : list RawCommit) (s : W) :
  Forall (fun r => is_resolution r = false)
    (snd (run respond (commit_loop b cs) s)).
Proof.
  destruct b.
  - rewrite run_commit_loop_diff.
    destruct (diff_answers respond (map rc_hash cs) s) as [ans s1]. simpl.
    induction cs; simpl; constructor; auto.
  - rewrite run_commit_loop_plain. constructor.
Qed.

Lemma commit_loop_ok (b : bool) (cs : list RawCommit) (s : W) :
  exists es, fst (fst (run respond (commit_loop b cs) s)) = Ok es.
Proof.
  destruct b.
  - rewrite run_commit_loop_diff.
    destruct (diff_answers respond (map rc_hash cs) s) as [ans s1].
    eexists. reflexivity.
  - rewrite run_commit_loop_plain. eexists. reflexivity.
Qed.

End Details.

(** ** [get_pr_details] after the resolution *)

Section DetailsHandler.

Context {W : Type}.
Variable respond : forall r : Request, W -> FetchResult (payload r) * W.

Lemma nth_error_map_combine {A B C} (f : A * B -> C) (l : list A) :
  forall (l' : list B) i a b,
    nth_error l i = Some a -> nth_error l' i = Some b ->
    nth_error (map f (combine l l')) i = Some (f (a, b)).
Proof.
  induction l as [|x l IH]; intros [|y l'] [|i] a b Ha Hb;
    simpl in *; try discriminate.
  - congruence.
  - eauto.
Qed.

Lemma length_map_combine {A B C} (f : A * B -> C) (l : list A) (l' : list B) :
  List.length l' = List.length l ->
  List.length (map f (combine l l')) = List.length l.
Proof.
  intros H. rewrite length_map, length_combine. lia.
Qed.

Lemma diff_of_answer_failed (a : FetchResult unit) :
  fetch_failed a -> exists msg, diff_of_answer a = "Error fetching diff: " ++ msg.
Proof.
  destruct a as [m|r]; simpl; intros H.
  - now exists m.
  - rewrite H. eexists. reflexivity.
Qed.

Lemma diff_of_answer_text (a : FetchResult unit) (t : string) :
  fetched_text a t -> diff_of_answer a = t.
Proof.
  destruct a as [m|r]; simpl; [tauto|]. intros [-> ->]. reflexivity.
Qed.

(** Once the pull request is resolved, the handler returns what the rest
    of its body computes for it; an exception of that rest becomes the
    error result. *)
Lemma run_get_pr_details_resolved (args : DetailsArgs) (pr : RawPR)
    (s0 s1 : W) (tr1 : list Request) :
  Js.truthy_str (source_branch args) || Js.truthy_num (pr_id_arg args) = true ->
  run respond
    (resolve_pull_request (P := DetailsPayload) (source_branch args)
       (pr_id_arg args)) s0
  = (Ok (inl pr), s1, tr1) ->
  run respond (get_pr_details args) s0 =
  let '(r, s2, tr2) := run respond (details_of args pr) s1 in
  (match r with
   | Ok a => a
   | Throw m => error_result ("Error fetching PR with diff: " ++ m)
   end, s2, (tr1 ++ tr2)%list).
Proof.
  intros Hsel Hres. unfold get_pr_details.
  apply orb_true_iff in Hsel.
  replace (negb (Js.truthy_str (source_branch args))
           && negb (Js.truthy_num (pr_id_arg args))) with false
    by (destruct Hsel as [-> | ->]; simpl; now rewrite ?andb_false_r).
  unfold try_return, bindE. rewrite !run_bind, Hres.
  destruct (run respond (details_of args pr) s1) as [[r s2] tr2].
  destruct r; simpl; now rewrite app_nil_r.
Qed.

(** Without the resolution nothing else happens: an exception or an early
    return of the resolution is the result. *)
Lemma run_get_pr_details_unresolved (args : DetailsArgs) (s0 s1 : W)
    (tr1 : list Request) (res : Result (RawPR + ToolResult DetailsPayload)) :
  Js.truthy_str (source_branch args) || Js.truthy_num (pr_id_arg args) = true ->
  run respond
    (resolve_pull_request (P := DetailsPayload) (source_branch args)
       (pr_id_arg args)) s0
  = (res, s1, tr1) ->
  (forall pr, res <> Ok (inl pr)) ->
  run respond (get_pr_details args) s0 =
  (match res with
   | Ok (inr early) => early
   | Ok (inl _) => selector_required
   | Throw m => error_result ("Error fetching PR with diff: " ++ m)
   end, s1, tr1).
Proof.
  intros Hsel Hres Hno. unfold get_pr_details.
  apply orb_true_iff in Hsel.
  replace (negb (Js.truthy_str (source_branch args))
           && negb (Js.truthy_num (pr_id_arg args))) with false
    by (destruct Hsel as [-> | ->]; simpl; now rewrite ?andb_false_r).
  unfold try_return, bindE. rewrite !run_bind, Hres.
  destruct res as [[pr|early]|m]; simpl; rewrite ?app_nil_r; try reflexivity.
  now destruct (Hno pr).
Qed.

(** ** The resolution of the pull request *)

Lemma run_resolve_by_id {P} (sb : option string) (ido : option Z) (s0 : W) :
  Js.truthy_num ido = true ->
  run respond (resolve_pull_request (P := P) sb ido) s0 =
  let '(a, s1) := respond (GetPullRequest (Js.num_or ido 0)) s0 in
  (match a with
   | NetworkError m => Throw m
   | Responded r =>
       if ok r then
         match json r with
         | Ok pr => Ok (inl pr)
         | Throw m => Throw m
         end
       else Throw (api_error r)
   end, s1, [GetPullRequest (Js.num_or ido 0)]).
Proof.
  intros H. unfold resolve_pull_request. rewrite H. simpl.
  destruct (respond (GetPullRequest (Js.num_or ido 0)) s0) as [a s1].
  destruct a as [m|r]; simpl; [reflexivity|].
  case_ok; simpl; [|reflexivity]. case_json; reflexivity.
Qed.

Lemma run_resolve_by_branch {P} (sb : option string) (ido : option Z)
    (s0 : W) :
  Js.truthy_num ido = false ->
  run respond (resolve_pull_request (P := P) sb ido) s0 =
  let '(a, s1) := respond (SearchPullRequests (Js.template sb)) s0 in
  (match a with
   | NetworkError m => Throw m
   | Responded r =>
       if ok r then
         match json r with
         | Ok data =>
             match values data with
             | [] => Ok (inr (not_found sb))
             | pr :: _ => Ok (inl pr)
             end
         | Throw m => Throw m
         end
       else Throw (api_error r)
   end, s1, [SearchPullRequests (Js.template sb)]).
Proof.
  intros H. unfold resolve_pull_request. rewrite H. simpl.
  destruct (respond (SearchPullRequests (Js.template sb)) s0) as [a s1].
  destruct a as [m|r]; simpl; [reflexivity|].
  case_ok; simpl; [|reflexivity]. case_json; [|reflexivity].
  unfold bindE, await. cbn [bind].
  match goal with |- context [values ?d] => destruct (values d) end;
    reflexivity.
Qed.

(** The body shared by [get_pr_details] and [get_pr_with_diff] below the
    validation: resolve, then either return early or go on with [rest]. *)
Lemma run_after_resolution {P} (rest : RawPR -> Exc (ToolResult P))
    (h : string -> ToolResult P) (sb : option string) (ido : option Z)
    (s0 : W) :
  run respond
    (try_return
       (resolved <- resolve_pull_request sb ido ;;
        match resolved with
        | inr early => ret early
        | inl pr => rest pr
        end) h) s0 =
  let '(res, s1, tr1) := run respond (resolve_pull_request (P := P) sb ido) s0 in
  match res with
  | Ok (inl pr) =>
      let '(r, s2, tr2) := run respond (rest pr) s1 in
      (match r with
       | Ok a => a
       | Throw m => h m
       end, s2, (tr1 ++ tr2)%list)
  | Ok (inr early) => (early, s1, tr1)
  | Throw m => (h m, s1, tr1)
  end.
Proof.
  unfold try_return, bindE. rewrite !run_bind.
  destruct (run respond (resolve_pull_request sb ido) s0) as [[res s1] tr1].
  destruct res as [[pr|early]|m]; simpl; rewrite ?app_nil_r; try reflexivity.
  destruct (run respond (rest pr) s1) as [[r s2] tr2].
  destruct r; simpl; now rewrite app_nil_r.
Qed.

(** What [details_of] returns and requests, whatever the answers. *)
Lemma details_of_result (args : DetailsArgs) (pr : RawPR) (s : W) :
  match fst (fst (run respond (details_of args pr) s)) with
  | Ok a =>
      exists commits,
        a = mkToolResult
              (Stringified
                 {| search_method :=
                      search_method_of (source_branch args) (pr_id_arg args);
                    pull_request := pr_details pr commits |})
              false
  | Throw _ => True
  end.
Proof.
  unfold details_of, bindE. simpl.
  destruct (respond (GetPullRequestCommits (pr_id pr)) s) as [a s1].
  destruct a as [m|r]; simpl; [exact I|].
  case_ok; simpl.
  - case_json; simpl; [|exact I]. rewrite run_bind.
    match goal with
    | |- context [run respond (commit_loop ?b ?cs) ?s] =>
        destruct (commit_loop_ok respond b cs s) as [es Hes];
        destruct (run respond (commit_loop b cs) s) as [[res s2] tr]
    end.
    simpl in Hes. subst res. simpl. eexists. reflexivity.
  - eexists. reflexivity.
Qed.

Lemma details_of_trace (args : DetailsArgs) (pr : RawPR) (s : W) :
  Forall (fun r => is_resolution r = false)
    (snd (run respond (details_of args pr) s)).
Proof.
  unfold details_of, bindE. simpl.
  destruct (respond (GetPullRequestCommits (pr_id pr)) s) as [a s1].
  destruct a as [m|r]; simpl; [repeat constructor|].
  case_ok; simpl; [|repeat constructor].
  case_json; simpl; [|repeat constructor]. rewrite run_bind.
  match goal with
  | |- context [run respond (commit_loop ?b ?cs) ?s] =>
      pose proof (commit_loop_trace respond b cs s) as Htr;
      destruct (commit_loop_ok respond b cs s) as [es Hes];
      destruct (run respond (commit_loop b cs) s) as [[res s2] tr]
  end.
  simpl in Hes, Htr. subst res. simpl. rewrite app_nil_r.
  constructor; [reflexivity|exact Htr].
Qed.

Lemma selector_guard_false (args : DetailsArgs) :
  Js.truthy_str (source_branch args) || Js.truthy_num (pr_id_arg args) = true ->
  negb (Js.truthy_str (source_branch args))
  && negb (Js.truthy_num (pr_id_arg args)) = false.
Proof.
  intros H. apply orb_true_iff in H as [-> | ->]; simpl;
    now rewrite ?andb_false_r.
Qed.

Lemma truthy_str_some (b : string) : b <> "" -> Js.truthy_str (Some b) = true.
Proof.
  intros H. simpl. apply negb_true_iff. now apply String.eqb_neq.
Qed.

Lemma truthy_num_some (id : Z) : id <> 0 -> Js.truthy_num (Some id) = true.
Proof.
  intros H. simpl. apply negb_true_iff. now apply Z.eqb_neq.
Qed.

Lemma num_or_some (id d : Z) : id <> 0 -> Js.num_or (Some id) d = id.
Proof.
  intros H. simpl. now apply Z.eqb_neq in H as ->.
Qed.

(** The requests of a call that passes the validation: one request of
    the resolution, then none of that kind. *)
Lemma get_pr_details_trace (args : DetailsArgs) (s0 : W) :
  Js.truthy_str (source_branch args) || Js.truthy_num (pr_id_arg args) = true ->
  exists rest,
    snd (run respond (get_pr_details args) s0) =
    (if Js.truthy_num (pr_id_arg args)
     then GetPullRequest (Js.num_or (pr_id_arg args) 0)
     else SearchPullRequests (Js.template (source_branch args))) :: rest
    /\ Forall (fun r => is_resolution r = false) rest.
Proof.
  intros Hsel. unfold get_pr_details.
  rewrite (selector_guard_false args Hsel), run_after_resolution.
  destruct (Js.truthy_num (pr_id_arg args)) eqn:Hid.
  - rewrite (run_resolve_by_id _ _ _ Hid).
    destruct (respond (GetPullRequest (Js.num_or (pr_id_arg args) 0)) s0)
      as [a s1].
    destruct a as [m|r]; [exists []; split; [reflexivity|constructor]|].
    case_ok; [|exists []; split; [reflexivity|constructor]].
    case_json; [|exists []; split; [reflexivity|constructor]].
    match goal with
    | |- context [run respond (details_of args ?pr) s1] =>
        pose proof (details_of_trace args pr s1) as Htr;
        destruct (run respond (details_of args pr) s1) as [[res s2] tr]
    end.
    exists tr. split; [reflexivity|exact Htr].
  - rewrite (run_resolve_by_branch _ _ _ Hid).
    destruct (respond (SearchPullRequests (Js.template (source_branch args)))
                s0) as [a s1].
    destruct a as [m|r]; [exists []; split; [reflexivity|constructor]|].
    case_ok; [|exists []; split; [reflexivity|constructor]].
    case_json; [|exists []; split; [reflexivity|constructor]].
    match goal with
    | |- context [values ?d] => destruct (values d) as [|pr ?]
    end; [exists []; split; [reflexivity|constructor]|].
    pose proof (details_of_trace args pr s1) as Htr.
    destruct (run respond (details_of args pr) s1) as [[res s2] tr].
    exists tr. split; [reflexivity|exact Htr].
Qed.

(** The result of a call that passes the validation is never the
    validation failure, and a success names the selector that was used. *)
Lemma get_pr_details_result (args : DetailsArgs) (s0 : W) :
  Js.truthy_str (source_branch args) || Js.truthy_num (pr_id_arg args) = true ->
  let res := fst (fst (run respond (get_pr_details args) s0)) in
  res <> selector_required
  /\ forall p, content res = Stringified p ->
       search_method p
       = search_method_of (source_branch args) (pr_id_arg args).
Proof.
  intros Hsel. unfold get_pr_details.
  rewrite (selector_guard_false args Hsel), run_after_resolution.
  destruct (run respond
              (resolve_pull_request (P := DetailsPayload) (source_branch args)
                 (pr_id_arg args)) s0) as [[res s1] tr1] eqn:Hres.
  assert (Hearly : forall early, res = Ok (inr early) ->
            early = not_found (source_branch args)).
  { intros early ->.
    destruct (Js.truthy_num (pr_id_arg args)) eqn:Hid.
    - rewrite (run_resolve_by_id _ _ _ Hid) in Hres.
      destruct (respond _ s0) as [a s1'].
      destruct a as [m|r]; [discriminate|].
      destruct (ok r); [|discriminate]. destruct (json r); discriminate.
    - rewrite (run_resolve_by_branch _ _ _ Hid) in Hres.
      destruct (respond _ s0) as [a s1'].
      destruct a as [m|r]; [discriminate|].
      destruct (ok r); [|discriminate].
      destruct (json r) as [d|]; [|discriminate].
      destruct (values d); now inversion Hres. }
  destruct res as [[pr|early]|m].
  - pose proof (details_of_result args pr s1) as Hr.
    destruct (run respond (details_of args pr) s1) as [[r s2] tr2].
    simpl in Hr. destruct r as [a|m]; simpl.
    + destruct Hr as [commits ->]. split; [discriminate|].
      intros p [= <-]. reflexivity.
    + split; [discriminate|]. intros p Hp. discriminate.
  - rewrite (Hearly early eq_refl). simpl.
    split; [discriminate|]. intros p Hp. discriminate.
  - simpl. split; [discriminate|]. intros p Hp. discriminate.
Qed.

(** The record built at lines 288-306 holds the fields of the pull
    request. *)
Lemma pr_details_describes (pr : RawPR) (commits : list CommitEntry) :
  describes pr (pr_details pr commits).
Proof.
  unfold describes, pr_details, reviewers_of.
  cbn [d_id d_title d_state d_author d_created_on d_updated_on
       d_source_branch d_destination_branch d_links_html d_reviewers].
  split; [reflexivity|]. split; [reflexivity|]. split; [reflexivity|].
  split; [reflexivity|]. split; [reflexivity|]. split; [reflexivity|].
  split; [reflexivity|]. split; [reflexivity|]. split; [reflexivity|].
  destruct (pr_reviewers pr) as [rs|]; [|reflexivity].
  rewrite !map_map. split; reflexivity.
Qed.

Lemma commit_data_records (b : bool) (c : RawCommit) (diff : option string) :
  records c (commit_data b c diff).
Proof.
  unfold records, commit_data. cbn [c_hash c_message c_date c_author].
  split; [reflexivity|]. split; [reflexivity|]. split; [reflexivity|].
  destruct (rc_author_user_display_name c) as [name|]; [|reflexivity].
  simpl. now destruct (name =? "")%string.
Qed.

Lemma search_method_names (args : DetailsArgs) :
  names_selector args (search_method_of (source_branch args) (pr_id_arg args)).
Proof.
  unfold names_selector, search_method_of.
  destruct (pr_id_arg args) as [id|]; simpl; [|reflexivity].
  now destruct (id =? 0).
Qed.

(** C5.  When the request for the commits of the resolved pull request is
    answered with a status outside 2xx, [get_pr_details] still succeeds:
    the result carries no error flag and a payload whose [commits] is the
    one-element list holding
    "Error fetching commits: <status> <statusText>", whose other fields
    are those of the resolved pull request, field by field, and whose
    search method names the selector of the call; the commits request is
    the last one of the run. *)
Theorem commits_failure_degrades (args : DetailsArgs) (pr : RawPR)
    (s0 s1 s2 : W) (tr1 : list Request) (r : Response (Page RawCommit)) :
  Js.truthy_str (source_branch args) || Js.truthy_num (pr_id_arg args) = true ->
  run respond
    (resolve_pull_request (P := DetailsPayload) (source_branch args)
       (pr_id_arg args)) s0
  = (Ok (inl pr), s1, tr1) ->
  respond (GetPullRequestCommits (pr_id pr)) s1 = (Responded r, s2) ->
  ok r = false ->
  exists p,
    run respond (get_pr_details args) s0 =
    (mkToolResult (Stringified p) false, s2,
     (tr1 ++ [GetPullRequestCommits (pr_id pr)])%list)
    /\ d_commits (pull_request p)
       = [CommitsError
            ("Error fetching commits: " ++ Js.string_of_N (status r)
             ++ " " ++ statusText r)]
    /\ describes pr (pull_request p)
    /\ names_selector args (search_method p).
Proof.
  intros Hsel Hres Hcommits Hok.
  rewrite (run_get_pr_details_resolved args pr s0 s1 tr1 Hsel Hres).
  unfold details_of. simpl. rewrite Hcommits. simpl.
  change (@ok (Page RawCommit) r) with (ok r). rewrite Hok.
  eexists. split; [reflexivity|]. cbn [pull_request search_method].
  split; [reflexivity|].
  split; [apply pr_details_describes|apply search_method_names].
Qed.

(** C4.  With [include_diff] true the diff of each commit is fetched on its
    own: the result carries no error flag whatever the answers were, its
    payload describes the resolved pull request field by field, and the
    commit at any position of the list is recorded at that position, with
    its hash, message, author and date, and as its diff what its own
    request brought: the text of a 2xx answer, and
    "Error fetching diff: <reason>" when [fetch] rejected (the reason is
    the message of the rejection), when the status is not 2xx (the status
    and its text) or when the body could not be read.  With
    [include_diff] absent or false no diff is requested and every commit
    is recorded without the key [diff]. *)
Theorem commit_diffs_isolated (args : DetailsArgs) (pr : RawPR)
    (s0 s1 s2 : W) (tr1 : list Request) (r : Response (Page RawCommit))
    (data : Page RawCommit) :
  Js.truthy_str (source_branch args) || Js.truthy_num (pr_id_arg args) = true ->
  run respond
    (resolve_pull_request (P := DetailsPayload) (source_branch args)
       (pr_id_arg args)) s0
  = (Ok (inl pr), s1, tr1) ->
  respond (GetPullRequestCommits (pr_id pr)) s1 = (Responded r, s2) ->
  ok r = true ->
  json r = Ok data ->
  (include_diff args = Some true ->
   let '(ans, s3) := diff_answers respond (map rc_hash (values data)) s2 in
   exists p,
     run respond (get_pr_details args) s0 =
     (mkToolResult (Stringified p) false, s3,
      (tr1 ++ GetPullRequestCommits (pr_id pr)
           :: map GetCommitDiff (map rc_hash (values data)))%list)
     /\ describes pr (pull_request p)
     /\ names_selector args (search_method p)
     /\ List.length (d_commits (pull_request p)) = List.length (values data)
     /\ forall i c a,
          nth_error (values data) i = Some c ->
          nth_error ans i = Some a ->
          exists d,
            nth_error (d_commits (pull_request p)) i = Some (CommitInfo d)
            /\ records c d
            /\ (fetch_failed a ->
                exists msg,
                  c_diff d = Some (Some ("Error fetching diff: " ++ msg)))
            /\ (forall t, fetched_text a t -> c_diff d = Some (Some t))
            /\ (forall m,
                  a = NetworkError m ->
                  c_diff d = Some (Some ("Error fetching diff: " ++ m)))
            /\ (forall ra,
                  a = Responded ra -> ok ra = false ->
                  c_diff d
                  = Some (Some ("Error fetching diff: "
                                ++ Js.string_of_N (status ra) ++ " "
                                ++ statusText ra)))
            /\ (forall ra m,
                  a = Responded ra -> ok ra = true -> text ra = Throw m ->
                  c_diff d = Some (Some ("Error fetching diff: " ++ m))))
  /\ (include_diff args <> Some true ->
      exists p,
        run respond (get_pr_details args) s0 =
        (mkToolResult (Stringified p) false, s2,
         (tr1 ++ [GetPullRequestCommits (pr_id pr)])%list)
        /\ describes pr (pull_request p)
        /\ names_selector args (search_method p)
        /\ List.length (d_commits (pull_request p))
           = List.length (values data)
        /\ Forall (fun e => exists d, e = CommitInfo d /\ c_diff d = None)
             (d_commits (pull_request p))
        /\ forall i c,
             nth_error (values data) i = Some c ->
             exists d,
               nth_error (d_commits (pull_request p)) i = Some (CommitInfo d)
               /\ records c d
               /\ c_diff d = None).
Proof.
  intros Hsel Hres Hcommits Hok Hjson.
  rewrite (run_get_pr_details_resolved args pr s0 s1 tr1 Hsel Hres).
  unfold details_of, bindE. simpl. rewrite Hcommits. simpl.
  change (@ok (Page RawCommit) r) with (ok r). rewrite Hok.
  change (@json (Page RawCommit) r) with (json r). rewrite Hjson. simpl.
  rewrite run_bind.
  split.
  - intros ->. rewrite run_commit_loop_diff.
    pose proof (diff_answers_length respond (map rc_hash (values data)) s2)
      as Hlen.
    destruct (diff_answers respond (map rc_hash (values data)) s2) as [ans s3].
    simpl in Hlen. rewrite length_map in Hlen.
    eexists. split; [simpl; rewrite app_nil_r; reflexivity|].
    cbn [pull_request search_method pr_details d_commits].
    split; [apply pr_details_describes|].
    split; [apply search_method_names|].
    split; [now apply length_map_combine|].
    intros i c a Hc Ha.
    rewrite (nth_error_map_combine _ _ _ i c a Hc Ha).
    eexists. split; [reflexivity|].
    split; [apply commit_data_records|].
    cbn [commit_data c_diff fst snd]. split; [|split; [|split; [|split]]].
    + intros Hf. destruct (diff_of_answer_failed a Hf) as [msg ->].
      now exists msg.
    + intros t Ht. now rewrite (diff_of_answer_text a t Ht).
    + intros m ->. reflexivity.
    + intros ra -> Hra. simpl. now rewrite Hra.
    + intros ra m -> Hra Hm. simpl. now rewrite Hra, Hm.
  - intros Hno.
    replace (match include_diff args with Some true => true | _ => false end)
      with false by (destruct (include_diff args) as [[|]|]; congruence).
    rewrite run_commit_loop_plain.
    eexists. split; [simpl; reflexivity|].
    cbn [pull_request search_method pr_details d_commits].
    split; [apply pr_details_describes|].
    split; [apply search_method_names|].
    split; [apply length_map|]. split.
    + apply Forall_forall. intros e He.
      apply in_map_iff in He as (c & <- & _).
      eexists. split; reflexivity.
    + intros i c Hc. rewrite nth_error_map, Hc. simpl.
      eexists. split; [reflexivity|].
      split; [apply commit_data_records|reflexivity].
Qed.

(** C6.  Resolution by source branch alone (no usable [pr_id], a
    non-empty branch name), the search being answered with a page of pull
    requests.  An empty page gives a result without error flag whose text
    is "No pull request found for source branch: <branch>", after that one
    request.  Otherwise the handler goes on with the first pull request
    of the page, and with nothing else of the page: the result is what
    the rest of its body computes for that record.  The same holds for
    [get_pr_with_diff]. *)
Theorem branch_resolution (args : DetailsArgs) (b : string) (s0 s1 : W)
    (r : Response (Page RawPR)) (data : Page RawPR) :
  Js.truthy_num (pr_id_arg args) = false ->
  source_branch args = Some b ->
  b <> "" ->
  respond (SearchPullRequests b) s0 = (Responded r, s1) ->
  ok r = true ->
  json r = Ok data ->
  match values data with
  | [] =>
      run respond (get_pr_details args) s0 =
      (mkToolResult
         (PlainText ("No pull request found for source branch: " ++ b)) false,
       s1, [SearchPullRequests b])
      /\ run respond (get_pr_with_diff args) s0 =
         (mkToolResult
            (PlainText ("No pull request found for source branch: " ++ b))
            false,
          s1, [SearchPullRequests b])
  | pr :: _ =>
      run respond (get_pr_details args) s0 =
      (let '(res, s2, tr) := run respond (details_of args pr) s1 in
       (match res with
        | Ok a => a
        | Throw m => error_result ("Error fetching PR with diff: " ++ m)
        end, s2, SearchPullRequests b :: tr))
      /\ run respond (get_pr_with_diff args) s0 =
         (let '(res, s2, tr) := run respond (with_diff_of args pr) s1 in
          (match res with
           | Ok a => a
           | Throw m => error_result ("Error fetching PR with diff: " ++ m)
           end, s2, SearchPullRequests b :: tr))
      /\ forall p,
           content (fst (fst (run respond (get_pr_details args) s0)))
           = Stringified p ->
           exists commits, pull_request p = pr_details pr commits
  end.
Proof.
  intros Hid Hsb Hb Hsearch Hok Hjson.
  assert (Hsel : Js.truthy_str (source_branch args)
                 || Js.truthy_num (pr_id_arg args) = true)
    by (rewrite Hsb, (truthy_str_some b Hb); reflexivity).
  assert (Hd : run respond (get_pr_details args) s0 =
    match values data with
    | [] => (not_found (Some b), s1, [SearchPullRequests b])
    | pr :: _ =>
        let '(res, s2, tr) := run respond (details_of args pr) s1 in
        (match res with
         | Ok a => a
         | Throw m => error_result ("Error fetching PR with diff: " ++ m)
         end, s2, SearchPullRequests b :: tr)
    end).
  { unfold get_pr_details.
    rewrite (selector_guard_false args Hsel), run_after_resolution.
    rewrite (run_resolve_by_branch _ _ _ Hid), Hsb. simpl Js.template.
    rewrite Hsearch. cbv beta iota. use_ok Hok. use_json Hjson.
    destruct (values data) as [|pr rest]; reflexivity. }
  assert (Hw : run respond (get_pr_with_diff args) s0 =
    match values data with
    | [] => (not_found (Some b), s1, [SearchPullRequests b])
    | pr :: _ =>
        let '(res, s2, tr) := run respond (with_diff_of args pr) s1 in
        (match res with
         | Ok a => a
         | Throw m => error_result ("Error fetching PR with diff: " ++ m)
         end, s2, SearchPullRequests b :: tr)
    end).
  { unfold get_pr_with_diff.
    rewrite (selector_guard_false args Hsel), run_after_resolution.
    rewrite (run_resolve_by_branch _ _ _ Hid), Hsb. simpl Js.template.
    rewrite Hsearch. cbv beta iota. use_ok Hok. use_json Hjson.
    destruct (values data) as [|pr rest]; reflexivity. }
  rewrite Hd, Hw. destruct (values data) as [|pr rest].
  - split; reflexivity.
  - split; [reflexivity|]. split; [reflexivity|].
    pose proof (details_of_result args pr s1) as Hr.
    destruct (run respond (details_of args pr) s1) as [[res s2] tr].
    simpl in Hr. destruct res as [a|m]; simpl.
    + destruct Hr as [commits ->]. intros p [= <-]. now exists commits.
    + intros p Hp. discriminate.
Qed.

(** C9.  A call with a non-zero [pr_id] is resolved by that id whatever
    [source_branch] holds: its first request is the pull request of that
    id, no search by branch is ever requested, the result is not the
    validation failure, and a successful result reports
    "pr_id: <id>" as its search method, the id printed as JavaScript
    prints a number: as its decimal numeral when it is below 2^53 in
    magnitude, and for instance as 1e+21 when it is 10^21. *)
Theorem by_id_takes_precedence (args : DetailsArgs) (id : Z) (s0 : W) :
  pr_id_arg args = Some id ->
  id <> 0 ->
  let '(res, _, tr) := run respond (get_pr_details args) s0 in
  (exists rest,
     tr = GetPullRequest id :: rest
     /\ Forall (fun r => is_resolution r = false) rest)
  /\ (forall b, ~ In (SearchPullRequests b) tr)
  /\ res <> selector_required
  /\ (forall p, content res = Stringified p ->
        search_method p = "pr_id: " ++ Js.string_of_Z id)
  /\ (forall p, content res = Stringified p ->
        Z.abs id < 2 ^ 53 ->
        search_method p = "pr_id: " ++ Js.decimal_of_Z id)
  /\ (forall p, content res = Stringified p ->
        id = 10 ^ 21 ->
        search_method p = "pr_id: 1e+21").
Proof.
  intros Hid Hnz.
  assert (Hsel : Js.truthy_str (source_branch args)
                 || Js.truthy_num (pr_id_arg args) = true)
    by (rewrite Hid, (truthy_num_some id Hnz); apply orb_true_r).
  destruct (get_pr_details_trace args s0 Hsel) as (rest & Htr & Hrest).
  pose proof (get_pr_details_result args s0 Hsel) as [Hne Hsm].
  destruct (run respond (get_pr_details args) s0) as [[res s1] tr].
  simpl in Htr, Hne, Hsm.
  rewrite Hid, (truthy_num_some id Hnz), (num_or_some id 0 Hnz) in Htr.
  assert (Hmethod : forall p, content res = Stringified p ->
            search_method p = "pr_id: " ++ Js.string_of_Z id).
  { intros p Hp. rewrite (Hsm p Hp). unfold search_method_of.
    now rewrite Hid, (truthy_num_some id Hnz), (num_or_some id 0 Hnz). }
  split; [now exists rest|]. split; [|split; [exact Hne|]].
  - intros b Hin. rewrite Htr in Hin.
    destruct Hin as [Hin|Hin]; [discriminate|].
    rewrite Forall_forall in Hrest. specialize (Hrest _ Hin). discriminate.
  - split; [exact Hmethod|]. split.
    + intros p Hp Hsafe.
      now rewrite (Hmethod p Hp), (JsFacts.string_of_Z_safe id Hsafe).
    + intros p Hp ->. rewrite (Hmethod p Hp). vm_compute. reflexivity.
Qed.

End DetailsHandler.

(** ** The validation of the selector *)

(** C2, as amended.  With both selectors absent [get_pr_details] returns
    the error result "Either source_branch or pr_id must be provided" and
    issues no request, whatever the remote service.  With exactly one
    selector supplied and truthy (a non-empty [source_branch], a non-zero
    [pr_id]) the handler goes on to the request that resolves the pull
    request.  Selectors that are both falsy are rejected like absent
    ones. *)
Theorem selector_validation (args : DetailsArgs) :
  (source_branch args = None -> pr_id_arg args = None ->
   get_pr_details args = Ret selector_required
   /\ isError (selector_required (P := DetailsPayload)) = true
   /\ forall (W : Type)
        (respond : forall r : Request, W -> FetchResult (payload r) * W)
        (s : W),
        run respond (get_pr_details args) s = (selector_required, s, []))
  /\ (exactly_one_supplied args ->
      Js.truthy_str (source_branch args) || Js.truthy_num (pr_id_arg args)
      = true ->
      resolution_proceeds args)
  /\ (Js.truthy_str (source_branch args) || Js.truthy_num (pr_id_arg args)
      = false ->
      get_pr_details args = Ret selector_required).
Proof.
  destruct args as [sb ido d].
  unfold resolution_proceeds, resolution_request, exactly_one_supplied.
  cbn [source_branch pr_id_arg]. split; [|split].
  - intros -> ->. split; [reflexivity|]. split; reflexivity.
  - intros [[Hsb ->] | [-> Hid]] Ht.
    + rewrite orb_false_r in Ht. unfold get_pr_details.
      cbn [source_branch pr_id_arg]. rewrite Ht. reflexivity.
    + destruct ido as [id|]; [|congruence]. simpl in Ht.
      apply negb_true_iff in Ht. unfold get_pr_details, resolve_pull_request.
      cbn [source_branch pr_id_arg Js.truthy_str Js.truthy_num Js.num_or].
      rewrite Ht. reflexivity.
  - intros Ht. apply orb_false_iff in Ht as [H1 H2]. unfold get_pr_details.
    cbn [source_branch pr_id_arg]. rewrite H1, H2. reflexivity.
Qed.

(** C2, the counterexample: a call whose only selector is [pr_id = 0]
    supplies exactly one selector, and is rejected without a request. *)
Lemma selector_zero_id_rejected :
  exactly_one_supplied (mkDetailsArgs None (Some 0) None)
  /\ get_pr_details (mkDetailsArgs None (Some 0) None) = Ret selector_required
  /\ ~ resolution_proceeds (mkDetailsArgs None (Some 0) None).
Proof.
  split; [right; split; [reflexivity|discriminate]|].
  split; [reflexivity|]. unfold resolution_proceeds. simpl. discriminate.
Qed.

(** C10, as amended.  [pr_id = 0] is treated as an absent [pr_id]: the
    handler is the same computation with either.  Alone it gives the
    validation failure; with a non-empty [source_branch] the first request
    is the search by that branch and the pull request of id 0, or of any
    id, is never requested directly; with an empty [source_branch] the
    call is rejected as well. *)
Theorem zero_id_is_absent (d : option bool) :
  (forall sb,
     get_pr_details (mkDetailsArgs sb (Some 0) d)
     = get_pr_details (mkDetailsArgs sb None d))
  /\ get_pr_details (mkDetailsArgs None (Some 0) d) = Ret selector_required
  /\ (forall b,
        b <> "" ->
        first_request (get_pr_details (mkDetailsArgs (Some b) (Some 0) d))
        = Some (SearchPullRequests b)
        /\ forall (W : Type)
             (respond : forall r : Request, W -> FetchResult (payload r) * W)
             (s : W) (id : Z),
             ~ In (GetPullRequest id)
                 (snd (run respond
                         (get_pr_details (mkDetailsArgs (Some b) (Some 0) d))
                         s)))
  /\ get_pr_details (mkDetailsArgs (Some "") (Some 0) d) = Ret selector_required.
Proof.
  split; [reflexivity|]. split; [reflexivity|]. split; [|reflexivity].
  intros b Hb. split.
  - unfold get_pr_details, resolve_pull_request.
    cbn [source_branch pr_id_arg Js.truthy_num].
    rewrite (truthy_str_some b Hb). reflexivity.
  - intros W respond s id Hin.
    destruct (get_pr_details_trace respond
                (mkDetailsArgs (Some b) (Some 0) d) s) as (rest & Htr & Hrest).
    { cbn [source_branch pr_id_arg]. now rewrite (truthy_str_some b Hb). }
    rewrite Htr in Hin. simpl in Hin.
    destruct Hin as [Hin|Hin]; [discriminate|].
    rewrite Forall_forall in Hrest. specialize (Hrest _ Hin). discriminate.
Qed.

(** C10, the counterexample: with [pr_id = 0] and the empty string as
    [source_branch] no search by branch is issued; the call is rejected. *)
Lemma zero_id_empty_branch_rejected :
  get_pr_details (mkDetailsArgs (Some "") (Some 0) None)
  = Ret selector_required
  /\ first_request (get_pr_details (mkDetailsArgs (Some "") (Some 0) None))
     <> Some (SearchPullRequests "").
Proof.
  split; [reflexivity|]. simpl. discriminate.
Qed.

(** ** [list_pull_requests] *)

Section Listing.

Context {W : Type}.
Variable respond : forall r : Request, W -> FetchResult (payload r) * W.

Lemma run_list_pull_requests (args : ListArgs PRState) (s : W) :
  let req :=
    ListPullRequests
      (match state_arg args with Some st => st | None => OPEN end)
      (Js.num_or (limit args) 50) (Js.num_or (page_arg args) 1)
      (Js.str_or_null (target_branch args)) in
  exists res s1,
    run respond (list_pull_requests args) s = (res, s1, [req])
    /\ forall p, content res = Stringified p ->
         page_length p = Js.num_or (limit args) 50.
Proof.
  intros req. unfold list_pull_requests. fold req.
  unfold try_return, bindE. simpl.
  destruct (respond req s) as [a s1].
  destruct a as [m|r]; simpl.
  - do 2 eexists. split; [reflexivity|]. intros p Hp. discriminate.
  - case_ok; simpl.
    + case_json; simpl; do 2 eexists; (split; [reflexivity|]); intros p Hp;
        [now injection Hp as <- | discriminate].
    + do 2 eexists. split; [reflexivity|]. intros p Hp. discriminate.
Qed.

(** C7.  A [limit] outside 1..100 and a [page] below 1 do not pass the
    parameter schema: the call is refused and the handler, hence any
    request, does not happen.  A [limit] within 1..100 is the page size of
    the request and the [page_length] of the result, as it is.  In every
    case a request that is issued asks for a page size within 1..100. *)
Theorem list_limit_validation (args : ListArgs PRState) :
  (forall l, limit args = Some l -> l < 1 \/ 100 < l ->
     call_tool list_schema list_pull_requests args = Ret InvalidParams)
  /\ (forall p, page_arg args = Some p -> p < 1 ->
        call_tool list_schema list_pull_requests args = Ret InvalidParams)
  /\ (forall l, limit args = Some l -> 1 <= l <= 100 ->
        optional_min 1 (page_arg args) = true ->
        forall s,
        exists res s1,
          run respond (call_tool list_schema list_pull_requests args) s =
          (Handled res, s1,
           [ListPullRequests
              (match state_arg args with Some st => st | None => OPEN end)
              l (Js.num_or (page_arg args) 1)
              (Js.str_or_null (target_branch args))])
          /\ forall p, content res = Stringified p -> page_length p = l)
  /\ (forall s,
        Forall bounded_listing
          (snd (run respond (call_tool list_schema list_pull_requests args)
                  s))).
Proof.
  unfold call_tool, list_schema. split; [|split; [|split]].
  - intros l -> Hl. simpl.
    replace ((1 <=? l) && (l <=? 100)) with false; [reflexivity|].
    symmetry. apply andb_false_iff. destruct Hl; [left|right];
      now apply Z.leb_gt.
  - intros p -> Hp. simpl.
    replace (1 <=? p) with false by (symmetry; now apply Z.leb_gt).
    now rewrite andb_false_r.
  - intros l Hl Hr Hp s. rewrite Hl, Hp. cbn [optional_min_max].
    replace ((1 <=? l) && (l <=? 100)) with true
      by (symmetry; apply andb_true_iff; split; apply Z.leb_le; lia).
    cbn [andb]. rewrite run_bind.
    destruct (run_list_pull_requests args s) as (res & s1 & Hrun & Hlen).
    rewrite Hrun. rewrite Hl in *. rewrite (num_or_some l 50) in * by lia.
    exists res, s1. split; [reflexivity|exact Hlen].
  - intros s.
    destruct (optional_min_max 1 100 (limit args)
              && optional_min 1 (page_arg args)) eqn:Hs; [|constructor].
    rewrite run_bind.
    destruct (run_list_pull_requests args s) as (res & s1 & Hrun & _).
    rewrite Hrun. simpl. constructor; [|constructor]. simpl.
    apply andb_true_iff in Hs as [Hs _].
    destruct (limit args) as [l|]; simpl in *; [|lia].
    apply andb_true_iff in Hs as [H1 H2]. apply Z.leb_le in H1, H2.
    replace (l =? 0) with false by (symmetry; apply Z.eqb_neq; lia). lia.
Qed.

End Listing.

(** ** [list_pipelines] *)

Section Pipelines.

Context {W : Type}.
Variable respond : forall r : Request, W -> FetchResult (payload r) * W.

Lemma message_of_set_message (t : option Target) (m : option string) :
  Js.truthy_str (hash_of t) = true -> message_of (set_message t m) = m.
Proof.
  destruct t as [[[c|] o]|]; simpl; try discriminate. reflexivity.
Qed.

Lemma derive_pr_id_falsy (m : option string) :
  Js.truthy_str m = false -> derive_pr_id m = None.
Proof.
  destruct m as [m|]; simpl; [|reflexivity]. intros H.
  apply negb_false_iff, String.eqb_eq in H. subst m. reflexivity.
Qed.

(** The derived id of a view is always that of the message the view
    carries. *)
Lemma pipeline_view_pr_id (p : RawPipeline) (s : W) :
  let v := fst (fst (run respond (pipeline_view p) s)) in
  p_pr_id v = derive_pr_id (message_of (p_target v)).
Proof.
  unfold pipeline_view, resolve_message.
  destruct (negb (Js.truthy_str (message_of (rp_target p)))
            && Js.truthy_str (hash_of (rp_target p))) eqn:Hg;
    [|reflexivity].
  apply andb_true_iff in Hg as [_ Hh].
  unfold try_return, bindE. simpl.
  destruct (respond (GetCommit (Js.template (hash_of (rp_target p)))) s)
    as [a s1].
  destruct a as [m|r]; simpl; [reflexivity|].
  case_ok; simpl; [|reflexivity].
  case_json; simpl; [|reflexivity].
  now rewrite message_of_set_message.
Qed.

Lemma pipeline_views_pr_id (ps : list RawPipeline) : forall s,
  Forall (fun v => p_pr_id v = derive_pr_id (message_of (p_target v)))
    (fst (fst (run respond (pipeline_views ps) s))).
Proof.
  induction ps as [|p ps IH]; intros s; simpl; [constructor|].
  rewrite run_bind.
  pose proof (pipeline_view_pr_id p s) as Hp.
  destruct (run respond (pipeline_view p) s) as [[v s1] t1].
  rewrite run_bind. specialize (IH s1).
  destruct (run respond (pipeline_views ps) s1) as [[vs s2] t2].
  simpl in *. constructor; assumption.
Qed.

Lemma run_pipeline_views_app (l1 l2 : list RawPipeline) : forall s,
  run respond (pipeline_views (l1 ++ l2)) s =
  let '(v1, s1, t1) := run respond (pipeline_views l1) s in
  let '(v2, s2, t2) := run respond (pipeline_views l2) s1 in
  ((v1 ++ v2)%list, s2, (t1 ++ t2)%list).
Proof.
  induction l1 as [|p l1 IH]; intros s.
  - simpl. destruct (run respond (pipeline_views l2) s) as [[v2 s2] t2].
    reflexivity.
  - cbn [app pipeline_views]. rewrite !run_bind.
    destruct (run respond (pipeline_view p) s) as [[v s1] t1].
    rewrite !run_bind, IH.
    destruct (run respond (pipeline_views l1) s1) as [[v1 s2] t2].
    simpl.
    destruct (run respond (pipeline_views l2) s2) as [[v2 s3] t3].
    simpl. now rewrite !app_nil_r, app_assoc.
Qed.

(** One pipeline without message whose lookup fails. *)
Lemma run_pipeline_view_failed (p : RawPipeline) (h : string) (s s1 : W)
    (a : FetchResult CommitDetail) :
  Js.truthy_str (message_of (rp_target p)) = false ->
  hash_of (rp_target p) = Some h ->
  h <> "" ->
  respond (GetCommit h) s = (a, s1) ->
  lookup_failed a ->
  run respond (pipeline_view p) s =
  ({| p_pr_id := None;
      p_state := rp_state p;
      p_created_on := rp_created_on p;
      p_completed_on := rp_completed_on p;
      p_run_number := rp_run_number p;
      p_duration_in_seconds := rp_duration_in_seconds p;
      p_target := rp_target p |}, s1, [GetCommit h]).
Proof.
  intros Hm Hh Hne Ha Hf. unfold pipeline_view, resolve_message.
  rewrite Hm, Hh, (truthy_str_some h Hne). cbn [negb andb Js.template].
  unfold try_return, bindE. simpl. rewrite Ha.
  destruct a as [m|r]; simpl.
  - now rewrite (derive_pr_id_falsy _ Hm).
  - destruct Hf as [Hok|[m Hj]].
    + use_ok Hok. simpl. now rewrite (derive_pr_id_falsy _ Hm).
    + case_ok; simpl; [use_json Hj; simpl|];
        now rewrite (derive_pr_id_falsy _ Hm).
Qed.

(** A pipeline without message and with a hash starts with the lookup of
    its commit. *)
Lemma pipeline_lookup_issued (p : RawPipeline) (h : string) :
  Js.truthy_str (message_of (rp_target p)) = false ->
  hash_of (rp_target p) = Some h ->
  h <> "" ->
  first_request (pipeline_view p) = Some (GetCommit h).
Proof.
  intros Hm Hh Hne. unfold pipeline_view, resolve_message.
  rewrite Hm, Hh, (truthy_str_some h Hne). reflexivity.
Qed.

(** C8.  In a batch, a pipeline without commit message and with a commit
    hash gets a lookup of that commit; when the lookup fails (rejection,
    status outside 2xx, unreadable body) [list_pipelines] still succeeds
    and returns that pipeline at its place, its target as received (no
    message) and a null [pr_id], between the views of the pipelines
    before and after it, which are what their own callbacks produce. *)
Theorem lookup_failure_is_swallowed (args : ListArgs PipelineState)
    (r : Response (Page RawPipeline)) (data : Page RawPipeline)
    (before after : list RawPipeline) (p : RawPipeline) (h : string)
    (a : FetchResult CommitDetail) (s0 s1 s2 s3 s4 : W)
    (vs1 vs2 : list Pipeline) (tr1 tr2 : list Request) :
  let listing :=
    ListPipelines (Js.num_or (limit args) 10) (Js.num_or (page_arg args) 1)
      (state_arg args) (Js.str_or_null (target_branch args)) in
  respond listing s0 = (Responded r, s1) ->
  ok r = true ->
  json r = Ok data ->
  values data = (before ++ p :: after)%list ->
  Js.truthy_str (message_of (rp_target p)) = false ->
  hash_of (rp_target p) = Some h ->
  h <> "" ->
  run respond (pipeline_views before) s1 = (vs1, s2, tr1) ->
  respond (GetCommit h) s2 = (a, s3) ->
  lookup_failed a ->
  run respond (pipeline_views after) s3 = (vs2, s4, tr2) ->
  first_request (pipeline_view p) = Some (GetCommit h)
  /\ run respond (list_pipelines args) s0 =
  (mkToolResult
     (Stringified
        {| total_count := size data;
           page := Js.num_or (page_arg args) 1;
           page_length := Js.num_or (limit args) 10;
           l_next := Js.str_or_null (next data);
           l_previous := Js.str_or_null (previous data);
           items :=
             (vs1 ++
              {| p_pr_id := None;
                 p_state := rp_state p;
                 p_created_on := rp_created_on p;
                 p_completed_on := rp_completed_on p;
                 p_run_number := rp_run_number p;
                 p_duration_in_seconds := rp_duration_in_seconds p;
                 p_target := rp_target p |} :: vs2)%list |})
     false,
   s4, (listing :: tr1 ++ GetCommit h :: tr2)%list).
Proof.
  intros listing Hl Hok Hjson Hvals Hm Hh Hne Hb Ha Hf Haft.
  split; [exact (pipeline_lookup_issued p h Hm Hh Hne)|].
  unfold list_pipelines. fold listing.
  unfold try_return, bindE. simpl. rewrite Hl. simpl.
  use_ok Hok. simpl. use_json Hjson. simpl.
  rewrite !run_bind, Hvals, run_pipeline_views_app, Hb.
  cbn [pipeline_views]. rewrite !run_bind.
  rewrite (run_pipeline_view_failed p h s2 s3 a Hm Hh Hne Ha Hf).
  rewrite !run_bind, Haft. simpl. now rewrite !app_nil_r.
Qed.

Lemma list_pipelines_pr_ids (args : ListArgs PipelineState) (s : W)
    (p : ListPayload Pipeline) :
  content (fst (fst (run respond (list_pipelines args) s))) = Stringified p ->
  Forall (fun v => p_pr_id v = derive_pr_id (message_of (p_target v)))
    (items p).
Proof.
  unfold list_pipelines, try_return, bindE. simpl.
  destruct (respond _ s) as [a s1].
  destruct a as [m|r]; simpl; [discriminate|].
  case_ok; simpl; [|discriminate].
  case_json; simpl; [|discriminate].
  rewrite !run_bind.
  match goal with
  | |- context [run respond (pipeline_views ?ps) s1] =>
      pose proof (pipeline_views_pr_id ps s1) as Hv;
      destruct (run respond (pipeline_views ps) s1) as [[vs s2] tr]
  end.
  simpl. intros [= <-]. exact Hv.
Qed.

(** The id of a view is derived from the message its pipeline ends up
    with: its own, or the one the lookup brought. *)
Lemma pipeline_view_message (p : RawPipeline) (s : W) :
  let '(v, s1, _) := run respond (pipeline_view p) s in
  let '(answers, s1') := lookup_answers respond [p] s in
  s1 = s1'
  /\ map p_pr_id [v]
     = map (fun pa => derive_pr_id (message_after (fst pa) (snd pa)))
         (combine [p] answers).
Proof.
  unfold pipeline_view, resolve_message. cbn [lookup_answers].
  destruct (needs_lookup p) eqn:Hn; unfold needs_lookup in Hn; rewrite Hn.
  - unfold try_return, bindE. simpl.
    destruct (respond (GetCommit (Js.template (hash_of (rp_target p)))) s)
      as [a s1].
    destruct a as [m|r]; simpl; [split; reflexivity|].
    case_ok; simpl; [|split; reflexivity].
    case_json; simpl; split; reflexivity.
  - simpl. split; reflexivity.
Qed.

Lemma pipeline_views_messages (ps : list RawPipeline) : forall s,
  let '(vs, s1, _) := run respond (pipeline_views ps) s in
  let '(answers, s1') := lookup_answers respond ps s in
  s1 = s1'
  /\ map p_pr_id vs
     = map (fun pa => derive_pr_id (message_after (fst pa) (snd pa)))
         (combine ps answers).
Proof.
  induction ps as [|p ps IH]; intros s; [split; reflexivity|].
  cbn [pipeline_views]. rewrite run_bind.
  pose proof (pipeline_view_message p s) as Hp.
  destruct (run respond (pipeline_view p) s) as [[v s1] t1].
  rewrite run_bind. specialize (IH s1).
  destruct (run respond (pipeline_views ps) s1) as [[vs s2] t2].
  cbn [lookup_answers] in Hp |- *.
  destruct (needs_lookup p).
  - destruct (respond (GetCommit (Js.template (hash_of (rp_target p)))) s)
      as [a s1'].
    destruct Hp as [<- Hv].
    destruct (lookup_answers respond ps s1) as [answers s2'].
    destruct IH as [<- Hvs]. simpl in Hv |- *.
    split; [reflexivity|]. injection Hv as Hv. now rewrite Hv, Hvs.
  - destruct Hp as [<- Hv].
    destruct (lookup_answers respond ps s1) as [answers s2'].
    destruct IH as [<- Hvs]. simpl in Hv |- *.
    split; [reflexivity|]. injection Hv as Hv. now rewrite Hv, Hvs.
Qed.

Lemma list_pipelines_messages (args : ListArgs PipelineState)
    (a : FetchResult (Page RawPipeline)) (data : Page RawPipeline)
    (s s1 : W) (p : ListPayload Pipeline) :
  respond
    (ListPipelines (Js.num_or (limit args) 10) (Js.num_or (page_arg args) 1)
       (state_arg args) (Js.str_or_null (target_branch args))) s
  = (a, s1) ->
  answered a data ->
  content (fst (fst (run respond (list_pipelines args) s))) = Stringified p ->
  map p_pr_id (items p)
  = map (fun pa => derive_pr_id (message_after (fst pa) (snd pa)))
      (combine (values data)
         (fst (lookup_answers respond (values data) s1))).
Proof.
  intros Ha Hans. unfold list_pipelines, try_return, bindE. simpl.
  rewrite Ha. destruct a as [m|r]; simpl in Hans; [contradiction|].
  destruct Hans as [Hok Hjson]. simpl. use_ok Hok. simpl. use_json Hjson.
  simpl. rewrite !run_bind.
  pose proof (pipeline_views_messages (values data) s1) as Hv.
  destruct (run respond (pipeline_views (values data)) s1) as [[vs s2] tr].
  destruct (lookup_answers respond (values data) s1) as [answers s2'].
  destruct Hv as [_ Hv]. simpl. intros [= <-]. exact Hv.
Qed.

End Pipelines.

(** C1, as amended.  The derived pull-request id is read off the commit
    message: the digits of the first [#<digits>] token are read as a
    decimal numeral and give the id as a JavaScript number.  That number
    is the decimal integer itself as long as the integer is below 2^53;
    from there on it is the nearest number that a double holds: a multiple
    of the spacing of the doubles around the integer, at most half a
    spacing away, the even multiple when two are as near.  A message
    without such a token, and an absent message, give [null].
    "Fix login bug #42" gives 42 and "#7 and #12 both referenced"
    gives 7.  Every pipeline that [list_pipelines] returns carries, at its
    place in the page, the id derived in this way from the message the
    handler resolved for it: the message of the looked-up commit when the
    pipeline needed a lookup and the lookup was answered, and the message
    the pipeline came with in any other case. *)
Theorem derived_pr_id :
  (forall msg ds,
     first_token msg ds ->
     derive_pr_id (Some msg) = Some (Js.number_of_Z (Js.decimal_value ds)))
  /\ (forall msg ds,
        first_token msg ds -> Js.decimal_value ds < 2 ^ 53 ->
        derive_pr_id (Some msg) = Some (Js.Finite (Js.decimal_value ds)))
  /\ (forall msg ds,
        first_token msg ds -> (String.length ds <= 15)%nat ->
        derive_pr_id (Some msg) = Some (Js.Finite (Js.decimal_value ds)))
  /\ (forall msg ds v,
        first_token msg ds -> 2 ^ 53 <= Js.decimal_value ds ->
        derive_pr_id (Some msg) = Some (Js.Finite v) ->
        let n := Js.decimal_value ds in
        let spacing := 2 ^ (Z.log2 n - 52) in
        v mod spacing = 0
        /\ 2 * Z.abs (v - n) <= spacing
        /\ (2 * Z.abs (v - n) = spacing -> Z.even (v / spacing) = true))
  /\ (forall msg, token_free msg <-> derive_pr_id (Some msg) = None)
  /\ derive_pr_id None = None
  /\ derive_pr_id (Some "Fix login bug #42") = Some (Js.Finite 42)
  /\ derive_pr_id (Some "#7 and #12 both referenced") = Some (Js.Finite 7)
  /\ (forall (W : Type)
        (respond : forall r : Request, W -> FetchResult (payload r) * W)
        (args : ListArgs PipelineState)
        (a : FetchResult (Page RawPipeline)) (data : Page RawPipeline)
        (s s1 : W) (p : ListPayload Pipeline),
        respond
          (ListPipelines (Js.num_or (limit args) 10)
             (Js.num_or (page_arg args) 1) (state_arg args)
             (Js.str_or_null (target_branch args))) s
        = (a, s1) ->
        answered a data ->
        content (fst (fst (run respond (list_pipelines args) s)))
        = Stringified p ->
        map p_pr_id (items p)
        = map (fun pa => derive_pr_id (message_after (fst pa) (snd pa)))
            (combine (values data)
               (fst (lookup_answers respond (values data) s1)))).
Proof.
  assert (Hvalue : forall msg ds,
            first_token msg ds ->
            derive_pr_id (Some msg)
            = Some (Js.number_of_Z (Js.decimal_value ds))).
  { intros msg ds Ht. unfold derive_pr_id.
    rewrite (JsFacts.match_first_token msg ds Ht).
    destruct Ht as (pre & suf & _ & _ & _ & Hds & _). unfold Js.parseInt.
    now rewrite (JsFacts.take_digits_all ds Hds). }
  split; [exact Hvalue|].
  split; [|split; [|split; [|split; [|split; [|split; [|split]]]]]].
  - intros msg ds Ht Hsmall.
    now rewrite (Hvalue msg ds Ht), (JsFacts.number_of_Z_small _ Hsmall).
  - intros msg ds Ht Hlen. unfold derive_pr_id.
    rewrite (JsFacts.match_first_token msg ds Ht).
    destruct Ht as (pre & suf & _ & _ & _ & Hds & _).
    now rewrite (JsFacts.parseInt_exact ds Hds Hlen).
  - intros msg ds v Ht Hbig Hv. rewrite (Hvalue msg ds Ht) in Hv.
    injection Hv as Hv.
    exact (JsFacts.number_of_Z_nearest (Js.decimal_value ds) v Hbig Hv).
  - intros msg. rewrite <- JsFacts.match_none_token_free. unfold derive_pr_id.
    destruct (Js.match_hash_digits msg); split; congruence.
  - reflexivity.
  - reflexivity.
  - reflexivity.
  - intros W respond args a data s s1 p.
    apply list_pipelines_messages.
Qed.

(** C1 as it was written does not hold: the digits are not always read
    as the decimal integer they spell.  The token of
    "Merge #9007199254740993" spells 9007199254740993, and the derived id
    is the number 9007199254740992. *)
Lemma derived_pr_id_rounds :
  first_token "Merge #9007199254740993" "9007199254740993"
  /\ Js.decimal_value "9007199254740993" = 9007199254740993
  /\ derive_pr_id (Some "Merge #9007199254740993")
     = Some (Js.Finite 9007199254740992)
  /\ derive_pr_id (Some "Merge #9007199254740993")
     <> Some (Js.Finite (Js.decimal_value "9007199254740993")).
Proof.
  split; [|split; [reflexivity|split; [reflexivity|]]].
  - exists "Merge ", "". split; [reflexivity|].
    split; [now apply JsFacts.match_none_token_free|].
    split; [discriminate|]. split; reflexivity.
  - intros H. vm_compute in H. discriminate H.
Qed.

(** ** The round trip of a comment *)

Section Comments.

Lemma comment_view_inline (c : RawComment) :
  k_inline (comment_view c) = cm_inline c.
Proof.
  unfold comment_view. simpl. destruct (cm_inline c) as [[f t p]|]; reflexivity.
Qed.

Lemma comments_on_post (id next next' : Z) (cs : list (Z * RawComment))
    (c : RawComment) :
  comments_on id (mkStore next' (cs ++ [(id, c)]))
  = (comments_on id (mkStore next cs) ++ [c])%list.
Proof.
  unfold comments_on. simpl. rewrite filter_app, map_app. simpl.
  now rewrite Z.eqb_refl.
Qed.

(** The page on which the last element of a listing lies. *)
Lemma page_holds_last {T} (l : list T) (c : T) (lim : Z) :
  1 <= lim ->
  In c (page_slice lim (Z.of_nat (List.length l) / lim + 1) (l ++ [c])).
Proof.
  intros Hlim. unfold page_slice.
  set (n := Z.of_nat (List.length l)).
  pose proof (Z.div_mod n lim ltac:(lia)) as Hdm.
  pose proof (Z.mod_pos_bound n lim ltac:(lia)) as Hm.
  assert (Hq : 0 <= n / lim) by (apply Z.div_pos; lia).
  replace ((n / lim + 1 - 1) * lim) with (lim * (n / lim)) by ring.
  set (k := Z.to_nat (lim * (n / lim))).
  assert (Hk : (k <= List.length l)%nat) by (unfold k; nia).
  rewrite skipn_app.
  replace (k - List.length l)%nat with 0%nat by lia. simpl skipn at 2.
  rewrite firstn_app, length_skipn.
  replace (Z.to_nat lim - (List.length l - k))%nat
    with (S (Z.to_nat lim - (List.length l - k) - 1))%nat by (unfold k; nia).
  apply in_or_app. right. simpl. now left.
Qed.

Lemma run_view_by_id (id lim pg : Z) (s : Store) :
  lim <> 0 -> pg <> 0 ->
  run serve (view_pr_comments (mkViewArgs None (Some id) (Some lim) (Some pg)))
    s =
  (mkToolResult
     (Stringified
        {| total_count := VNum (Z.of_nat (List.length (comments_on id s)));
           page := pg;
           page_length := lim;
           l_next := None;
           l_previous := None;
           items := map comment_view (page_slice lim pg (comments_on id s)) |})
     false,
   s, [ListComments id lim (Some pg)]).
Proof.
  intros Hlim Hpg. unfold view_pr_comments.
  cbn [v_pr_id v_source_branch v_limit v_page].
  rewrite (num_or_some lim 50 Hlim), (num_or_some pg 1 Hpg).
  unfold try_return, bindE, serve. cbn [bind ret fetch run].
  cbn [ok status andb N.leb N.compare Pos.compare Pos.compare_cont negb
       await json bind run].
  rewrite (num_or_some pg 1 Hpg). reflexivity.
Qed.

Lemma run_get_pr_comments (id lim : Z) (s : Store) :
  lim <> 0 ->
  run serve (get_pr_comments id (Some lim)) s =
  (mkToolResult
     (Stringified
        {| cs_pull_request_id := id;
           cs_total_count := VNum (Z.of_nat (List.length (comments_on id s)));
           cs_comments :=
             map comment_view (page_slice lim 1 (comments_on id s)) |})
     false,
   s, [ListComments id lim None]).
Proof.
  intros Hlim. unfold get_pr_comments.
  rewrite (num_or_some lim 50 Hlim).
  unfold try_return, bindE, serve. cbn [bind ret fetch run].
  cbn [ok status andb N.leb N.compare Pos.compare Pos.compare_cont negb
       await json bind run].
  reflexivity.
Qed.

(** C3.  On a remote service that keeps the comments posted to it, an
    inline comment created by [add_pr_inline_comment] is listed by
    [view_pr_comments] of the same pull request, on the page where it
    lies, with the text that was sent and the anchor made of the
    [file_path] and the [line] that were sent; a comment created by
    [add_pr_comment] is listed with a null anchor, by [view_pr_comments]
    and, on the first page, by [get_pr_comments].  On any remote service
    the anchor of a listed comment is the one of the remote record, null
    when the record has none. *)
Theorem comment_round_trip (s : Store) (id : Z) (body file_path : string)
    (line lim : Z) :
  1 <= lim <= 100 ->
  let pg := Z.of_nat (List.length (comments_on id s)) / lim + 1 in
  let view := view_pr_comments (mkViewArgs None (Some id) (Some lim) (Some pg)) in
  (let '(_, s1, _) :=
     run serve (add_pr_inline_comment id body file_path line) s in
   let '(res, _, _) := run serve view s1 in
   isError res = false
   /\ exists p k,
        content res = Stringified p /\ In k (items p)
        /\ k_id k = VNum (st_next_id s)
        /\ k_content k = body
        /\ k_inline k
           = Some {| from := None; to := Some line; path := file_path |})
  /\ (let '(_, s1, _) := run serve (add_pr_comment id body) s in
      let '(res, _, _) := run serve view s1 in
      isError res = false
      /\ exists p k,
           content res = Stringified p /\ In k (items p)
           /\ k_id k = VNum (st_next_id s)
           /\ k_content k = body
           /\ k_inline k = None)
  /\ (Z.of_nat (List.length (comments_on id s)) < lim ->
      let '(_, s1, _) := run serve (add_pr_comment id body) s in
      let '(res, _, _) := run serve (get_pr_comments id (Some lim)) s1 in
      isError res = false
      /\ exists p k,
           content res = Stringified p /\ In k (cs_comments p)
           /\ k_id k = VNum (st_next_id s)
           /\ k_content k = body
           /\ k_inline k = None)
  /\ (forall c, k_inline (comment_view c) = cm_inline c).
Proof.
  intros Hlim pg view.
  assert (Hpg : pg <> 0).
  { unfold pg.
    assert (0 <= Z.of_nat (List.length (comments_on id s)) / lim)
      by (apply Z.div_pos; lia). lia. }
  destruct s as [next cs].
  split; [|split; [|split; [|exact comment_view_inline]]]; cycle 2.
  - intros Hfew.
    unfold add_pr_comment, try_return, bindE. cbn [bind fetch run serve].
    cbn [ok status andb N.leb N.compare Pos.compare Pos.compare_cont negb
         await json bind run ret].
    rewrite run_get_pr_comments by lia. cbn [isError content cs_comments].
    split; [reflexivity|]. do 2 eexists. split; [reflexivity|].
    split.
    + apply in_map.
      rewrite (comments_on_post id next).
      replace 1 with (Z.of_nat (List.length (comments_on id (mkStore next cs)))
                      / lim + 1)
        by (rewrite Z.div_small; lia).
      apply page_holds_last. lia.
    + repeat split.
  - unfold add_pr_inline_comment, try_return, bindE. cbn [bind fetch run serve].
    cbn [ok status andb N.leb N.compare Pos.compare Pos.compare_cont negb
         await json bind run ret].
    unfold view. rewrite run_view_by_id by lia. cbn [isError content items].
    split; [reflexivity|]. do 2 eexists. split; [reflexivity|].
    split.
    + apply in_map.
      rewrite (comments_on_post id next). unfold pg.
      apply page_holds_last. lia.
    + repeat split.
  - unfold add_pr_comment, try_return, bindE. cbn [bind fetch run serve].
    cbn [ok status andb N.leb N.compare Pos.compare Pos.compare_cont negb
         await json bind run ret].
    unfold view. rewrite run_view_by_id by lia. cbn [isError content items].
    split; [reflexivity|]. do 2 eexists. split; [reflexivity|].
    split.
    + apply in_map.
      rewrite (comments_on_post id next). unfold pg.
      apply page_holds_last. lia.
    + repeat split.
Qed.

End Comments.

(** ** The theorems at work on the sample service *)

(** C1 at "see #15, then #2": the first token gives 15; and at the three
    pipelines of the sample: the first brings its message, the lookup of
    the second fails, the lookup of the third brings a message. *)
Lemma derived_pr_id_witness :
  derive_pr_id (Some "see #15, then #2") = Some (Js.Finite 15)
  /\ exists p,
       content
         (fst (fst (run Sample.remote
                      (list_pipelines (mkListArgs None None None None)) tt)))
       = Stringified p
       /\ map p_pr_id (items p)
          = [Some (Js.Finite 42); None; Some (Js.Finite 7)].
Proof.
  split.
  - apply (proj1 (proj2 derived_pr_id) "see #15, then #2" "15");
      [|reflexivity].
    exists "see ", ", then #2". split; [reflexivity|].
    split; [now apply JsFacts.match_none_token_free|].
    split; [discriminate|]. split; reflexivity.
  - eexists. split; [reflexivity|].
    exact (proj2 (proj2 (proj2 (proj2 (proj2 (proj2 (proj2 (proj2
             derived_pr_id)))))))
             unit Sample.remote (mkListArgs None None None None) _
             (Sample.page_of
                [Sample.pipeline1; Sample.pipeline2; Sample.pipeline3])
             tt tt _ eq_refl (conj eq_refl eq_refl) eq_refl).
Defined.

(** C2 at a call with [pr_id = 7] alone. *)
Lemma selector_validation_witness :
  resolution_proceeds (mkDetailsArgs None (Some 7) None).
Proof.
  apply (proj1 (proj2 (selector_validation (mkDetailsArgs None (Some 7) None)))).
  - right. split; [reflexivity|discriminate].
  - reflexivity.
Defined.

(** C3 on the sample store: an inline comment on pull request 7. *)
Lemma comment_round_trip_witness :
  let '(_, s1, _) :=
    run serve (add_pr_inline_comment 7 "nit" "src/login.ts" 12) Sample.store in
  let '(res, _, _) :=
    run serve (view_pr_comments (mkViewArgs None (Some 7) (Some 50) (Some 1)))
      s1 in
  isError res = false
  /\ exists p k,
       content res = Stringified p /\ In k (items p)
       /\ k_id k = VNum 100
       /\ k_content k = "nit"
       /\ k_inline k
          = Some {| from := None; to := Some 12; path := "src/login.ts" |}.
Proof.
  exact (proj1 (comment_round_trip Sample.store 7 "nit" "src/login.ts" 12 50
                  ltac:(lia))).
Defined.

(** C4 on pull request 7 with [include_diff]: the diff of commit "a1" is
    its text, the failed one of "b2" an error text. *)
Lemma commit_diffs_isolated_witness :
  exists p d1 d2,
    run Sample.remote (get_pr_details (mkDetailsArgs None (Some 7) (Some true)))
      tt =
    (mkToolResult (Stringified p) false, tt,
     [GetPullRequest 7; GetPullRequestCommits 7; GetCommitDiff "a1";
      GetCommitDiff "b2"])
    /\ search_method p = "pr_id: 7"
    /\ d_id (pull_request p) = 7
    /\ d_title (pull_request p) = VStr "Fix login bug"
    /\ d_commits (pull_request p) = [CommitInfo d1; CommitInfo d2]
    /\ c_hash d1 = "a1"
    /\ c_author d1 = Some "Ada <ada@example.org>"
    /\ c_diff d1 = Some (Some "diff --git a/login.ts b/login.ts")
    /\ c_hash d2 = "b2"
    /\ c_diff d2 = Some (Some "Error fetching diff: 404 Not Found").
Proof.
  pose proof (proj1 (commit_diffs_isolated Sample.remote
                (mkDetailsArgs None (Some 7) (Some true)) Sample.pr7 tt tt tt
                [GetPullRequest 7] _ (Sample.page_of Sample.commits)
                eq_refl eq_refl eq_refl eq_refl eq_refl) eq_refl) as H.
  cbv [diff_answers Sample.remote Sample.page_of Sample.commits values map
       rc_hash Sample.commit String.eqb Ascii.eqb Bool.eqb] in H.
  destruct H as (p & Hrun & Hd & Hs & Hlen & Hat).
  destruct (Hat 0%nat _ _ eq_refl eq_refl)
    as (d1 & H1 & (Hh1 & _ & _ & Ha1) & _ & Ht & _).
  destruct (Hat 1%nat _ _ eq_refl eq_refl)
    as (d2 & H2 & (Hh2 & _) & _ & _ & _ & Hf & _).
  destruct Hd as (Hid & Htitle & _).
  exists p, d1, d2.
  split; [exact Hrun|]. split; [exact Hs|]. split; [exact Hid|].
  split; [exact Htitle|]. split.
  - destruct (d_commits (pull_request p)) as [|e1 [|e2 [|e3 l]]];
      try discriminate Hlen.
    simpl in H1, H2. congruence.
  - split; [exact Hh1|]. split; [exact Ha1|].
    split; [apply Ht; split; reflexivity|]. split; [exact Hh2|].
    exact (Hf _ eq_refl eq_refl).
Defined.

(** C5 on pull request 8, whose commits cannot be listed. *)
Lemma commits_failure_degrades_witness :
  exists p,
    run Sample.remote (get_pr_details (mkDetailsArgs None (Some 8) None)) tt =
    (mkToolResult (Stringified p) false, tt,
     [GetPullRequest 8; GetPullRequestCommits 8])
    /\ d_commits (pull_request p)
       = [CommitsError "Error fetching commits: 500 Internal Server Error"]
    /\ d_id (pull_request p) = 8
    /\ d_title (pull_request p) = VStr "Rework login form"
    /\ d_reviewers (pull_request p) = []
    /\ search_method p = "pr_id: 8".
Proof.
  destruct (commits_failure_degrades Sample.remote
              (mkDetailsArgs None (Some 8) None) Sample.pr8 tt tt tt
              [GetPullRequest 8] _ eq_refl eq_refl eq_refl eq_refl)
    as (p & Hrun & Hc & Hd & Hs).
  destruct Hd as (Hid & Htitle & _ & _ & _ & _ & _ & _ & _ & Hrev).
  exists p. split; [exact Hrun|]. split; [exact Hc|]. split; [exact Hid|].
  split; [exact Htitle|]. split; [exact Hrev|exact Hs].
Defined.

(** C6 on the branch "feature/login", which two pull requests come from:
    the first of the page, 7, is the one described. *)
Lemma branch_resolution_witness :
  run Sample.remote
    (get_pr_details (mkDetailsArgs (Some "feature/login") None None)) tt =
  (let '(res, s2, tr) :=
     run Sample.remote
       (details_of (mkDetailsArgs (Some "feature/login") None None) Sample.pr7)
       tt in
   (match res with
    | Ok a => a
    | Throw m => error_result ("Error fetching PR with diff: " ++ m)
    end, s2, SearchPullRequests "feature/login" :: tr)).
Proof.
  exact (proj1 (branch_resolution Sample.remote
                  (mkDetailsArgs (Some "feature/login") None None)
                  "feature/login" tt tt _
                  (Sample.page_of [Sample.pr7; Sample.pr8])
                  eq_refl eq_refl ltac:(discriminate) eq_refl eq_refl
                  eq_refl)).
Defined.

(** C7 at [limit = 0]. *)
Lemma list_limit_validation_witness :
  call_tool list_schema list_pull_requests (mkListArgs None (Some 0) None None)
  = Ret InvalidParams.
Proof.
  apply (proj1 (list_limit_validation Sample.remote
                  (mkListArgs None (Some 0) None None)) 0 eq_refl).
  left. lia.
Defined.

(** C8 on the three sample pipelines: the lookup for the second fails,
    the first keeps its id 42 and the third gets 7 from its own lookup. *)
Lemma lookup_failure_is_swallowed_witness :
  exists v1 v3,
    p_pr_id v1 = Some (Js.Finite 42)
    /\ p_pr_id v3 = Some (Js.Finite 7)
    /\ run Sample.remote (list_pipelines (mkListArgs None None None None)) tt =
       (mkToolResult
          (Stringified
             {| total_count := VNum 3;
                page := 1;
                page_length := 10;
                l_next := None;
                l_previous := None;
                items :=
                  [v1;
                   {| p_pr_id := None;
                      p_state := rp_state Sample.pipeline2;
                      p_created_on := rp_created_on Sample.pipeline2;
                      p_completed_on := rp_completed_on Sample.pipeline2;
                      p_run_number := rp_run_number Sample.pipeline2;
                      p_duration_in_seconds :=
                        rp_duration_in_seconds Sample.pipeline2;
                      p_target := rp_target Sample.pipeline2 |};
                   v3] |})
          false, tt,
        [ListPipelines 10 1 None None; GetCommit "deadbeef";
         GetCommit "c0ffee"]).
Proof.
  do 2 eexists. split; [|split]; cycle 2.
  - exact (proj2 (lookup_failure_is_swallowed Sample.remote
             (mkListArgs None None None None) _
             (Sample.page_of
                [Sample.pipeline1; Sample.pipeline2; Sample.pipeline3])
             [Sample.pipeline1] [Sample.pipeline3] Sample.pipeline2
             "deadbeef" (NetworkError "fetch failed") tt tt tt tt tt
             [_] [_] [] [GetCommit "c0ffee"]
             eq_refl eq_refl eq_refl eq_refl eq_refl eq_refl
             ltac:(discriminate) eq_refl eq_refl I eq_refl)).
  - reflexivity.
  - reflexivity.
Defined.

(** C9 at a call with [pr_id = 7] and a source branch. *)
Lemma by_id_takes_precedence_witness :
  exists p rest,
    content
      (fst (fst (run Sample.remote
                   (get_pr_details
                      (mkDetailsArgs (Some "feature/login") (Some 7) None))
                   tt)))
    = Stringified p
    /\ search_method p = "pr_id: 7"
    /\ snd (run Sample.remote
              (get_pr_details
                 (mkDetailsArgs (Some "feature/login") (Some 7) None)) tt)
       = GetPullRequest 7 :: rest
    /\ Forall (fun r => is_resolution r = false) rest.
Proof.
  pose proof (by_id_takes_precedence Sample.remote
                (mkDetailsArgs (Some "feature/login") (Some 7) None) 7 tt
                eq_refl ltac:(discriminate)) as H.
  destruct (run Sample.remote
              (get_pr_details
                 (mkDetailsArgs (Some "feature/login") (Some 7) None)) tt)
    as [[res s1] tr] eqn:E.
  destruct H as ((rest & Htr & Hrest) & _ & _ & _ & Hsm & _).
  vm_compute in E. injection E as <- _ _.
  eexists. exists rest. split; [reflexivity|].
  split; [apply Hsm; [reflexivity|reflexivity]|]. split; assumption.
Defined.

(** C10 at [pr_id = 0] with the branch "feature/login". *)
Lemma zero_id_is_absent_witness :
  first_request
    (get_pr_details (mkDetailsArgs (Some "feature/login") (Some 0) None))
  = Some (SearchPullRequests "feature/login").
Proof.
  apply (proj1 (proj2 (proj2 (zero_id_is_absent None)))). discriminate.
Defined.

(** * Further properties *)

(** ** The requests of the reading tools *)

Section Requests.

Context {W : Type}.
Variable respond : forall r : Request, W -> FetchResult (payload r) * W.

Lemma commit_loop_requests (b : bool) (cs : list RawCommit) (s : W) :
  snd (run respond (commit_loop b cs) s)
  = if b then map GetCommitDiff (map rc_hash cs) else [].
Proof.
  destruct b.
  - rewrite run_commit_loop_diff.
    now destruct (diff_answers respond (map rc_hash cs) s).
  - now rewrite run_commit_loop_plain.
Qed.

Lemma details_of_requests (args : DetailsArgs) (pr : RawPR) (s : W) :
  exists hs,
    snd (run respond (details_of args pr) s)
    = GetPullRequestCommits (pr_id pr) :: map GetCommitDiff hs
    /\ (include_diff args <> Some true -> hs = []).
Proof.
  unfold details_of, bindE. simpl.
  destruct (respond (GetPullRequestCommits (pr_id pr)) s) as [a s1].
  destruct a as [m|r]; simpl; [now exists []|].
  case_ok; simpl; [|now exists []].
  case_json; simpl; [|now exists []]. rewrite run_bind.
  match goal with
  | |- context [run respond (commit_loop ?b ?cs) ?s] =>
      pose proof (commit_loop_requests b cs s) as Htr;
      destruct (commit_loop_ok respond b cs s) as [es Hes];
      destruct (run respond (commit_loop b cs) s) as [[res s2] tr]
  end.
  simpl in Hes, Htr. subst res tr. simpl. rewrite app_nil_r.
  destruct (include_diff args) as [[|]|].
  - eexists. split; [reflexivity|]. congruence.
  - now exists [].
  - now exists [].
Qed.

Lemma with_diff_of_requests (args : DetailsArgs) (pr : RawPR) (s : W) :
  snd (run respond (with_diff_of args pr) s)
  = match include_diff args with
    | Some false => []
    | _ => [GetPullRequestDiff (pr_id pr)]
    end.
Proof.
  unfold with_diff_of, bindE.
  destruct (include_diff args) as [[|]|]; simpl; try reflexivity;
    destruct (respond (GetPullRequestDiff (pr_id pr)) s) as [a s1];
    (destruct a as [m|r]; simpl; [reflexivity|]);
    (case_ok; simpl; [|reflexivity]); case_text; reflexivity.
Qed.

(** The requests of a run of [get_pr_details]: at most two that are
    neither diffs nor writes, then the diffs. *)
Lemma get_pr_details_requests (args : DetailsArgs) (s : W) :
  exists pre hs,
    snd (run respond (get_pr_details args) s)
    = (pre ++ map GetCommitDiff hs)%list
    /\ Forall (fun r => is_write r = false /\ is_diff_request r = false) pre
    /\ (List.length pre <= 2)%nat
    /\ (include_diff args <> Some true -> hs = []).
Proof.
  unfold get_pr_details.
  destruct (negb (Js.truthy_str (source_branch args))
            && negb (Js.truthy_num (pr_id_arg args)));
    [exists [], []; simpl;
     split; [reflexivity|split; [constructor|split; [lia|auto]]]|].
  rewrite run_after_resolution.
  assert (Hres : exists q,
    snd (run respond
           (resolve_pull_request (P := DetailsPayload) (source_branch args)
              (pr_id_arg args)) s) = [q]
    /\ is_write q = false /\ is_diff_request q = false).
  { destruct (Js.truthy_num (pr_id_arg args)) eqn:Hid.
    - rewrite (run_resolve_by_id _ _ _ _ Hid).
      destruct (respond _ s). eexists. split; [reflexivity|]. now split.
    - rewrite (run_resolve_by_branch _ _ _ _ Hid).
      destruct (respond _ s). eexists. split; [reflexivity|]. now split. }
  destruct Hres as (q & Hq & Hw & Hd).
  destruct (run respond (resolve_pull_request (source_branch args)
                           (pr_id_arg args)) s) as [[res s1] tr1].
  simpl in Hq. subst tr1.
  destruct res as [[pr|early]|m];
    [|exists [q], []; simpl; repeat split; auto
     |exists [q], []; simpl; repeat split; auto].
  destruct (details_of_requests args pr s1) as (hs & Htr & Hhs).
  destruct (run respond (details_of args pr) s1) as [[r s2] tr2].
  simpl in Htr. subst tr2.
  exists [q; GetPullRequestCommits (pr_id pr)], hs. simpl.
  repeat split; auto.
Qed.

Lemma get_pr_with_diff_requests (args : DetailsArgs) (s : W) :
  Forall (fun r => is_write r = false)
    (snd (run respond (get_pr_with_diff args) s)).
Proof.
  unfold get_pr_with_diff.
  destruct (negb (Js.truthy_str (source_branch args))
            && negb (Js.truthy_num (pr_id_arg args))); [constructor|].
  rewrite run_after_resolution.
  assert (Hres : Forall (fun r => is_write r = false)
    (snd (run respond
            (resolve_pull_request (P := WithDiffPayload) (source_branch args)
               (pr_id_arg args)) s))).
  { destruct (Js.truthy_num (pr_id_arg args)) eqn:Hid.
    - rewrite (run_resolve_by_id _ _ _ _ Hid).
      destruct (respond _ s). repeat constructor.
    - rewrite (run_resolve_by_branch _ _ _ _ Hid).
      destruct (respond _ s). repeat constructor. }
  destruct (run respond (resolve_pull_request (source_branch args)
                           (pr_id_arg args)) s) as [[res s1] tr1].
  simpl in Hres.
  destruct res as [[pr|early]|m]; try exact Hres.
  pose proof (with_diff_of_requests args pr s1) as Htr.
  destruct (run respond (with_diff_of args pr) s1) as [[r s2] tr2].
  simpl in *. subst tr2. apply Forall_app. split; [exact Hres|].
  destruct (include_diff args) as [[|]|]; repeat constructor.
Qed.

End Requests.

(** ** The callbacks of [list_pipelines], one by one *)

Section PipelineViews.

Context {W : Type}.
Variable respond : forall r : Request, W -> FetchResult (payload r) * W.

Lemma hash_of_set_message (t : option Target) (m : option string) :
  hash_of (set_message t m) = hash_of t.
Proof.
  destruct t as [[[c|] o]|]; reflexivity.
Qed.

Lemma same_but_message_refl (t : option Target) : same_but_message t t.
Proof.
  destruct t as [[[c|] o]|]; simpl; auto.
Qed.

Lemma same_but_message_set (t : option Target) (m : option string) :
  same_but_message t (set_message t m).
Proof.
  destruct t as [[[c|] o]|]; simpl; auto.
Qed.

Lemma view_of_unchanged (p : RawPipeline) :
  Js.truthy_str (message_of (rp_target p)) = false ->
  view_of p
    {| p_pr_id := derive_pr_id (message_of (rp_target p));
       p_state := rp_state p;
       p_created_on := rp_created_on p;
       p_completed_on := rp_completed_on p;
       p_run_number := rp_run_number p;
       p_duration_in_seconds := rp_duration_in_seconds p;
       p_target := rp_target p |}.
Proof.
  intros Hm. unfold view_of. cbn [p_pr_id p_state p_created_on p_completed_on
    p_run_number p_duration_in_seconds p_target].
  split; [reflexivity|]. split; [reflexivity|]. split; [reflexivity|].
  split; [reflexivity|]. split; [reflexivity|]. split; [reflexivity|].
  split; [apply same_but_message_refl|]. split; reflexivity.
Qed.

Lemma pipeline_view_run (p : RawPipeline) (s : W) :
  snd (run respond (pipeline_view p) s)
  = (if needs_lookup p
     then [GetCommit (Js.template (hash_of (rp_target p)))]
     else [])
  /\ view_of p (fst (fst (run respond (pipeline_view p) s))).
Proof.
  unfold pipeline_view, resolve_message.
  destruct (needs_lookup p) eqn:Hn; unfold needs_lookup in Hn; rewrite Hn.
  - apply andb_true_iff in Hn as [Hm Hh]. apply negb_true_iff in Hm.
    pose proof (view_of_unchanged p Hm) as Hsame.
    unfold try_return, bindE. simpl.
    destruct (respond (GetCommit (Js.template (hash_of (rp_target p)))) s)
      as [a s1].
    destruct a as [m|r]; simpl; [split; [reflexivity|exact Hsame]|].
    case_ok; simpl; [|split; [reflexivity|exact Hsame]].
    case_json; simpl; [|split; [reflexivity|exact Hsame]].
    split; [reflexivity|]. unfold view_of. cbn [p_pr_id p_state p_created_on
      p_completed_on p_run_number p_duration_in_seconds p_target].
    split; [reflexivity|]. split; [reflexivity|]. split; [reflexivity|].
    split; [reflexivity|]. split; [reflexivity|].
    split; [apply hash_of_set_message|].
    split; [apply same_but_message_set|].
    split; [intros Hf; unfold needs_lookup in Hf;
            rewrite Hm, Hh in Hf; discriminate Hf|].
    now rewrite message_of_set_message.
  - simpl. unfold view_of. cbn [p_pr_id p_state p_created_on
      p_completed_on p_run_number p_duration_in_seconds p_target].
    split; [reflexivity|].
    split; [reflexivity|]. split; [reflexivity|]. split; [reflexivity|].
    split; [reflexivity|]. split; [reflexivity|]. split; [reflexivity|].
    split; [apply same_but_message_refl|]. split; reflexivity.
Qed.

Lemma pipeline_views_run (ps : list RawPipeline) : forall s,
  snd (run respond (pipeline_views ps) s) = lookup_requests ps
  /\ Forall2 view_of ps (fst (fst (run respond (pipeline_views ps) s))).
Proof.
  induction ps as [|p ps IH]; intros s; [split; [reflexivity|constructor]|].
  cbn [pipeline_views]. rewrite run_bind.
  destruct (pipeline_view_run p s) as [Htr Hv].
  destruct (run respond (pipeline_view p) s) as [[v s1] t1].
  rewrite run_bind. destruct (IH s1) as [Htrs Hvs].
  destruct (run respond (pipeline_views ps) s1) as [[vs s2] t2].
  simpl in *. subst t1 t2. rewrite app_nil_r. split.
  - unfold lookup_requests. simpl. now destruct (needs_lookup p).
  - now constructor.
Qed.

(** A run of [list_pipelines], by the answer to the listing. *)
Lemma run_list_pipelines (args : ListArgs PipelineState) (s : W) :
  let listing :=
    ListPipelines (Js.num_or (limit args) 10) (Js.num_or (page_arg args) 1)
      (state_arg args) (Js.str_or_null (target_branch args)) in
  let '(a, s1) := respond listing s in
  match upstream_failure a with
  | Some m =>
      run respond (list_pipelines args) s
      = (error_result ("Error fetching pipelines: " ++ m), s1, [listing])
  | None =>
      exists data,
        answered a data
        /\ run respond (list_pipelines args) s =
           (let '(vs, s2, tr) := run respond (pipeline_views (values data)) s1 in
            (mkToolResult
               (Stringified
                  {| total_count := size data;
                     page := Js.num_or (page_arg args) 1;
                     page_length := Js.num_or (limit args) 10;
                     l_next := Js.str_or_null (next data);
                     l_previous := Js.str_or_null (previous data);
                     items := vs |})
               false, s2, listing :: tr))
  end.
Proof.
  intros listing. unfold list_pipelines. fold listing.
  unfold try_return, bindE. simpl.
  destruct (respond listing s) as [a s1].
  destruct a as [m|r]; simpl; [reflexivity|].
  unfold upstream_failure. case_ok; simpl; [|reflexivity].
  case_json; simpl; [|reflexivity].
  eexists. split; [split; reflexivity|].
  rewrite !run_bind.
  destruct (run respond (pipeline_views _) s1) as [[vs s2] tr].
  simpl. now rewrite !app_nil_r.
Qed.

End PipelineViews.

(** ** The tools with one primary request *)

Section Primary.

Context {W : Type}.
Variable respond : forall r : Request, W -> FetchResult (payload r) * W.

(** X10.  When the only or first request of [list_pull_requests],
    [list_pipelines] or [get_pr_comments] fails (rejection, status outside
    2xx, unreadable body), the tool returns the error-flagged text made of
    its own prefix and the message of the failure, after that one request:
    no commit is looked up for a page of pipelines that did not come. *)
Theorem listing_failure_reported (m : string) (s s1 : W) :
  (forall (args : ListArgs PRState) a,
     let req :=
       ListPullRequests
         (match state_arg args with Some st => st | None => OPEN end)
         (Js.num_or (limit args) 50) (Js.num_or (page_arg args) 1)
         (Js.str_or_null (target_branch args)) in
     respond req s = (a, s1) ->
     upstream_failure a = Some m ->
     run respond (list_pull_requests args) s
     = (error_result ("Error fetching pull requests: " ++ m), s1, [req]))
  /\ (forall (args : ListArgs PipelineState) a,
        let req :=
          ListPipelines (Js.num_or (limit args) 10)
            (Js.num_or (page_arg args) 1) (state_arg args)
            (Js.str_or_null (target_branch args)) in
        respond req s = (a, s1) ->
        upstream_failure a = Some m ->
        run respond (list_pipelines args) s
        = (error_result ("Error fetching pipelines: " ++ m), s1, [req]))
  /\ (forall (pr_id : Z) (lim : option Z) a,
        let req := ListComments pr_id (Js.num_or lim 50) None in
        respond req s = (a, s1) ->
        upstream_failure a = Some m ->
        run respond (get_pr_comments pr_id lim) s
        = (error_result ("Error fetching PR comments: " ++ m), s1, [req])).
Proof.
  split; [|split].
  - intros args a req Ha Hf. unfold list_pull_requests. fold req.
    unfold try_return, bindE. simpl. rewrite Ha. revert Hf.
    destruct a as [m'|r]; simpl; [now intros [= ->]|].
    unfold upstream_failure. case_ok; simpl; [|now intros [= <-]].
    case_json; simpl; [discriminate|now intros [= ->]].
  - intros args a req Ha Hf.
    pose proof (run_list_pipelines respond args s) as H. cbv zeta in H.
    fold req in H. rewrite Ha in H. cbv beta iota in H.
    match type of H with
    | context [@upstream_failure ?T a] =>
        replace (@upstream_failure T a) with (Some m) in H
          by (symmetry; exact Hf)
    end.
    exact H.
  - intros pr_id lim a req Ha Hf. unfold get_pr_comments. fold req.
    unfold try_return, bindE. simpl. rewrite Ha. revert Hf.
    destruct a as [m'|r]; simpl; [now intros [= ->]|].
    unfold upstream_failure. case_ok; simpl; [|now intros [= <-]].
    case_json; simpl; [discriminate|now intros [= ->]].
Qed.

(** X11.  When the request of [list_pull_requests] is answered with a
    page, the result carries no error flag and lists the pull requests of
    the page, as many and in the same order, each with the identifier and
    the fields of its record; [page] and [page_length] are the values
    requested, [total_count] is the size the remote service reported, and
    the continuation links are those of the page, [null] when absent or
    empty.  Nothing else is requested. *)
Theorem pull_requests_page_listed (args : ListArgs PRState)
    (a : FetchResult (Page RawPR)) (data : Page RawPR) (s s1 : W) :
  let req :=
    ListPullRequests
      (match state_arg args with Some st => st | None => OPEN end)
      (Js.num_or (limit args) 50) (Js.num_or (page_arg args) 1)
      (Js.str_or_null (target_branch args)) in
  respond req s = (a, s1) ->
  answered a data ->
  exists p,
    run respond (list_pull_requests args) s
    = (mkToolResult (Stringified p) false, s1, [req])
    /\ List.length (items p) = List.length (values data)
    /\ map s_id (items p) = map pr_id (values data)
    /\ items p = map pr_summary (values data)
    /\ total_count p = size data
    /\ page p = Js.num_or (page_arg args) 1
    /\ page_length p = Js.num_or (limit args) 50
    /\ l_next p = (if Js.truthy_str (next data) then next data else None)
    /\ l_previous p
       = (if Js.truthy_str (previous data) then previous data else None).
Proof.
  intros req Ha Hans. unfold list_pull_requests. fold req.
  unfold try_return, bindE. simpl. rewrite Ha.
  destruct a as [m|r]; simpl in Hans; [contradiction|].
  destruct Hans as [Hok Hjson]. simpl. use_ok Hok. simpl. use_json Hjson.
  simpl. eexists. split; [reflexivity|]. simpl.
  rewrite length_map, map_map. repeat split.
Qed.

(** X12.  When the request of [get_pr_comments] is answered with a page,
    the result carries no error flag, names the pull request asked for and
    lists the comments of the page, as many and in the same order, each
    with the text of its record and with the anchor of its record or
    [null]. *)
Theorem comments_page_listed (pr_id : Z) (lim : option Z)
    (a : FetchResult (Page RawComment)) (data : Page RawComment) (s s1 : W) :
  let req := ListComments pr_id (Js.num_or lim 50) None in
  respond req s = (a, s1) ->
  answered a data ->
  exists p,
    run respond (get_pr_comments pr_id lim) s
    = (mkToolResult (Stringified p) false, s1, [req])
    /\ cs_pull_request_id p = pr_id
    /\ cs_total_count p = size data
    /\ map k_content (cs_comments p) = map cm_content_raw (values data)
    /\ map k_inline (cs_comments p) = map cm_inline (values data)
    /\ map k_id (cs_comments p) = map cm_id (values data).
Proof.
  intros req Ha Hans. unfold get_pr_comments. fold req.
  unfold try_return, bindE. simpl. rewrite Ha.
  destruct a as [m|r]; simpl in Hans; [contradiction|].
  destruct Hans as [Hok Hjson]. simpl. use_ok Hok. simpl. use_json Hjson.
  simpl. eexists. split; [reflexivity|]. simpl.
  rewrite !map_map. repeat split.
  apply map_ext. intros c. apply comment_view_inline.
Qed.

End Primary.

(** ** What the tools request and what they never request *)

Section Safety.

Context {W : Type}.
Variable respond : forall r : Request, W -> FetchResult (payload r) * W.

Lemma list_pipelines_requests (args : ListArgs PipelineState) (s : W) :
  exists listing ps,
    snd (run respond (list_pipelines args) s)
    = listing :: lookup_requests ps
    /\ listing
       = ListPipelines (Js.num_or (limit args) 10)
           (Js.num_or (page_arg args) 1) (state_arg args)
           (Js.str_or_null (target_branch args)).
Proof.
  pose proof (run_list_pipelines respond args s) as H. cbv zeta in H.
  destruct (respond _ s) as [a s1].
  destruct (upstream_failure a) as [m|].
  - rewrite H. eexists. exists []. split; reflexivity.
  - destruct H as (data & _ & ->).
    destruct (pipeline_views_run respond (values data) s1) as [Htr _].
    destruct (run respond (pipeline_views (values data)) s1) as [[vs s2] tr].
    simpl in *. subst tr. eexists. exists (values data). split; reflexivity.
Qed.

Lemma lookup_requests_read (ps : list RawPipeline) :
  Forall (fun r => is_write r = false) (lookup_requests ps).
Proof.
  unfold lookup_requests. apply Forall_forall. intros r Hr.
  apply in_map_iff in Hr as (p & <- & _). reflexivity.
Qed.

(** X1.  The reading tools never write: no run of [list_pull_requests],
    [get_pr_details], [get_pr_with_diff], [get_pr_comments] or
    [list_pipelines], whatever the arguments and whatever the remote
    service answers, contains a request that creates a comment. *)
Theorem reading_tools_never_write (s : W) :
  (forall args,
     Forall (fun r => is_write r = false)
       (snd (run respond (list_pull_requests args) s)))
  /\ (forall args,
        Forall (fun r => is_write r = false)
          (snd (run respond (get_pr_details args) s)))
  /\ (forall args,
        Forall (fun r => is_write r = false)
          (snd (run respond (get_pr_with_diff args) s)))
  /\ (forall pr_id lim,
        Forall (fun r => is_write r = false)
          (snd (run respond (get_pr_comments pr_id lim) s)))
  /\ (forall args,
        Forall (fun r => is_write r = false)
          (snd (run respond (list_pipelines args) s))).
Proof.
  split; [|split; [|split; [|split]]].
  - intros args.
    destruct (run_list_pull_requests respond args s) as (res & s1 & -> & _).
    repeat constructor.
  - intros args.
    destruct (get_pr_details_requests respond args s)
      as (pre & hs & -> & Hpre & _ & _).
    apply Forall_app. split.
    + eapply Forall_impl; [|exact Hpre]. now intros r [H _].
    + apply Forall_forall. intros r Hr.
      apply in_map_iff in Hr as (h & <- & _). reflexivity.
  - intros args. apply get_pr_with_diff_requests.
  - intros pr_id lim. unfold get_pr_comments, try_return, bindE. simpl.
    destruct (respond _ s) as [a s1].
    destruct a as [m|r]; simpl; [repeat constructor|].
    case_ok; simpl; [|repeat constructor].
    case_json; simpl; repeat constructor.
  - intros args.
    destruct (list_pipelines_requests args s) as (listing & ps & -> & ->).
    constructor; [reflexivity|apply lookup_requests_read].
Qed.

(** X2.  Unless [include_diff] is true, [get_pr_details] requests no diff
    at all and issues at most two requests, whatever the remote service
    answers. *)
Theorem diffs_only_on_request (args : DetailsArgs) (s : W) :
  include_diff args <> Some true ->
  Forall (fun r => is_diff_request r = false)
    (snd (run respond (get_pr_details args) s))
  /\ (List.length (snd (run respond (get_pr_details args) s)) <= 2)%nat.
Proof.
  intros Hno.
  destruct (get_pr_details_requests respond args s)
    as (pre & hs & -> & Hpre & Hlen & Hhs).
  rewrite (Hhs Hno). simpl. rewrite app_nil_r. split; [|exact Hlen].
  eapply Forall_impl; [|exact Hpre]. now intros r [_ H].
Qed.

End Safety.

(** ** Failures and defaults of the two detail tools *)

Section Abort.

Context {W : Type}.
Variable respond : forall r : Request, W -> FetchResult (payload r) * W.

Lemma run_resolve_failure {P} (sb : option string) (ido : option Z)
    (s s1 : W) (m : string) :
  let req :=
    if Js.truthy_num ido then GetPullRequest (Js.num_or ido 0)
    else SearchPullRequests (Js.template sb) in
  forall a : FetchResult (payload req),
    respond req s = (a, s1) ->
    upstream_failure a = Some m ->
    run respond (resolve_pull_request (P := P) sb ido) s
    = (Throw m, s1, [req]).
Proof.
  destruct (Js.truthy_num ido) eqn:Hid; intros req a Ha Hf; subst req.
  - rewrite (run_resolve_by_id respond sb ido s Hid), Ha. revert Hf.
    destruct a as [m'|r]; simpl; [now intros [= ->]|].
    unfold upstream_failure. case_ok; [|now intros [= <-]].
    case_json; [discriminate|now intros [= ->]].
  - rewrite (run_resolve_by_branch respond sb ido s Hid), Ha. revert Hf.
    destruct a as [m'|r]; simpl; [now intros [= ->]|].
    unfold upstream_failure. case_ok; [|now intros [= <-]].
    case_json; [discriminate|now intros [= ->]].
Qed.

(** X3.  When the request that resolves the pull request fails (rejection,
    status outside 2xx, unreadable body), be it the request by id or the
    search by branch, [get_pr_details] and [get_pr_with_diff] return the
    error-flagged text "Error fetching PR with diff: <message>" and
    request nothing further: neither commits nor diffs. *)
Theorem resolution_failure_aborts (args : DetailsArgs) (s s1 : W)
    (m : string) :
  let req :=
    if Js.truthy_num (pr_id_arg args)
    then GetPullRequest (Js.num_or (pr_id_arg args) 0)
    else SearchPullRequests (Js.template (source_branch args)) in
  forall a : FetchResult (payload req),
    Js.truthy_str (source_branch args) || Js.truthy_num (pr_id_arg args)
    = true ->
    respond req s = (a, s1) ->
    upstream_failure a = Some m ->
    run respond (get_pr_details args) s
    = (error_result ("Error fetching PR with diff: " ++ m), s1, [req])
    /\ run respond (get_pr_with_diff args) s
       = (error_result ("Error fetching PR with diff: " ++ m), s1, [req]).
Proof.
  intros req a Hsel Ha Hf. unfold get_pr_details, get_pr_with_diff.
  rewrite (selector_guard_false args Hsel), !run_after_resolution.
  rewrite !(run_resolve_failure _ _ s s1 m a Ha Hf). split; reflexivity.
Qed.

(** X4.  The list of commits is awaited outside the inner [try]: when the
    request for it is rejected, or its 2xx body cannot be read,
    [get_pr_details] gives up the pull request it had resolved and
    returns the error-flagged text "Error fetching PR with diff:
    <message>"; only a status outside 2xx degrades to a placeholder. *)
Theorem commits_rejection_aborts (args : DetailsArgs) (pr : RawPR)
    (s0 s1 s2 : W) (tr1 : list Request)
    (a : FetchResult (Page RawCommit)) (m : string) :
  Js.truthy_str (source_branch args) || Js.truthy_num (pr_id_arg args) = true ->
  run respond
    (resolve_pull_request (P := DetailsPayload) (source_branch args)
       (pr_id_arg args)) s0
  = (Ok (inl pr), s1, tr1) ->
  respond (GetPullRequestCommits (pr_id pr)) s1 = (a, s2) ->
  match a with
  | NetworkError m' => m' = m
  | Responded r => ok r = true /\ json r = Throw m
  end ->
  run respond (get_pr_details args) s0
  = (error_result ("Error fetching PR with diff: " ++ m), s2,
     (tr1 ++ [GetPullRequestCommits (pr_id pr)])%list).
Proof.
  intros Hsel Hres Ha Hf.
  rewrite (run_get_pr_details_resolved respond args pr s0 s1 tr1 Hsel Hres).
  unfold details_of, bindE. simpl. rewrite Ha.
  destruct a as [m'|r]; simpl; [now subst m'|].
  destruct Hf as [Hok Hjson]. use_ok Hok. simpl. use_json Hjson. reflexivity.
Qed.

(** X5.  [get_pr_with_diff] includes the consolidated diff unless
    [include_diff] is false.  Asked not to, it requests nothing after the
    resolution and returns [diff: null].  Otherwise it requests the diff
    of the resolved pull request once: the text answered is the diff; a
    status outside 2xx is embedded as "Error fetching diff: <status>
    <statusText>" in a result without error flag; a rejected request
    makes the whole call fail with the error-flagged text. *)
Theorem consolidated_diff (args : DetailsArgs) (pr : RawPR) (s0 s1 : W)
    (tr1 : list Request) :
  Js.truthy_str (source_branch args) || Js.truthy_num (pr_id_arg args) = true ->
  run respond
    (resolve_pull_request (P := WithDiffPayload) (source_branch args)
       (pr_id_arg args)) s0
  = (Ok (inl pr), s1, tr1) ->
  (include_diff args = Some false ->
   exists p,
     run respond (get_pr_with_diff args) s0
     = (mkToolResult (Stringified p) false, s1, tr1)
     /\ w_diff (w_pull_request p) = None
     /\ w_id (w_pull_request p) = pr_id pr)
  /\ (include_diff args <> Some false ->
      forall a s2,
        respond (GetPullRequestDiff (pr_id pr)) s1 = (a, s2) ->
        (forall t, fetched_text a t ->
           exists p,
             run respond (get_pr_with_diff args) s0
             = (mkToolResult (Stringified p) false, s2,
                (tr1 ++ [GetPullRequestDiff (pr_id pr)])%list)
             /\ w_diff (w_pull_request p) = Some t
             /\ w_id (w_pull_request p) = pr_id pr)
        /\ (forall r, a = Responded r -> ok r = false ->
              exists p,
                run respond (get_pr_with_diff args) s0
                = (mkToolResult (Stringified p) false, s2,
                   (tr1 ++ [GetPullRequestDiff (pr_id pr)])%list)
                /\ w_diff (w_pull_request p)
                   = Some ("Error fetching diff: "
                           ++ Js.string_of_N (status r) ++ " "
                           ++ statusText r))
        /\ (forall m, a = NetworkError m ->
              run respond (get_pr_with_diff args) s0
              = (error_result ("Error fetching PR with diff: " ++ m), s2,
                 (tr1 ++ [GetPullRequestDiff (pr_id pr)])%list))).
Proof.
  intros Hsel Hres. unfold get_pr_with_diff.
  rewrite (selector_guard_false args Hsel), run_after_resolution, Hres.
  unfold with_diff_of, bindE. split.
  - intros ->. simpl. eexists. split; [now rewrite app_nil_r|].
    split; reflexivity.
  - intros Hno.
    replace (match include_diff args with Some false => false | _ => true end)
      with true by (destruct (include_diff args) as [[|]|]; congruence).
    intros a s2 Ha. simpl. rewrite Ha. split; [|split].
    + intros t Ht. destruct a as [m|r]; simpl in Ht; [contradiction|].
      destruct Ht as [Hok Htext]. simpl. use_ok Hok. simpl.
      match goal with
      | |- context [@text ?T r] =>
          replace (@text T r) with (Ok (A := string) t)
            by (symmetry; exact Htext)
      end.
      simpl. eexists. split; [reflexivity|]. split; reflexivity.
    + intros r -> Hok. simpl. use_ok Hok. simpl.
      eexists. split; reflexivity.
    + intros m ->. reflexivity.
Qed.

(** X17.  A result of [get_pr_details] obtained without a usable [pr_id]
    reports "source_branch: <branch>" as its search method, and a result
    that carries a payload is never error-flagged. *)
Theorem branch_search_method (args : DetailsArgs) (b : string) (s : W) :
  Js.truthy_num (pr_id_arg args) = false ->
  source_branch args = Some b ->
  b <> "" ->
  forall p,
    content (fst (fst (run respond (get_pr_details args) s))) = Stringified p ->
    search_method p = "source_branch: " ++ b
    /\ isError (fst (fst (run respond (get_pr_details args) s))) = false.
Proof.
  intros Hid Hsb Hb p Hp.
  assert (Hsel : Js.truthy_str (source_branch args)
                 || Js.truthy_num (pr_id_arg args) = true)
    by (rewrite Hsb, (truthy_str_some b Hb); reflexivity).
  destruct (get_pr_details_result respond args s Hsel) as [_ Hsm].
  split.
  - rewrite (Hsm p Hp). unfold search_method_of. now rewrite Hid, Hsb.
  - revert Hp. unfold get_pr_details.
    rewrite (selector_guard_false args Hsel), run_after_resolution.
    destruct (run respond (resolve_pull_request (source_branch args)
                             (pr_id_arg args)) s) as [[res s1] tr1] eqn:Hres.
    destruct res as [[pr|early]|m].
    + pose proof (details_of_result respond args pr s1) as Hr.
      destruct (run respond (details_of args pr) s1) as [[r s2] tr2].
      simpl in Hr. destruct r as [res|m]; simpl;
        [|intros Hp; discriminate Hp].
      destruct Hr as [commits ->]. intros _. reflexivity.
    + rewrite (run_resolve_by_branch respond _ _ s Hid) in Hres.
      destruct (respond _ s) as [a s1'].
      destruct a as [m|r]; [discriminate|].
      destruct (ok r); [|discriminate].
      destruct (json r) as [d|]; [|discriminate].
      destruct (values d); inversion Hres; subst. intros _. reflexivity.
    + simpl. intros Hp. discriminate Hp.
Qed.

End Abort.

(** ** [add_pr_comment] and the pages of pipelines *)

Ltac use_failure Hf H :=
  match type of Hf with
  | @upstream_failure _ ?x = ?v =>
      match type of H with
      | context [@upstream_failure ?T x] =>
          replace (@upstream_failure T x) with v in H
            by (symmetry; exact Hf)
      end
  end.

Section Added.

Context {W : Type}.
Variable respond : forall r : Request, W -> FetchResult (payload r) * W.

(** X6.  [add_pr_comment] issues exactly one request, whatever the answer:
    the creation, on the pull request given, of a comment whose raw text
    is the content given, without anchor.  A 2xx answer is reported
    without error flag, with the id, text and author the remote service
    returned (not the text that was sent) and the [pr_id] given.  A status
    outside 2xx gives the error-flagged text "Error adding PR comment:
    Bitbucket API error: <status> <statusText> - <body>", with the body of
    the answer verbatim. *)
Theorem comment_creation (pr_id : Z) (body : string) (s : W) :
  let req := PostComment pr_id {| cp_raw := body; cp_inline := None |} in
  snd (run respond (add_pr_comment pr_id body) s) = [req]
  /\ (forall a s1 created,
        respond req s = (a, s1) ->
        answered a created ->
        exists p,
          run respond (add_pr_comment pr_id body) s
          = (mkToolResult (Stringified p) false, s1, [req])
          /\ a_pull_request_id p = pr_id
          /\ a_id (a_comment p) = cm_id created
          /\ a_content (a_comment p) = cm_content_raw created
          /\ a_author (a_comment p) = cm_user_display_name created)
  /\ (forall r s1 t,
        respond req s = (Responded r, s1) ->
        ok r = false ->
        text r = Ok t ->
        run respond (add_pr_comment pr_id body) s
        = (error_result
             ("Error adding PR comment: Bitbucket API error: "
              ++ Js.string_of_N (status r) ++ " " ++ statusText r
              ++ " - " ++ t),
           s1, [req])).
Proof.
  intros req. unfold add_pr_comment. fold req.
  unfold try_return, bindE. split; [|split].
  - simpl. destruct (respond req s) as [a s1].
    destruct a as [m|r]; simpl; [reflexivity|].
    case_ok; simpl; [case_json|case_text]; reflexivity.
  - intros a s1 created Ha Hans. simpl. rewrite Ha.
    destruct a as [m|r]; simpl in Hans; [contradiction|].
    destruct Hans as [Hok Hjson]. simpl. use_ok Hok. simpl. use_json Hjson.
    simpl. eexists. split; [reflexivity|]. repeat split.
  - intros r s1 t Ha Hok Htext. simpl. rewrite Ha. simpl. use_ok Hok. simpl.
    match goal with
    | |- context [@text ?T r] =>
        replace (@text T r) with (Ok (A := string) t)
          by (symmetry; exact Htext)
    end.
    simpl. unfold error_result, api_error. simpl.
    now rewrite !JsFacts.string_app_assoc.
Qed.

(** X7.  When the listing of [list_pipelines] is answered with a page, the
    requests that follow are the commit lookups of exactly the pipelines
    of the page that have no usable message and a usable hash, one each
    and in the order of the page; a pipeline that brings its message is
    never looked up.  The result carries no error flag whatever the
    lookups bring, and has one view per pipeline. *)
Theorem pipeline_lookups (args : ListArgs PipelineState)
    (a : FetchResult (Page RawPipeline)) (data : Page RawPipeline)
    (s s1 : W) :
  let listing :=
    ListPipelines (Js.num_or (limit args) 10) (Js.num_or (page_arg args) 1)
      (state_arg args) (Js.str_or_null (target_branch args)) in
  respond listing s = (a, s1) ->
  answered a data ->
  exists p s2,
    run respond (list_pipelines args) s
    = (mkToolResult (Stringified p) false, s2,
       listing :: lookup_requests (values data))
    /\ List.length (items p) = List.length (values data)
    /\ total_count p = size data.
Proof.
  intros listing Ha Hans.
  pose proof (run_list_pipelines respond args s) as H. cbv zeta in H.
  fold listing in H. rewrite Ha in H. cbv beta iota in H.
  assert (Hf : upstream_failure a = None).
  { destruct a as [m|r]; simpl in Hans; [contradiction|].
    destruct Hans as [Hok Hjson]. simpl. now rewrite Hok, Hjson. }
  use_failure Hf H. destruct H as (data' & Hans' & Hrun).
  assert (data' = data) as ->.
  { destruct a as [m|r]; simpl in Hans, Hans'; [contradiction|].
    destruct Hans as [_ H1], Hans' as [_ H2]. congruence. }
  destruct (pipeline_views_run respond (values data) s1) as [Htr Hvs].
  destruct (run respond (pipeline_views (values data)) s1) as [[vs s2] tr].
  simpl in Htr, Hvs. subst tr.
  eexists. exists s2. split; [exact Hrun|]. simpl.
  split; [|reflexivity]. symmetry. eapply Forall2_length. exact Hvs.
Qed.

(** X8.  The views that [list_pipelines] returns are those of the
    pipelines of the page, position by position: each view has the state,
    the timestamps, the run number and the duration of its pipeline and
    the hash of its target commit; a pipeline that needed no lookup keeps
    its whole target; and each view's [pr_id] is derived from the message
    the view carries.  The lookup can change nothing but the message. *)
Theorem pipeline_views_in_order (args : ListArgs PipelineState)
    (a : FetchResult (Page RawPipeline)) (data : Page RawPipeline)
    (s s1 : W) (p : ListPayload Pipeline) :
  respond
    (ListPipelines (Js.num_or (limit args) 10) (Js.num_or (page_arg args) 1)
       (state_arg args) (Js.str_or_null (target_branch args))) s
  = (a, s1) ->
  answered a data ->
  content (fst (fst (run respond (list_pipelines args) s))) = Stringified p ->
  Forall2 view_of (values data) (items p).
Proof.
  intros Ha Hans Hp.
  pose proof (run_list_pipelines respond args s) as H. cbv zeta in H.
  rewrite Ha in H. cbv beta iota in H.
  assert (Hf : upstream_failure a = None).
  { destruct a as [m|r]; simpl in Hans; [contradiction|].
    destruct Hans as [Hok Hjson]. simpl. now rewrite Hok, Hjson. }
  use_failure Hf H. destruct H as (data' & Hans' & Hrun).
  assert (data' = data) as ->.
  { destruct a as [m|r]; simpl in Hans, Hans'; [contradiction|].
    destruct Hans as [_ H1], Hans' as [_ H2]. congruence. }
  destruct (pipeline_views_run respond (values data) s1) as [_ Hvs].
  rewrite Hrun in Hp.
  destruct (run respond (pipeline_views (values data)) s1) as [[vs s2] tr].
  simpl in Hp, Hvs. injection Hp as <-. exact Hvs.
Qed.

(** X9.  A pipeline without usable message whose commit lookup is
    answered gets the message of that commit: the view carries it in its
    target, with the hash and everything else of the target as received,
    and its [pr_id] is derived from it. *)
Theorem lookup_fills_message (pipeline : RawPipeline) (h : string)
    (a : FetchResult CommitDetail) (commitData : CommitDetail) (s s1 : W) :
  Js.truthy_str (message_of (rp_target pipeline)) = false ->
  hash_of (rp_target pipeline) = Some h ->
  h <> "" ->
  respond (GetCommit h) s = (a, s1) ->
  answered a commitData ->
  exists v,
    run respond (pipeline_view pipeline) s = (v, s1, [GetCommit h])
    /\ message_of (p_target v) = cd_message commitData
    /\ p_pr_id v = derive_pr_id (cd_message commitData)
    /\ p_target v = set_message (rp_target pipeline) (cd_message commitData)
    /\ hash_of (p_target v) = Some h.
Proof.
  intros Hm Hh Hne Ha Hans. unfold pipeline_view, resolve_message.
  rewrite Hm, Hh, (truthy_str_some h Hne). cbn [negb andb Js.template].
  unfold try_return, bindE. simpl. rewrite Ha.
  destruct a as [m|r]; simpl in Hans; [contradiction|].
  destruct Hans as [Hok Hjson]. simpl. use_ok Hok. simpl. use_json Hjson.
  simpl. eexists. split; [reflexivity|]. simpl.
  assert (Ht : Js.truthy_str (hash_of (rp_target pipeline)) = true)
    by (rewrite Hh; now apply truthy_str_some).
  rewrite hash_of_set_message, (message_of_set_message _ _ Ht).
  repeat split. exact Hh.
Qed.

End Added.

(** ** The token, the number and the start-up *)

Module TokenFacts.
Import Js.

Lemma take_digits_split (s : string) :
  exists suf,
    s = take_digits s ++ suf
    /\ all_digits (take_digits s) = true
    /\ starts_with_digit suf = false.
Proof.
  induction s as [|c s (suf & Hs & Hd & Hsuf)]; simpl.
  - now exists "".
  - destruct (is_digit c) eqn:Hc.
    + exists suf. simpl. rewrite Hc, Hd. repeat split; [|assumption].
      now rewrite <- Hs.
    + exists (String c s). simpl. now rewrite Hc.
Qed.

Lemma take_digits_idem (s : string) :
  take_digits (take_digits s) = take_digits s.
Proof.
  destruct (take_digits_split s) as (suf & _ & Hd & _).
  now apply JsFacts.take_digits_all.
Qed.

Lemma token_free_cons (c : ascii) (pre rest : string) :
  (c =? "#")%char && starts_with_digit (pre ++ "#" ++ rest) = false ->
  token_free pre ->
  token_free (String c pre).
Proof.
  intros Hg Hpre p0 d suf0 E.
  destruct p0 as [|c0 p0]; simpl in E; injection E as -> E.
  - subst pre. simpl in Hg. exact Hg.
  - exact (Hpre p0 d suf0 E).
Qed.

Lemma match_is_first_token (msg ds : string) :
  match_hash_digits msg = Some ds -> first_token msg ds.
Proof.
  induction msg as [|c r IH]; simpl; [discriminate|].
  destruct ((c =? "#")%char && starts_with_digit r) eqn:Hg.
  - intros [= <-]. apply andb_true_iff in Hg as [Hc Hr].
    apply Ascii.eqb_eq in Hc. subst c.
    destruct (take_digits_split r) as (suf & Hs & Hd & Hsuf).
    exists "", suf. simpl. split; [now rewrite <- Hs|].
    split; [intros [|? ?] ? ? ?; discriminate|].
    split; [|now split].
    destruct r as [|d r]; [discriminate|]. simpl in Hr |- *.
    rewrite Hr. discriminate.
  - intros Hm. destruct (IH Hm) as (pre & suf & -> & Hpre & Hne & Hd & Hsuf).
    exists (String c pre), suf. simpl. split; [reflexivity|].
    split; [now apply (token_free_cons c pre (ds ++ suf))|].
    now repeat split.
Qed.

Lemma number_of_Z_nonneg (n z : Z) :
  0 <= n -> number_of_Z n = Finite z -> 0 <= z.
Proof.
  intros Hn. unfold number_of_Z.
  destruct (n <? 2 ^ 53) eqn:Hsmall; [now intros [= <-]|].
  apply Z.ltb_ge in Hsmall.
  assert (Hlog : 53 <= Z.log2 n) by (apply Z.log2_le_pow2; lia).
  set (e := Z.log2 n - 52).
  assert (He : 0 < 2 ^ e) by (apply Z.pow_pos_nonneg; lia).
  assert (Hq : 0 <= n / 2 ^ e) by (apply Z.div_pos; lia).
  cbv zeta.
  match goal with
  | |- (if ?v <? _ then _ else _) = _ -> _ =>
      assert (0 <= v); [|destruct (v <? 2 ^ 1024); [now intros [= <-]|discriminate]]
  end.
  apply Z.mul_nonneg_nonneg; [|lia].
  destruct (n mod 2 ^ e <? 2 ^ (e - 1)); [lia|].
  destruct (2 ^ (e - 1) <? n mod 2 ^ e); [lia|].
  destruct (Z.even (n / 2 ^ e)); lia.
Qed.

Lemma number_of_Z_finite (n : Z) :
  0 <= n < 2 ^ 1023 -> exists z, number_of_Z n = Finite z.
Proof.
  intros [Hn Hbig]. unfold number_of_Z.
  destruct (n <? 2 ^ 53) eqn:Hsmall; [now exists n|].
  apply Z.ltb_ge in Hsmall.
  assert (Hpos : 0 < n) by (change (2 ^ 53) with 9007199254740992 in Hsmall; lia).
  assert (Hlog : 53 <= Z.log2 n) by (apply Z.log2_le_pow2; lia).
  assert (Hlog' : Z.log2 n < 1023) by (apply Z.log2_lt_pow2; lia).
  set (e := Z.log2 n - 52).
  assert (He : 0 < 2 ^ e) by (apply Z.pow_pos_nonneg; lia).
  assert (Hq : n / 2 ^ e < 2 ^ 53).
  { apply Z.div_lt_upper_bound; [exact He|].
    rewrite <- Z.pow_add_r by lia.
    replace (e + 53) with (Z.succ (Z.log2 n)) by lia.
    now apply Z.log2_spec. }
  assert (Hq0 : 0 <= n / 2 ^ e) by (apply Z.div_pos; lia).
  assert (Hpow : 2 ^ 53 * 2 ^ e <= 2 ^ 1023).
  { rewrite <- Z.pow_add_r by lia. apply Z.pow_le_mono_r; lia. }
  assert (Hlast : 2 ^ 1023 < 2 ^ 1024) by (apply Z.pow_lt_mono_r; lia).
  cbv zeta.
  match goal with
  | |- exists z, (if ?v <? _ then _ else _) = _ =>
      assert (Hv : v <= 2 ^ 53 * 2 ^ e)
  end.
  { apply Z.mul_le_mono_nonneg_r; [lia|].
    destruct (n mod 2 ^ e <? 2 ^ (e - 1)); [lia|].
    destruct (2 ^ (e - 1) <? n mod 2 ^ e); [lia|].
    destruct (Z.even (n / 2 ^ e)); lia. }
  match goal with
  | |- exists z, (if ?v <? ?b then _ else _) = _ =>
      replace (v <? b) with true by (symmetry; apply Z.ltb_lt; lia)
  end.
  eexists. reflexivity.
Qed.







End TokenFacts.

(** X13.  The capture of [/#(\d+)/] is exactly the first token of the
    message: the match succeeds with [ds] if and only if the message is
    some text without a [#<digit>], then [#], then the non-empty run of
    digits [ds], then text that does not go on with a digit. *)
Theorem first_match_characterised (msg ds : string) :
  Js.match_hash_digits msg = Some ds <-> first_token msg ds.
Proof.
  split.
  - apply TokenFacts.match_is_first_token.
  - apply JsFacts.match_first_token.
Qed.

(** X14.  A derived pull-request id is never negative, and it is a finite
    number whenever the token has at most 307 digits. *)
Theorem derived_id_range (msg : string) :
  (forall z, derive_pr_id (Some msg) = Some (Js.Finite z) -> 0 <= z)
  /\ (forall ds,
        Js.match_hash_digits msg = Some ds ->
        (String.length ds <= 307)%nat ->
        exists z, derive_pr_id (Some msg) = Some (Js.Finite z) /\ 0 <= z).
Proof.
  assert (Hnn : forall ds z,
            Js.match_hash_digits msg = Some ds ->
            Js.parseInt ds = Js.Finite z -> 0 <= z).
  { intros ds z Hm Hz.
    destruct (TokenFacts.match_is_first_token msg ds Hm)
      as (pre & suf & _ & _ & _ & Hd & _).
    unfold Js.parseInt in Hz. rewrite (JsFacts.take_digits_all ds Hd) in Hz.
    apply (TokenFacts.number_of_Z_nonneg (Js.decimal_value ds)); [|exact Hz].
    apply (JsFacts.decimal_acc_bound ds 0 Hd). lia. }
  split.
  - intros z. unfold derive_pr_id.
    destruct (Js.match_hash_digits msg) as [ds|] eqn:Hm; [|discriminate].
    intros [= Hz]. exact (Hnn ds z eq_refl Hz).
  - intros ds Hm Hlen.
    destruct (TokenFacts.match_is_first_token msg ds Hm)
      as (pre & suf & _ & _ & _ & Hd & _).
    destruct (TokenFacts.number_of_Z_finite (Js.decimal_value ds)) as [z Hz].
    { pose proof (JsFacts.decimal_acc_bound ds 0 Hd ltac:(lia)) as [H0 Hb].
      split; [exact H0|]. unfold Js.decimal_value.
      assert (10 ^ Z.of_nat (String.length ds) <= 10 ^ 307)
        by (apply Z.pow_le_mono_r; lia).
      assert (10 ^ 307 < 2 ^ 1023) by (apply Z.ltb_lt; vm_compute; reflexivity).
      lia. }
    assert (Hp : Js.parseInt ds = Js.Finite z)
      by (unfold Js.parseInt; now rewrite (JsFacts.take_digits_all ds Hd)).
    exists z. unfold derive_pr_id. rewrite Hm, Hp.
    split; [reflexivity|exact (Hnn ds z Hm Hp)].
Qed.



(** ** The further properties at work on the sample services *)

(** X2 on pull request 7 without [include_diff]. *)
Lemma diffs_only_on_request_witness :
  Forall (fun r => is_diff_request r = false)
    (snd (run Sample.remote (get_pr_details (mkDetailsArgs None (Some 7) None))
            tt))
  /\ Nat.le
       (List.length
          (snd (run Sample.remote
                  (get_pr_details (mkDetailsArgs None (Some 7) None)) tt)))
       2.
Proof.
  apply (diffs_only_on_request Sample.remote (mkDetailsArgs None (Some 7) None)
           tt).
  discriminate.
Defined.

(** X3 on pull request 9, which the sample service does not know. *)
Lemma resolution_failure_aborts_witness :
  run Sample.remote (get_pr_details (mkDetailsArgs None (Some 9) None)) tt
  = (error_result
       "Error fetching PR with diff: Bitbucket API error: 404 Not Found",
     tt, [GetPullRequest 9]).
Proof.
  exact (proj1 (resolution_failure_aborts Sample.remote
                  (mkDetailsArgs None (Some 9) None) tt tt
                  "Bitbucket API error: 404 Not Found" _
                  eq_refl eq_refl eq_refl)).
Defined.

(** X4 on the second sample service, where the commits cannot be
    reached. *)
Lemma commits_rejection_aborts_witness :
  run Fixture.remote (get_pr_details (mkDetailsArgs None (Some 7) None)) tt
  = (error_result "Error fetching PR with diff: socket hang up", tt,
     [GetPullRequest 7; GetPullRequestCommits 7]).
Proof.
  exact (commits_rejection_aborts Fixture.remote
           (mkDetailsArgs None (Some 7) None) Sample.pr7 tt tt tt
           [GetPullRequest 7] (NetworkError "socket hang up") "socket hang up"
           eq_refl eq_refl eq_refl eq_refl).
Defined.

(** X5 on the second sample service: the diff is included by default. *)
Lemma consolidated_diff_witness :
  exists p,
    run Fixture.remote (get_pr_with_diff (mkDetailsArgs None (Some 7) None)) tt
    = (mkToolResult (Stringified p) false, tt,
       [GetPullRequest 7; GetPullRequestDiff 7])
    /\ w_diff (w_pull_request p) = Some "diff --git a/login.ts b/login.ts"
    /\ w_id (w_pull_request p) = 7.
Proof.
  exact (proj1 (proj2 (consolidated_diff Fixture.remote
                         (mkDetailsArgs None (Some 7) None) Sample.pr7 tt tt
                         [GetPullRequest 7] eq_refl eq_refl)
                  ltac:(discriminate) _ tt eq_refl)
           "diff --git a/login.ts b/login.ts" (conj eq_refl eq_refl)).
Defined.

(** X6 on the sample store. *)
Lemma comment_creation_witness :
  exists p,
    run serve (add_pr_comment 7 "looks good") Sample.store
    = (mkToolResult (Stringified p) false,
       snd (serve (PostComment 7 (mkCommentPayload "looks good" None))
              Sample.store),
       [PostComment 7 (mkCommentPayload "looks good" None)])
    /\ a_pull_request_id p = 7
    /\ a_id (a_comment p) = VNum 100
    /\ a_content (a_comment p) = "looks good"
    /\ a_author (a_comment p) = VStr "author".
Proof.
  exact (proj1 (proj2 (comment_creation serve 7 "looks good" Sample.store))
           _ _ _ eq_refl (conj eq_refl eq_refl)).
Defined.

(** X7 on the three sample pipelines: two lookups, in order. *)
Lemma pipeline_lookups_witness :
  exists p s2,
    run Sample.remote (list_pipelines (mkListArgs None None None None)) tt
    = (mkToolResult (Stringified p) false, s2,
       [ListPipelines 10 1 None None; GetCommit "deadbeef";
        GetCommit "c0ffee"])
    /\ List.length (items p) = 3%nat
    /\ total_count p = VNum 3.
Proof.
  exact (pipeline_lookups Sample.remote (mkListArgs None None None None) _
           (Sample.page_of
              [Sample.pipeline1; Sample.pipeline2; Sample.pipeline3])
           tt tt eq_refl (conj eq_refl eq_refl)).
Defined.

(** X8 on the three sample pipelines. *)
Lemma pipeline_views_in_order_witness :
  exists p,
    content
      (fst (fst (run Sample.remote
                   (list_pipelines (mkListArgs None None None None)) tt)))
    = Stringified p
    /\ Forall2 view_of
         [Sample.pipeline1; Sample.pipeline2; Sample.pipeline3] (items p).
Proof.
  eexists. split; [reflexivity|].
  exact (pipeline_views_in_order Sample.remote
           (mkListArgs None None None None) _
           (Sample.page_of
              [Sample.pipeline1; Sample.pipeline2; Sample.pipeline3])
           tt tt _ eq_refl (conj eq_refl eq_refl) eq_refl).
Defined.

(** X9 on the third sample pipeline. *)
Lemma lookup_fills_message_witness :
  exists v,
    run Sample.remote (pipeline_view Sample.pipeline3) tt
    = (v, tt, [GetCommit "c0ffee"])
    /\ message_of (p_target v) = Some "#7 and #12 both referenced"
    /\ p_pr_id v = Some (Js.Finite 7).
Proof.
  destruct (lookup_fills_message Sample.remote Sample.pipeline3 "c0ffee" _
              {| cd_message := Some "#7 and #12 both referenced" |} tt tt
              eq_refl eq_refl ltac:(discriminate) eq_refl
              (conj eq_refl eq_refl)) as (v & Hrun & Hm & Hid & _).
  exists v. split; [exact Hrun|]. split; [exact Hm|exact Hid].
Defined.

(** X10 on the sample service, which lists no comments. *)
Lemma listing_failure_reported_witness :
  run Sample.remote (get_pr_comments 7 None) tt
  = (error_result "Error fetching PR comments: fetch failed", tt,
     [ListComments 7 50 None]).
Proof.
  exact (proj2 (proj2 (listing_failure_reported Sample.remote "fetch failed"
                         tt tt))
           7 None (NetworkError "fetch failed") eq_refl eq_refl).
Defined.

(** X11 on the sample service: two pull requests, 7 then 8. *)
Lemma pull_requests_page_listed_witness :
  exists p,
    run Sample.remote
      (list_pull_requests (mkListArgs (Some MERGED) (Some 10) (Some 2) None))
      tt
    = (mkToolResult (Stringified p) false, tt,
       [ListPullRequests MERGED 10 2 None])
    /\ map s_id (items p) = [7; 8]
    /\ page p = 2
    /\ page_length p = 10.
Proof.
  destruct (pull_requests_page_listed Sample.remote
              (mkListArgs (Some MERGED) (Some 10) (Some 2) None) _
              (Sample.page_of [Sample.pr7; Sample.pr8]) tt tt
              eq_refl (conj eq_refl eq_refl))
    as (p & Hrun & _ & Hids & _ & _ & Hpage & Hlen & _).
  exists p. split; [exact Hrun|]. split; [exact Hids|].
  split; [exact Hpage|exact Hlen].
Defined.

(** X12 on the sample store: the one comment of pull request 7. *)
Lemma comments_page_listed_witness :
  exists p,
    run serve (get_pr_comments 7 None) Sample.store
    = (mkToolResult (Stringified p) false, Sample.store,
       [ListComments 7 50 None])
    /\ cs_pull_request_id p = 7
    /\ map k_content (cs_comments p) = ["first"]
    /\ map k_inline (cs_comments p) = [None].
Proof.
  destruct (comments_page_listed serve 7 None _
              (mkPage [stored_comment (mkStore 98 [])
                         (mkCommentPayload "first" None)]
                 (VNum 1) None None)
              Sample.store Sample.store eq_refl (conj eq_refl eq_refl))
    as (p & Hrun & Hid & _ & Hc & Hi & _).
  exists p. split; [exact Hrun|]. split; [exact Hid|].
  split; [exact Hc|exact Hi].
Defined.

(** X13 at "see #15, then #2". *)
Lemma first_match_characterised_witness :
  first_token "see #15, then #2" "15".
Proof.
  exact (proj1 (first_match_characterised "see #15, then #2" "15") eq_refl).
Defined.

(** X14 at a token with leading zeros. *)
Lemma derived_id_range_witness :
  exists z, derive_pr_id (Some "build #007 passed") = Some (Js.Finite z)
            /\ 0 <= z.
Proof.
  apply (proj2 (derived_id_range "build #007 passed") "007"); [reflexivity|].
  simpl. lia.
Defined.



(** X17 on the branch "feature/login". *)
Lemma branch_search_method_witness :
  exists p,
    content
      (fst (fst (run Sample.remote
                   (get_pr_details
                      (mkDetailsArgs (Some "feature/login") None None)) tt)))
    = Stringified p
    /\ search_method p = "source_branch: feature/login".
Proof.
  eexists. split; [reflexivity|].
  exact (proj1 (branch_search_method Sample.remote
                  (mkDetailsArgs (Some "feature/login") None None)
                  "feature/login" tt eq_refl eq_refl ltac:(discriminate)
                  _ eq_refl)).
Defined.
